(** * AoE4 API integration: synchronisation pipeline and SQL generator

    A shallow embedding of the Python sources

    - [src/sync/sync_service.py]      (class [SyncService]),
    - [src/api/aoe4world_client.py]   (class [AoE4WorldAPIClient]),
    - [src/database/supabase_client.py] (the constructor and the two
      [upsert_*] writers),
    - [docs/generate_import_sql.py]   (the batch SQL generator),
    - [scripts/sync_data.py]          (the command line entry point),

    together with the properties the specification states about them. *)

From Stdlib Require Import ZArith Ascii String DecimalString List Lia.
From stdpp Require Import base tactics option list sorting gmap strings.

Local Open Scope Z_scope.

(** ** Python strings *)

Module PyStr.

(** A Python [str] is a sequence of code points.  A [string] holds its
    UTF-8 encoding, one [ascii] per byte: a code point below 128 is one
    byte, any other a leading byte followed by continuation bytes, which
    are the bytes from 128 to 191.  The characters the sources search
    for and replace are all below 128, and such a byte never occurs
    inside the encoding of another code point, so searching and
    replacing them goes byte by byte; counting and cutting go by code
    point. *)
Definition is_continuation (c : ascii) : bool :=
  Nat.leb 128 (nat_of_ascii c) && Nat.ltb (nat_of_ascii c) 192.

(** [len(s)]: the number of code points. *)
Fixpoint str_len (s : string) : nat :=
  match s with
  | EmptyString => O
  | String c r => if is_continuation c then str_len r else S (str_len r)
  end.

(** The characters the sources single out. *)
Definition hyphen : ascii := "-"%char.
Definition underscore : ascii := "_"%char.
Definition quote : ascii := "'"%char.
Definition backslash : ascii := "\"%char.
Definition dquote : ascii := Ascii.ascii_of_nat 34.

(** [s.replace(old, new)] for a one-character pattern [old]: every
    occurrence of [old], left to right, is replaced by [new]. *)
Fixpoint str_replace (old : ascii) (new : string) (s : string) : string :=
  match s with
  | EmptyString => EmptyString
  | String c r =>
      if Ascii.eqb c old
      then new +:+ str_replace old new r
      else String c (str_replace old new r)
  end.

(** [s[:n]]: the first [n] code points, each with all of its bytes. *)
Fixpoint slice_to (n : nat) (s : string) : string :=
  match s with
  | EmptyString => EmptyString
  | String c r =>
      if is_continuation c then String c (slice_to n r)
      else match n with
           | O => EmptyString
           | S k => String c (slice_to k r)
           end
  end.

(** [c in s] for a one-character [c]. *)
Fixpoint contains_char (c : ascii) (s : string) : bool :=
  match s with
  | EmptyString => false
  | String d r => Ascii.eqb d c || contains_char c r
  end.

(** Character-wise image of a string. *)
Fixpoint map_chars (f : ascii -> ascii) (s : string) : string :=
  match s with
  | EmptyString => EmptyString
  | String c r => String (f c) (map_chars f r)
  end.

(** [c * n]. *)
Fixpoint str_repeat (c : ascii) (n : nat) : string :=
  match n with
  | O => EmptyString
  | S k => String c (str_repeat c k)
  end.

End PyStr.

(** ** Identifier normalisation ([SyncService._normalize_civ_id]) *)

Module Normalize.
Import PyStr.

(** The literal of [civ_map], in source order. *)
Definition civ_table : list (string * string) :=
  [ ("abbasid", "abbasid");
    ("ayyubids", "ayyubids");
    ("byzantines", "byzantines");
    ("chinese", "chinese");
    ("delhi", "delhi");
    ("english", "english");
    ("french", "french");
    ("hre", "hre");
    ("japanese", "japanese");
    ("malians", "malians");
    ("mongols", "mongols");
    ("ottomans", "ottomans");
    ("rus", "rus");
    ("golden-horde", "golden_horde");
    ("jeanne-darc", "jeanne_darc");
    ("lancaster", "lancaster");
    ("macedonian", "macedonian");
    ("order-of-the-dragon", "order_of_the_dragon");
    ("sengoku", "sengoku");
    ("templar", "templar");
    ("tughlaq", "tughlaq");
    ("zhu-xis-legacy", "zhuxi") ].

(** The dict built from the literal. *)
Definition civ_map : gmap string string := list_to_map civ_table.

(** [civ_map.get(civ_slug, civ_slug.replace('-', '_'))]. *)
Definition _normalize_civ_id (civ_slug : string) : string :=
  default (str_replace hyphen (String underscore EmptyString) civ_slug)
          (civ_map !! civ_slug).

End Normalize.

(** ** JSON values and the Python operations applied to them *)

Module Py.

(** Parsed JSON, as [json.load] and [response.json()] return it.  An
    object keeps its keys in insertion order.  [JNum] stands for a JSON
    number; the synchronisation code never computes with one, it only
    copies it from a reply into a row. *)
#[warnings="-register-all"]
Inductive json : Type :=
| JNull
| JBool (b : bool)
| JNum (n : Z)
| JStr (s : string)
| JList (l : list json)
| JDict (d : list (string * json)).

(** The exceptions the modelled code can meet; all of them derive from
    [Exception]. *)
Inductive exn : Type :=
| ConnectionError            (* [session.get]: transport failure *)
| HTTPError (status : Z)     (* [raise_for_status] *)
| JSONDecodeError            (* [response.json()] *)
| AttributeError             (* method lookup on a value without it *)
| TypeError                  (* iteration or item assignment *)
| ValueError                 (* [time.sleep] of a negative length *)
| APIError.                  (* the row-store rejects a request *)

Inductive result (A : Type) : Type :=
| Ok (a : A)
| Raise (e : exn).
Arguments Ok {A} a.
Arguments Raise {A} e.

(** Lookup in an object, first match. *)
Fixpoint assoc (k : string) (d : list (string * json)) : option json :=
  match d with
  | [] => None
  | (k', v) :: r => if String.eqb k' k then Some v else assoc k r
  end.

(** [d[k] = v] on an object: overwrite in place, or append a new key. *)
Fixpoint dict_set (k : string) (v : json) (d : list (string * json))
  : list (string * json) :=
  match d with
  | [] => [(k, v)]
  | (k', v') :: r =>
      if String.eqb k' k then (k, v) :: r else (k', v') :: dict_set k v r
  end.

(** [x.get(k, dflt)]: only a dict has the method. *)
Definition py_get (x : json) (k : string) (dflt : json) : result json :=
  match x with
  | JDict d => Ok (default dflt (assoc k d))
  | _ => Raise AttributeError
  end.

(** [x[k] = v]: a dict takes it; a list, a string, a number, a boolean
    and [None] raise [TypeError] for a string key. *)
Definition py_setitem (x : json) (k : string) (v : json) : result json :=
  match x with
  | JDict d => Ok (JDict (dict_set k v d))
  | _ => Raise TypeError
  end.

(** The elements [for e in x] visits: the items of a list, the keys of a
    dict, the characters of a string; anything else is not iterable. *)
Definition py_iter (x : json) : result (list json) :=
  match x with
  | JList l => Ok l
  | JDict d => Ok (map (fun kv => JStr (fst kv)) d)
  | JStr s =>
      Ok (map (fun c => JStr (String c EmptyString)) (list_ascii_of_string s))
  | _ => Raise TypeError
  end.

(** [len(l)]. *)
Definition len {A} (l : list A) : Z := Z.of_nat (length l).

End Py.

(** ** The outside world and the monad of the synchronisation code *)

Module World.
Import Py.

(** What the remote API does with one GET: the transport fails, or a
    response arrives with a status and a body that parses as JSON or
    does not. *)
Inductive HttpReply : Type :=
| NoReply
| Reply (status : Z) (body : option json).

Inductive Level : Type := Info | Error.

(** Observable events, in the order they happen. *)
Inductive Event : Type :=
| EvSleep (d : Z)
| EvGet (t_start t_end : Z) (url : string)
        (params : list (string * json)) (reply : HttpReply)
| EvUpsert (table : string) (rows : list json) (err : option exn)
| EvLog (lvl : Level).

(** The behaviour of everything outside the process.  Each oracle is
    asked with the number of events that happened before. *)
Record Env : Type := {
  latency : nat -> Z;          (* how long a GET takes *)
  oversleep : nat -> Z;        (* how much longer than asked a sleep lasts *)
  http : nat -> string -> list (string * json) -> HttpReply;
  db : nat -> string -> list json -> option exn
}.

(** The wall clock, the client's [last_request_time] field, and the
    history of events.  Time is counted in clock ticks. *)
Record State : Type := {
  now : Z;
  last_request_time : Z;
  trace : list Event
}.

Definition Py (A : Type) : Type := State -> result A * State.

#[global] Instance Py_ret : MRet Py := fun A a s => (Ok a, s).
#[global] Instance Py_bind : MBind Py := fun A B f m s =>
  match m s with
  | (Ok a, s') => f a s'
  | (Raise e, s') => (Raise e, s')
  end.

Definition lift {A} (r : result A) : Py A := fun s => (r, s).

(** [try: body / except Exception as e: handler e]. *)
Definition try_except {A} (body : Py A) (handler : exn -> Py A) : Py A :=
  fun s =>
    match body s with
    | (Ok a, s') => (Ok a, s')
    | (Raise e, s') => handler e s'
    end.

Definition emit (ev : Event) (s : State) : State :=
  {| now := now s; last_request_time := last_request_time s;
     trace := trace s ++ [ev] |}.

Definition advance (d : Z) (s : State) : State :=
  {| now := now s + d; last_request_time := last_request_time s;
     trace := trace s |}.

Definition stamp (t : Z) (s : State) : State :=
  {| now := now s; last_request_time := t; trace := trace s |}.

(** [logger.info(..)] and [logger.error(..)]. *)
Definition log (lvl : Level) : Py unit := fun s => (Ok tt, emit (EvLog lvl) s).

(** [for x in xs: acc.append(f x)] on a list object [acc] that lives
    outside the loop: what was appended before [f] raises stays in it.
    The result is the list afterwards and the exception, if any. *)
Fixpoint for_append {A B} (f : A -> Py B) (xs : list A) (acc : list B)
  (s : State) : (list B * option exn) * State :=
  match xs with
  | [] => ((acc, None), s)
  | x :: r =>
      match f x s with
      | (Ok b, s') => for_append f r (acc ++ [b]) s'
      | (Raise e, s') => ((acc, Some e), s')
      end
  end.

(** [[f(x) for x in xs]] built inside the monad. *)
Fixpoint map_py {A B} (f : A -> Py B) (xs : list A) : Py (list B) :=
  match xs with
  | [] => mret []
  | x :: r => b ← f x; bs ← map_py f r; mret (b :: bs)
  end.

End World.

(** ** The remote data source client ([AoE4WorldAPIClient]) *)

Module Api.
Import Py World.

Definition BASE_URL : string := "https://aoe4world.com/api/v0".

Section Client.
Variable env : Env.
(** The constructor argument [rate_limit_delay], in clock ticks. *)
Variable rate_limit_delay : Z.
(** [datetime.isoformat], the text of a clock reading. *)
Variable isoformat : Z -> string.

(** [time.time()]. *)
Definition time_time : Py Z := fun s => (Ok (now s), s).

(** [datetime.utcnow().isoformat()]. *)
Definition utcnow_iso : Py json := fun s => (Ok (JStr (isoformat (now s))), s).

(** [time.sleep(d)]: at least [d] ticks pass. *)
Definition time_sleep (d : Z) : Py unit := fun s =>
  if d <? 0 then (Raise ValueError, s)
  else (Ok tt, emit (EvSleep d)
                    (advance (d + oversleep env (length (trace s))) s)).

(** Reading and writing the field [self.last_request_time]. *)
Definition get_last_request_time : Py Z :=
  fun s => (Ok (last_request_time s), s).
Definition set_last_request_time (t : Z) : Py unit :=
  fun s => (Ok tt, stamp t s).

(** [_rate_limit]. *)
Definition _rate_limit : Py unit :=
  current_time ← time_time;
  last ← get_last_request_time;
  let time_since_last_request := current_time - last in
  _ ← (if time_since_last_request <? rate_limit_delay
       then time_sleep (rate_limit_delay - time_since_last_request)
       else mret tt);
  t ← time_time;
  set_last_request_time t.

(** [self.session.get(url, params=params)]: the request goes out at the
    current time and the reply is there [latency] ticks later. *)
Definition session_get (url : string) (params : list (string * json))
  : Py HttpReply := fun s =>
  let k := length (trace s) in
  let reply := http env k url params in
  let t_end := now s + latency env k in
  let s' := emit (EvGet (now s) t_end url params reply)
                 (advance (latency env k) s) in
  match reply with
  | NoReply => (Raise ConnectionError, s')
  | Reply _ _ => (Ok reply, s')
  end.

(** [response.raise_for_status()] followed by [response.json()]. *)
Definition read_reply (reply : HttpReply) : result json :=
  match reply with
  | NoReply => Raise ConnectionError
  | Reply status body =>
      if (400 <=? status) && (status <? 600) then Raise (HTTPError status)
      else match body with
           | Some j => Ok j
           | None => Raise JSONDecodeError
           end
  end.

(** [_make_request]. *)
Definition _make_request (endpoint : string)
  (params : list (string * json)) : Py json :=
  _ ← _rate_limit;
  let url := BASE_URL +:+ endpoint in
  response ← session_get url params;
  lift (read_reply response).

(** [get_civ_stats]. *)
Definition get_civ_stats (leaderboard rank_level : string) : Py json :=
  let endpoint := "/stats/" +:+ leaderboard in
  let params := [("rank_level", JStr rank_level)] in
  data ← _make_request endpoint params;
  lift (py_get data "civilizations" (JList [])).

(** [get_leaderboard]. *)
Definition get_leaderboard (leaderboard : string) (count page : Z)
  : Py json :=
  let endpoint := "/leaderboards/" +:+ leaderboard in
  let params := [("count", JNum (Z.min count 200)); ("page", JNum page)] in
  _make_request endpoint params.

(** The body of the loop of [get_top_players]: two item assignments on
    the player object. *)
Definition tag_player (leaderboard : string) (player : json) : Py json :=
  p1 ← lift (py_setitem player "leaderboard" (JStr leaderboard));
  t ← utcnow_iso;
  lift (py_setitem p1 "fetched_at" t).

(** [get_top_players].  The loop mutates the player objects in place;
    the value returned is the [players] object itself, so a list comes
    back with its elements updated and any other iterable comes back
    as it is when the loop body never ran. *)
Definition get_top_players (leaderboard : string) (count : Z) : Py json :=
  data ← get_leaderboard leaderboard count 1;
  players ← lift (py_get data "players" (JList []));
  items ← lift (py_iter players);
  tagged ← map_py (tag_player leaderboard) items;
  mret (match players with JList _ => JList tagged | _ => players end).

(** [str(n)] of an integer, as an f-string prints it. *)
Definition str_of_int (n : Z) : string := NilZero.string_of_int (Z.to_int n).

(** [get_player]; no query parameters. *)
Definition get_player (player_id : Z) : Py json :=
  _make_request ("/players/" +:+ str_of_int player_id) [].

(** [search_players]. *)
Definition search_players (query : string) : Py json :=
  data ← _make_request "/players/search" [("query", JStr query)];
  lift (py_get data "players" (JList [])).

(** [get_player_games]. *)
Definition get_player_games (player_id count page : Z) : Py json :=
  let endpoint := "/players/" +:+ str_of_int player_id +:+ "/games" in
  let params := [("count", JNum count); ("page", JNum page)] in
  data ← _make_request endpoint params;
  lift (py_get data "games" (JList [])).

(** [get_game]. *)
Definition get_game (game_id : Z) : Py json :=
  _make_request ("/games/" +:+ str_of_int game_id) [].

(** [get_map_stats]. *)
Definition get_map_stats (leaderboard : string) : Py json :=
  data ← _make_request ("/stats/" +:+ leaderboard +:+ "/maps") [];
  lift (py_get data "maps" (JList [])).

(** A line [get_all_civ_stats] prints: the pair that failed and the
    exception. *)
Inductive Printed : Type :=
| FetchError (leaderboard rank_level : string) (e : exn).

(** The body of the tagging loop of [get_all_civ_stats]: three item
    assignments on the stat object. *)
Definition tag_stat (leaderboard rank_level : string) (stat : json) : Py json :=
  s1 ← lift (py_setitem stat "leaderboard" (JStr leaderboard));
  s2 ← lift (py_setitem s1 "rank_level" (JStr rank_level));
  t ← utcnow_iso;
  lift (py_setitem s2 "fetched_at" t).

(** The [try] block of [get_all_civ_stats] up to the elements that
    [all_stats.extend(stats)] appends: the fetch, the tagging loop, and
    the elements of [stats] afterwards. *)
Definition fetch_tagged (leaderboard rank_level : string) : Py (list json) :=
  stats ← get_civ_stats leaderboard rank_level;
  items ← lift (py_iter stats);
  tagged ← map_py (tag_stat leaderboard rank_level) items;
  lift (py_iter (match stats with JList _ => JList tagged | _ => stats end)).

(** One turn of the inner loop of [get_all_civ_stats], on the list
    [all_stats] and the lines printed so far. *)
Definition all_stats_pair (leaderboard rank_level : string)
    (acc : list json * list Printed) (s : State)
  : (list json * list Printed) * State :=
  match fetch_tagged leaderboard rank_level s with
  | (Ok items, s') => ((fst acc ++ items, snd acc), s')
  | (Raise e, s') =>
      ((fst acc, snd acc ++ [FetchError leaderboard rank_level e]), s')
  end.

Fixpoint all_stats_rank_levels (leaderboard : string)
    (rank_levels : list string) (acc : list json * list Printed) (s : State)
  : (list json * list Printed) * State :=
  match rank_levels with
  | [] => (acc, s)
  | rank_level :: r =>
      let '(acc', s') := all_stats_pair leaderboard rank_level acc s in
      all_stats_rank_levels leaderboard r acc' s'
  end.

Fixpoint all_stats_leaderboards (leaderboards rank_levels : list string)
    (acc : list json * list Printed) (s : State)
  : (list json * list Printed) * State :=
  match leaderboards with
  | [] => (acc, s)
  | leaderboard :: r =>
      let '(acc', s') := all_stats_rank_levels leaderboard rank_levels acc s in
      all_stats_leaderboards r rank_levels acc' s'
  end.

(** [get_all_civ_stats]: the list it returns and the lines it prints. *)
Definition get_all_civ_stats (s : State)
  : (list json * list Printed) * State :=
  all_stats_leaderboards
    ["rm_solo"; "rm_team"; "rm_1v1"; "rm_2v2"; "rm_3v3"; "rm_4v4"]
    ["all"; "bronze"; "silver"; "gold"; "platinum"; "diamond"; "conqueror"]
    ([], []) s.

End Client.
End Api.

(** ** The row-store client ([SupabaseDBClient]) *)

Module Db.
Import Py World.

Section Client.
Variable env : Env.

(** [self.client.table(t).upsert(rows).execute()]. *)
Definition table_upsert (table : string) (rows : list json) : Py unit :=
  fun s =>
    let err := db env (length (trace s)) table rows in
    let s' := emit (EvUpsert table rows err) s in
    match err with
    | None => (Ok tt, s')
    | Some e => (Raise e, s')
    end.

(** [upsert_civ_meta_stats]. *)
Definition upsert_civ_meta_stats (stats : list json) : Py unit :=
  table_upsert "civilization_meta_stats" stats.

(** [upsert_leaderboard_players]. *)
Definition upsert_leaderboard_players (players : list json) : Py unit :=
  table_upsert "leaderboard_players" players.

End Client.
End Db.

(** ** The constructor of the row-store client *)

Module DbInit.
Import Py.

(** Truth of an optional string: [None] and the empty string are false. *)
Definition truthy (x : option string) : bool :=
  match x with
  | Some s => negb (String.eqb s EmptyString)
  | None => false
  end.

(** [x or y]. *)
Definition py_or (x y : option string) : option string :=
  if truthy x then x else y.

(** [SupabaseDBClient.__init__] up to its call of [create_client]: the URL
    and the key the client is created with, or the [ValueError].
    [environ] is [os.environ]. *)
Definition init (url key : option string) (environ : gmap string string)
  : result (string * string) :=
  let self_url := py_or url (environ !! "SUPABASE_URL") in
  let self_key := py_or key (environ !! "SUPABASE_KEY") in
  if negb (truthy self_url) || negb (truthy self_key)
  then Raise ValueError
  else match self_url, self_key with
       | Some u, Some k => Ok (u, k)
       | _, _ => Raise ValueError
       end.

End DbInit.

(** ** The synchronisation orchestrator ([SyncService]) *)

Module Sync.
Import Py World Normalize.

Definition all_leaderboards : list string :=
  ["rm_solo"; "rm_team"; "rm_1v1"; "rm_2v2"; "rm_3v3"; "rm_4v4"].

Definition all_rank_levels : list string :=
  ["all"; "bronze"; "silver"; "gold"; "platinum"; "diamond"; "conqueror"].

Section Service.
Variable env : Env.
Variable rate_limit_delay : Z.
Variable isoformat : Z -> string.

(** The call [self._normalize_civ_id(x)] on whatever the reply held
    under [civ_slug]: the argument [civ_slug.replace('-', '_')] is
    evaluated before the table is consulted, so a value that is not a
    string has no [replace] and the call raises. *)
Definition normalize_call (x : json) : result json :=
  match x with
  | JStr civ_slug => Ok (JStr (_normalize_civ_id civ_slug))
  | _ => Raise AttributeError
  end.

(** The dict literal [db_record] of [sync_civ_meta_stats], its values
    evaluated in source order. *)
Definition stat_record (leaderboard rank_level : string) (stat : json)
  : Py json :=
  civ_slug ← lift (py_get stat "civ_slug" (JStr EmptyString));
  civ_id ← lift (normalize_call civ_slug);
  win_rate ← lift (py_get stat "win_rate" (JNum 0));
  pick_rate ← lift (py_get stat "pick_rate" (JNum 0));
  games_count ← lift (py_get stat "games_count" (JNum 0));
  wins ← lift (py_get stat "wins" (JNum 0));
  losses ← lift (py_get stat "losses" (JNum 0));
  last_updated ← Api.utcnow_iso isoformat;
  mret (JDict [ ("civ_id", civ_id);
                ("leaderboard", JStr leaderboard);
                ("rank_level", JStr rank_level);
                ("win_rate", win_rate);
                ("pick_rate", pick_rate);
                ("games_count", games_count);
                ("wins", wins);
                ("losses", losses);
                ("last_updated", last_updated) ]).

(** What the [try] block of [sync_civ_meta_stats] does before its inner
    loop: log, fetch, and start iterating over what came back. *)
Definition fetch_pair (leaderboard rank_level : string) : Py (list json) :=
  _ ← log Info;
  stats ← Api.get_civ_stats env rate_limit_delay leaderboard rank_level;
  lift (py_iter stats).

(** One turn of the inner [for rank_level] loop: the [try] block and its
    [except Exception] handler, on the list object [all_stats]. *)
Definition sync_pair (leaderboard rank_level : string)
  (all_stats : list json) (s : State) : list json * State :=
  match fetch_pair leaderboard rank_level s with
  | (Raise e, s1) => (all_stats, snd (log Error s1))
  | (Ok items, s1) =>
      match for_append (stat_record leaderboard rank_level)
                       items all_stats s1 with
      | ((all_stats', None), s2) => (all_stats', s2)
      | ((all_stats', Some e), s2) => (all_stats', snd (log Error s2))
      end
  end.

(** [for rank_level in rank_levels: ...]. *)
Fixpoint sync_rank_levels (leaderboard : string) (rank_levels : list string)
  (all_stats : list json) (s : State) : list json * State :=
  match rank_levels with
  | [] => (all_stats, s)
  | rank_level :: r =>
      let '(all_stats', s') := sync_pair leaderboard rank_level all_stats s in
      sync_rank_levels leaderboard r all_stats' s'
  end.

(** [for leaderboard in leaderboards: ...]. *)
Fixpoint sync_leaderboards (leaderboards rank_levels : list string)
  (all_stats : list json) (s : State) : list json * State :=
  match leaderboards with
  | [] => (all_stats, s)
  | leaderboard :: r =>
      let '(all_stats', s') :=
        sync_rank_levels leaderboard rank_levels all_stats s in
      sync_leaderboards r rank_levels all_stats' s'
  end.

(** [sync_civ_meta_stats]. *)
Definition sync_civ_meta_stats
  (leaderboards rank_levels : option (list string)) : Py Z :=
  let leaderboards := default all_leaderboards leaderboards in
  let rank_levels := default all_rank_levels rank_levels in
  _ ← log Info;
  all_stats ← (fun s =>
    let '(all_stats, s') := sync_leaderboards leaderboards rank_levels [] s in
    (Ok all_stats, s'));
  _ ← match all_stats with
      | [] => mret tt
      | _ :: _ =>
          _ ← log Info;
          _ ← Db.upsert_civ_meta_stats env all_stats;
          log Info
      end;
  mret (len all_stats).

(** [sync_civ_meta_stats_quick]. *)
Definition sync_civ_meta_stats_quick : Py Z :=
  sync_civ_meta_stats (Some ["rm_solo"]) (Some ["all"]).

(** The dict literal [db_record] of [sync_leaderboard]. *)
Definition player_record (leaderboard : string) (player : json) : Py json :=
  player_id ← lift (py_get player "profile_id" JNull);
  player_name ← lift (py_get player "name" (JStr EmptyString));
  rank ← lift (py_get player "rank" (JNum 0));
  rating ← lift (py_get player "rating" (JNum 0));
  games_count ← lift (py_get player "games_count" (JNum 0));
  wins ← lift (py_get player "wins" (JNum 0));
  losses ← lift (py_get player "losses" (JNum 0));
  win_rate ← lift (py_get player "win_rate" (JNum 0));
  last_updated ← Api.utcnow_iso isoformat;
  mret (JDict [ ("player_id", player_id);
                ("player_name", player_name);
                ("rank", rank);
                ("rating", rating);
                ("games_count", games_count);
                ("wins", wins);
                ("losses", losses);
                ("win_rate", win_rate);
                ("leaderboard", JStr leaderboard);
                ("last_updated", last_updated) ]).

(** The first half of the [try] block of [sync_leaderboard]: fetch the
    players and build [db_records]. *)
Definition player_records (leaderboard : string) (count : Z)
  : Py (list json) :=
  players ← Api.get_top_players env rate_limit_delay isoformat
                                leaderboard count;
  items ← lift (py_iter players);
  map_py (player_record leaderboard) items.

(** The [try] block of [sync_leaderboard]. *)
Definition sync_leaderboard_body (leaderboard : string) (count : Z) : Py Z :=
  db_records ← player_records leaderboard count;
  _ ← match db_records with
      | [] => mret tt
      | _ :: _ =>
          _ ← Db.upsert_leaderboard_players env db_records;
          log Info
      end;
  mret (len db_records).

(** [sync_leaderboard]. *)
Definition sync_leaderboard (leaderboard : string) (count : Z) : Py Z :=
  _ ← log Info;
  try_except (sync_leaderboard_body leaderboard count)
             (fun e => _ ← log Error; mret 0).

(** [sync_all_leaderboards]: the dict [results], in insertion order. *)
Definition sync_all_leaderboards (count : Z) : Py (list (string * Z)) :=
  map_py (fun leaderboard =>
            n ← sync_leaderboard leaderboard count;
            mret (leaderboard, n))
         all_leaderboards.

(** The dict [sync_all] returns. *)
Record SyncResults : Type := {
  civ_meta_stats : Z;
  leaderboards : list (string * Z);
  total_players : Z
}.

(** [sync_all]. *)
Definition sync_all : Py SyncResults :=
  _ ← log Info; _ ← log Info; _ ← log Info;
  _ ← log Info;
  n ← sync_civ_meta_stats None None;
  _ ← log Info;
  leaderboard_results ← sync_all_leaderboards 50;
  let total := foldr Z.add 0 (map snd leaderboard_results) in
  _ ← log Info; _ ← log Info; _ ← log Info; _ ← log Info; _ ← log Info;
  mret {| civ_meta_stats := n;
          leaderboards := leaderboard_results;
          total_players := total |}.

End Service.
End Sync.

(** ** The command-line tool ([scripts/sync_data.py]) *)

Module Cli.
Import Py World Sync.

(** The choices of [--mode]. *)
Inductive Mode : Type := Quick | Full | CivStats | Leaderboard.

(** The lines [main] prints. *)
Inductive Line : Type :=
| Starting (mode : Mode)
| Blank
| Complete.

Section Main.
Variable env : Env.
(** The default [rate_limit_delay] of the API client, 0.5 s, in ticks. *)
Variable half_second : Z.
Variable isoformat : Z -> string.
(** [supabase.create_client(url, key)], the library call that ends the
    constructor of the row-store client: it accepts the pair or raises. *)
Variable create_client : string -> string -> option exn.

(** The [if]/[elif] chain of [main]. *)
Definition run_mode (mode : Mode) (leaderboard : string) (count : Z)
  : Py unit :=
  match mode with
  | Quick =>
      _ ← sync_civ_meta_stats_quick env half_second isoformat;
      _ ← sync_leaderboard env half_second isoformat "rm_solo" 50;
      mret tt
  | Full =>
      _ ← sync_all env half_second isoformat;
      mret tt
  | CivStats =>
      _ ← sync_civ_meta_stats env half_second isoformat None None;
      mret tt
  | Leaderboard =>
      _ ← sync_leaderboard env half_second isoformat leaderboard count;
      mret tt
  end.

(** [main] for parsed arguments: [create_sync_service()] builds a new API
    client, whose [last_request_time] is 0, and a row-store client from
    the environment; then the mode runs between the lines printed.  The
    result is what [main] prints and whether it returns or raises. *)
Definition main (environ : gmap string string) (mode : Mode)
    (leaderboard : string) (count : Z) (s : State)
  : (result unit * list Line) * State :=
  match DbInit.init None None environ with
  | Raise e => ((Raise e, []), s)
  | Ok (url, key) =>
      match create_client url key with
      | Some e => ((Raise e, []), s)
      | None =>
          match run_mode mode leaderboard count (stamp 0 s) with
          | (Ok _, s') =>
              ((Ok tt, [Starting mode; Blank; Blank; Complete]), s')
          | (Raise e, s') => ((Raise e, [Starting mode; Blank]), s')
          end
      end
  end.

End Main.
End Cli.

(** ** The batch SQL generator ([docs/generate_import_sql.py]) *)

Module Gen.
Import PyStr Py.

(** [escape_sql]. *)
Definition escape_sql (text : json) : string :=
  match text with
  | JStr s =>
      slice_to 1000
        (str_replace backslash "\\" (str_replace quote "''" s))
  | _ => EmptyString
  end.

(** A cost object of the data files: resource name to amount. *)
Abbreviation Costs := (gmap string Z).

(** [costs.get(k, 0)]. *)
Definition cost_get (costs : Costs) (k : string) : Z := default 0 (costs !! k).

(** One element of [variations], with the keys the script reads; [None]
    is an absent key. *)
Record Variation : Type := {
  var_costs : option Costs;
  var_age : option Z;
  var_hitpoints : option Z;
  var_movement : option (gmap string Z)
}.

(** One element of the [data] list of a [*-unified.json] file, with the
    keys the script reads.  [e_id] is [get('id', '')]: the identifier, a
    string, or the empty string when the key is absent.  Names and
    descriptions are whatever JSON the file holds. *)
Record Entity : Type := {
  e_id : string;
  e_name : json;
  e_description : json;
  e_unique : bool;
  e_variations : list Variation;
  e_costs : option Costs;
  e_age : option Z
}.

(** One [output.write] of an [INSERT] line, with the values its f-string
    interpolates. *)
Inductive Stmt : Type :=
| InsertBase (table id name description type_tag icon_url : string)
| InsertCivUnit (civ_id unit_id : string) (unique_to_civ : bool)
    (age cost_food cost_wood cost_stone cost_gold build_time hitpoints
       movement_speed : Z)
| InsertCivBuilding (civ_id building_id : string) (unique_to_civ : bool)
    (age cost_food cost_wood cost_stone cost_gold build_time hitpoints : Z)
| InsertCivTechnology (civ_id technology_id : string) (unique_to_civ : bool)
    (age : option Z)
    (cost_food cost_wood cost_stone cost_gold research_time : Z).

(** The three base tables. *)
Inductive Kind : Type := KUnit | KBuilding | KTechnology.

Definition base_table (k : Kind) : string :=
  match k with
  | KUnit => "base_units"
  | KBuilding => "base_buildings"
  | KTechnology => "base_technologies"
  end.

Definition type_tag (k : Kind) : string :=
  match k with
  | KUnit => "unit"
  | KBuilding => "building"
  | KTechnology => "technology"
  end.

Definition img_dir (k : Kind) : string :=
  match k with
  | KUnit => "units"
  | KBuilding => "buildings"
  | KTechnology => "technologies"
  end.

(** The [INSERT INTO base_*] line of one entity. *)
Definition base_insert (k : Kind) (e : Entity) : Stmt :=
  InsertBase (base_table k) (e_id e)
    (escape_sql (e_name e)) (escape_sql (e_description e))
    (type_tag k)
    ("https://aoe4world.com/img/" +:+ img_dir k +:+ "/" +:+ e_id e +:+ ".png").

(** The files a glob matched: path to the parsed [data] list. *)
Abbreviation Files := (gmap string (list Entity)).

(** Order of paths under [sorted]: strings compare by character code. *)
Definition path_le (a b : string * list Entity) : Prop :=
  String.leb (fst a) (fst b) = true.

#[global] Instance path_le_dec : RelDecision path_le :=
  fun a b => decide (String.leb (fst a) (fst b) = true).

(** [for file_path in sorted(files)], each path with what it holds. *)
Definition sorted_files (files : Files) : list (string * list Entity) :=
  merge_sort path_le (map_to_list files).

(** All entities in the order the loops meet them. *)
Definition entities_in_order (files : Files) : list Entity :=
  concat (map snd (sorted_files files)).

(** The body of the inner loop of a base import.  The state is the dict
    of identifiers seen so far, which the script only uses as a set, and
    the lines written so far. *)
Definition base_step (k : Kind) (st : gset string * list Stmt) (e : Entity)
  : gset string * list Stmt :=
  let '(seen, out) := st in
  if bool_decide (e_id e = EmptyString) || bool_decide (e_id e ∈ seen)
  then st
  else (seen ∪ {[ e_id e ]}, out ++ [base_insert k e]).

(** A base import: both loops.  The three imports of the script are this
    loop with their own table, type tag and image directory. *)
Definition import_base (k : Kind) (files : Files) : gset string * list Stmt :=
  foldl (fun st file => foldl (base_step k) st (snd file))
        (∅, []) (sorted_files files).

Definition base_units : Files -> gset string * list Stmt := import_base KUnit.
Definition base_buildings : Files -> gset string * list Stmt :=
  import_base KBuilding.
Definition base_technologies : Files -> gset string * list Stmt :=
  import_base KTechnology.

(** The body of the inner loop of the civ-unit import; [None] is
    [continue]. *)
Definition civ_unit_row (civ_id : string) (unit : Entity) : option Stmt :=
  if bool_decide (e_id unit = EmptyString) then None
  else match e_variations unit with
       | [] => None
       | first_var :: _ =>
           let costs := default ∅ (var_costs first_var) in
           let movement := default ∅ (var_movement first_var) in
           let cost_food := cost_get costs "food" in
           let cost_wood := cost_get costs "wood" in
           let cost_stone := cost_get costs "stone" in
           let cost_gold :=
             cost_get costs "gold" + cost_get costs "oliveoil"
             + cost_get costs "vizier" in
           Some (InsertCivUnit civ_id (e_id unit) (e_unique unit)
                   (default 1 (var_age first_var))
                   cost_food cost_wood cost_stone cost_gold
                   (cost_get costs "time")
                   (default 0 (var_hitpoints first_var))
                   (cost_get movement "speed"))
       end.

(** The body of the inner loop of the civ-building import. *)
Definition civ_building_row (civ_id : string) (building : Entity)
  : option Stmt :=
  if bool_decide (e_id building = EmptyString) then None
  else match e_variations building with
       | [] => None
       | first_var :: _ =>
           let costs := default ∅ (var_costs first_var) in
           let cost_food := cost_get costs "food" in
           let cost_wood := cost_get costs "wood" in
           let cost_stone := cost_get costs "stone" in
           let cost_gold :=
             cost_get costs "gold" + cost_get costs "oliveoil"
             + cost_get costs "vizier" in
           Some (InsertCivBuilding civ_id (e_id building) (e_unique building)
                   (default 1 (var_age first_var))
                   cost_food cost_wood cost_stone cost_gold
                   (cost_get costs "time")
                   (default 0 (var_hitpoints first_var)))
       end.

(** The body of the inner loop of the civ-technology import. *)
Definition civ_technology_row (civ_id : string) (tech : Entity)
  : option Stmt :=
  if bool_decide (e_id tech = EmptyString) then None
  else
    let costs := default ∅ (e_costs tech) in
    let cost_food := cost_get costs "food" in
    let cost_wood := cost_get costs "wood" in
    let cost_stone := cost_get costs "stone" in
    let cost_gold :=
      cost_get costs "gold" + cost_get costs "oliveoil"
      + cost_get costs "vizier" in
    Some (InsertCivTechnology civ_id (e_id tech) (e_unique tech)
            (e_age tech)
            cost_food cost_wood cost_stone cost_gold
            (cost_get costs "time")).

(** The lines one file contributes to a civ import. *)
Definition civ_rows (row : string -> Entity -> option Stmt)
  (civ_id : string) (entities : list Entity) : list Stmt :=
  omap (row civ_id) entities.

(** The gold column of a civ line. *)
Definition stmt_cost_gold (s : Stmt) : option Z :=
  match s with
  | InsertCivUnit _ _ _ _ _ _ _ g _ _ _ => Some g
  | InsertCivBuilding _ _ _ _ _ _ _ g _ _ => Some g
  | InsertCivTechnology _ _ _ _ _ _ _ g _ => Some g
  | InsertBase _ _ _ _ _ _ => None
  end.

(** A text holds its single quotes in adjacent pairs, so that inside a
    quoted SQL literal none of them ends the literal. *)
Fixpoint quotes_paired (s : string) : bool :=
  match s with
  | EmptyString => true
  | String c r =>
      if Ascii.eqb c quote
      then match r with
           | String d r' => Ascii.eqb d quote && quotes_paired r'
           | EmptyString => false
           end
      else quotes_paired r
  end.

(** *** Paths, tables and the civilization-side imports *)

(** [s.startswith(p)]. *)
Fixpoint starts_with (p s : string) : bool :=
  match p, s with
  | EmptyString, _ => true
  | String a p', String b s' => Ascii.eqb a b && starts_with p' s'
  | String _ _, EmptyString => false
  end.

(** [s.replace(old, new)] for a pattern [old] that is not empty: the
    occurrences of [old] are found from the left and do not overlap.
    [skip] counts the characters of a found occurrence still to pass. *)
Fixpoint replace_from (old new : string) (skip : nat) (s : string) : string :=
  match s with
  | EmptyString => EmptyString
  | String c r =>
      match skip with
      | S k => replace_from old new k r
      | O =>
          if starts_with old s
          then new +:+ replace_from old new (String.length old - 1) r
          else String c (replace_from old new 0 r)
      end
  end.

Definition py_replace (old new s : string) : string := replace_from old new 0 s.

(** [s.split('/')[-1]]: what follows the last slash. *)
Fixpoint last_segment (s : string) : string :=
  match s with
  | EmptyString => EmptyString
  | String c r =>
      if Ascii.eqb c "/"%char || contains_char "/"%char r
      then last_segment r
      else s
  end.

(** The literal of [CIV_ID_MAP], in source order. *)
Definition CIV_ID_TABLE : list (string * string) :=
  [ ("abbasid", "abbasid"); ("ayyubids", "ayyubids");
    ("byzantines", "byzantines");
    ("chinese", "chinese"); ("delhi", "delhi"); ("english", "english");
    ("french", "french"); ("goldenhorde", "golden_horde"); ("hre", "hre");
    ("japanese", "japanese"); ("jeannedarc", "jeanne_darc");
    ("lancaster", "lancaster");
    ("macedonian", "macedonian"); ("malians", "malians");
    ("mongols", "mongols");
    ("orderofthedragon", "order_of_the_dragon"); ("ottomans", "ottomans");
    ("rus", "rus"); ("sengoku", "sengoku"); ("templar", "templar");
    ("tughlaq", "tughlaq"); ("zhuxi", "zhuxi") ].

Definition CIV_ID_MAP : gmap string string := list_to_map CIV_ID_TABLE.

(** The literal of [CIV_NAME_MAP], in source order. *)
Definition CIV_NAME_TABLE : list (string * string) :=
  [ ("abbasid", "Abbasid Dynasty"); ("ayyubids", "Ayyubids");
    ("byzantines", "Byzantines");
    ("chinese", "Chinese"); ("delhi", "Delhi Sultanate");
    ("english", "English");
    ("french", "French"); ("goldenhorde", "Golden Horde");
    ("hre", "Holy Roman Empire");
    ("japanese", "Japanese"); ("jeannedarc", "Jeanne d'Arc");
    ("lancaster", "House of Lancaster");
    ("macedonian", "Macedonian Dynasty"); ("malians", "Malians");
    ("mongols", "Mongols");
    ("orderofthedragon", "Order of the Dragon"); ("ottomans", "Ottomans");
    ("rus", "Rus"); ("sengoku", "Sengoku Daimyo");
    ("templar", "Knights Templar");
    ("tughlaq", "Tughlaq Dynasty"); ("zhuxi", "Zhu Xi's Legacy") ].

Definition CIV_NAME_MAP : gmap string string := list_to_map CIV_NAME_TABLE.

(** [file_path.split('/')[-1].replace(suffix, '')]. *)
Definition civ_id_raw (suffix path : string) : string :=
  py_replace suffix EmptyString (last_segment path).

(** [CIV_ID_MAP.get(civ_id_raw, civ_id_raw)]. *)
Definition civ_id_of_raw (raw : string) : string :=
  default raw (CIV_ID_MAP !! raw).

Definition civ_id_of_path (suffix path : string) : string :=
  civ_id_of_raw (civ_id_raw suffix path).

(** The [INSERT INTO civilizations] line of one civilization file, with
    the values its f-string interpolates.  The name is a string when it
    comes from [CIV_NAME_MAP] and whatever the file holds otherwise. *)
Record CivInsert : Type := {
  ci_id : string;
  ci_name : json;
  ci_description : string;
  ci_overview : string
}.

(** The body of the loop of the civilization import, for the object
    [civ_data] of a file. *)
Definition civ_insert (path : string) (civ_data : list (string * json))
  : CivInsert :=
  let raw := civ_id_raw ".json" path in
  let civ_id := civ_id_of_raw raw in
  let name :=
    default (default (JStr EmptyString) (assoc "name" civ_data))
            (JStr <$> CIV_NAME_MAP !! raw) in
  let description :=
    escape_sql (default (JStr EmptyString) (assoc "description" civ_data)) in
  let overview_raw := default (JStr EmptyString) (assoc "overview" civ_data) in
  let overview :=
    match overview_raw with
    | JStr _ => escape_sql overview_raw
    | _ => EmptyString
    end in
  {| ci_id := civ_id; ci_name := name;
     ci_description := description; ci_overview := overview |}.

(** A civ-side import: for every file in sorted order, the civilization
    of its path and one line per entity the loop does not skip. *)
Definition civ_import (row : string -> Entity -> option Stmt) (files : Files)
  : list Stmt :=
  concat (map (fun file =>
                 civ_rows row (civ_id_of_path "-unified.json" (fst file))
                          (snd file))
              (sorted_files files)).

Definition civ_units : Files -> list Stmt := civ_import civ_unit_row.
Definition civ_buildings : Files -> list Stmt := civ_import civ_building_row.
Definition civ_technologies : Files -> list Stmt :=
  civ_import civ_technology_row.

(** The civ-side loop that goes with a base table. *)
Definition civ_row_of (k : Kind) : string -> Entity -> option Stmt :=
  match k with
  | KUnit => civ_unit_row
  | KBuilding => civ_building_row
  | KTechnology => civ_technology_row
  end.

End Gen.

(** * Properties *)

(** ** Facts about strings *)

Section PyStrFacts.
Import PyStr.

(** [String.append] is kept folded by [simpl]; these two equations
    unfold it one step. *)
Lemma app_String c s t : String c s +:+ t = String c (s +:+ t).
Proof. reflexivity. Qed.

Lemma app_Empty t : EmptyString +:+ t = t.
Proof. reflexivity. Qed.

Lemma str_app_assoc s t u : (s +:+ t) +:+ u = s +:+ (t +:+ u).
Proof.
  induction s as [|c r IH]; [reflexivity|].
  rewrite !app_String. now rewrite IH.
Qed.

Lemma str_replace_single old new s :
  str_replace old (String new EmptyString) s
  = map_chars (fun c => if Ascii.eqb c old then new else c) s.
Proof.
  induction s as [|c r IH]; simpl; [reflexivity|].
  destruct (Ascii.eqb c old); rewrite ?app_String, ?app_Empty;
    now rewrite IH.
Qed.

Lemma contains_char_app c s t :
  contains_char c (s +:+ t) = contains_char c s || contains_char c t.
Proof.
  induction s as [|d r IH]; [reflexivity|].
  rewrite app_String. simpl. now rewrite IH, orb_assoc.
Qed.

Lemma contains_char_replace old new s :
  contains_char old new = false ->
  contains_char old (str_replace old new s) = false.
Proof.
  intros Hnew. induction s as [|c r IH]; simpl; [reflexivity|].
  destruct (Ascii.eqb c old) eqn:E.
  - now rewrite contains_char_app, Hnew, IH.
  - simpl. now rewrite E, IH.
Qed.

Lemma length_map_chars f s : String.length (map_chars f s) = String.length s.
Proof. induction s; simpl; congruence. Qed.

(** On text below 128 a code point is a byte. *)
Lemma str_len_bytes s :
  (forall c, contains_char c s = true -> is_continuation c = false) ->
  str_len s = String.length s.
Proof.
  induction s as [|c r IH]; intros H; simpl; [reflexivity|].
  rewrite (H c) by (simpl; now rewrite Ascii.eqb_refl).
  f_equal. apply IH. intros d Hd. apply H. simpl. rewrite Hd.
  apply orb_true_r.
Qed.

Lemma length_slice_to n s : (str_len (slice_to n s) <= n)%nat.
Proof.
  revert n. induction s as [|c r IH]; intros n; simpl; [lia|].
  destruct (is_continuation c) eqn:E.
  - simpl. rewrite E. apply IH.
  - destruct n as [|k]; simpl; [lia|]. rewrite E. specialize (IH k). lia.
Qed.

Lemma slice_to_short n s :
  (str_len s <= n)%nat -> slice_to n s = s.
Proof.
  revert n. induction s as [|c r IH]; intros n; simpl; [reflexivity|].
  destruct (is_continuation c).
  - intros H. f_equal. now apply IH.
  - destruct n as [|k]; intros H; [lia|]. f_equal. apply IH. lia.
Qed.

Lemma slice_to_prefix n s : exists t, s = slice_to n s +:+ t.
Proof.
  revert n. induction s as [|c r IH]; intros n; simpl.
  - now exists EmptyString.
  - destruct (is_continuation c).
    + destruct (IH n) as [t Ht]. exists t. rewrite app_String. congruence.
    + destruct n as [|k].
      * now exists (String c r).
      * destruct (IH k) as [t Ht]. exists t. rewrite app_String. congruence.
Qed.

End PyStrFacts.

(** ** Identifier normalisation *)

Section NormalizeFacts.
Import PyStr Normalize.

(** What the fallback does to one character. *)
Definition hyphen_to_underscore (c : ascii) : ascii :=
  if Ascii.eqb c hyphen then underscore else c.

Lemma civ_table_keys_NoDup : NoDup (civ_table.*1).
Proof. compute_done. Qed.

Lemma civ_table_values_hyphen_free :
  Forall (fun kv => contains_char hyphen (snd kv) = false) civ_table.
Proof. unfold civ_table. repeat (constructor; [reflexivity|]). constructor. Qed.

Lemma civ_map_lookup_table slug id :
  civ_map !! slug = Some id <-> (slug, id) ∈ civ_table.
Proof.
  unfold civ_map. split.
  - apply elem_of_list_to_map_2.
  - apply elem_of_list_to_map_1, civ_table_keys_NoDup.
Qed.

Lemma civ_map_lookup_None slug :
  civ_map !! slug = None <-> slug ∉ civ_table.*1.
Proof. unfold civ_map. symmetry. apply not_elem_of_list_to_map. Qed.

(** C1: [_normalize_civ_id] is a total two-tier function.  A slug that is
    a key of the static table is sent to the id the table gives it; a
    slug that is no key of the table is sent to itself with every hyphen
    replaced by an underscore, character by character. *)
Theorem normalize_civ_id_two_tier (slug : string) :
  (forall id, (slug, id) ∈ civ_table -> _normalize_civ_id slug = id) /\
  (slug ∉ civ_table.*1 ->
   _normalize_civ_id slug = map_chars hyphen_to_underscore slug).
Proof.
  unfold _normalize_civ_id. split.
  - intros id Hin. apply civ_map_lookup_table in Hin. now rewrite Hin.
  - intros Hout. apply civ_map_lookup_None in Hout. rewrite Hout. simpl.
    apply str_replace_single.
Qed.

(** The example of the specification, and one entry of the table whose
    value is not the hyphen-replaced key. *)
Lemma normalize_civ_id_two_tier_witness :
  _normalize_civ_id "new-civ" = "new_civ" /\
  _normalize_civ_id "zhu-xis-legacy" = "zhuxi".
Proof.
  split.
  - destruct (normalize_civ_id_two_tier "new-civ") as [_ H].
    rewrite H; [reflexivity|].
    compute_done.
  - destruct (normalize_civ_id_two_tier "zhu-xis-legacy") as [H _].
    apply H. compute_done.
Defined.

(** C10: the id [_normalize_civ_id] returns never contains a hyphen,
    whatever string it is given: the values of the table have none and
    the fallback replaces them all. *)
Theorem normalize_civ_id_hyphen_free (slug : string) :
  contains_char hyphen (_normalize_civ_id slug) = false.
Proof.
  unfold _normalize_civ_id.
  destruct (civ_map !! slug) as [id|] eqn:E; simpl.
  - apply civ_map_lookup_table in E.
    pose proof civ_table_values_hyphen_free as Hall.
    rewrite Forall_forall in Hall. exact (Hall _ E).
  - apply contains_char_replace. reflexivity.
Qed.

End NormalizeFacts.

(** ** SQL escaping *)

Section EscapeFacts.
Import PyStr Py Gen.

(** The text [escape_sql] builds before it cuts it. *)
Definition escaped_in_full (s : string) : string :=
  str_replace backslash "\\" (str_replace quote "''" s).

Lemma str_replace_app old new s t :
  str_replace old new (s +:+ t)
  = str_replace old new s +:+ str_replace old new t.
Proof.
  induction s as [|c r IH]; [reflexivity|].
  rewrite app_String. simpl. destruct (Ascii.eqb c old).
  - now rewrite IH, str_app_assoc.
  - now rewrite app_String, IH.
Qed.

Lemma escaped_in_full_cons c r :
  escaped_in_full (String c r)
  = if Ascii.eqb c quote then "''" +:+ escaped_in_full r
    else if Ascii.eqb c backslash then "\\" +:+ escaped_in_full r
    else String c (escaped_in_full r).
Proof.
  unfold escaped_in_full. simpl.
  destruct (Ascii.eqb c quote) eqn:Eq.
  - now rewrite str_replace_app.
  - simpl. now destruct (Ascii.eqb c backslash).
Qed.

(** Before the cut, every quote of the input has become a pair and no
    quote stands alone. *)
Lemma escaped_in_full_paired s : quotes_paired (escaped_in_full s) = true.
Proof.
  induction s as [|c r IH]; [reflexivity|].
  rewrite escaped_in_full_cons.
  destruct (Ascii.eqb c quote) eqn:Eq; [exact IH|].
  destruct (Ascii.eqb c backslash) eqn:Eb; [exact IH|].
  simpl. now rewrite Eq.
Qed.

Lemma escape_sql_str s :
  escape_sql (JStr s) = slice_to 1000 (escaped_in_full s).
Proof. reflexivity. Qed.

(** The result is never longer than 1000 characters and is an initial
    segment of the fully escaped text. *)
Lemma escape_sql_length x : (str_len (escape_sql x) <= 1000)%nat.
Proof.
  destruct x; simpl; try lia. apply length_slice_to.
Qed.

Lemma escape_sql_prefix s :
  exists rest, escaped_in_full s = escape_sql (JStr s) +:+ rest.
Proof. rewrite escape_sql_str. apply slice_to_prefix. Qed.

(** X15: when the escaped text has at most 1000 characters (code
    points, whatever the number of bytes they take), so that nothing is
    cut off, every single quote of what [escape_sql] returns is one of a
    pair. *)
Lemma escape_sql_paired_when_short s :
  (str_len (escaped_in_full s) <= 1000)%nat ->
  quotes_paired (escape_sql (JStr s)) = true.
Proof.
  intros H. rewrite escape_sql_str, slice_to_short by exact H.
  apply escaped_in_full_paired.
Qed.

(** A value that is not a string gives the empty text. *)
Lemma escape_sql_non_string x :
  (forall s, x <> JStr s) -> escape_sql x = EmptyString.
Proof. intros H. destruct x; try reflexivity. now destruct (H s). Qed.

(** The example of the specification: [It's a "test"\]. *)
Definition spec_example_text : string :=
  "It's a " +:+ String dquote ("test" +:+ String dquote "\").

Example escape_sql_spec_example :
  escape_sql (JStr spec_example_text)
  = "It''s a " +:+ String dquote ("test" +:+ String dquote "\\")
  /\ quotes_paired (escape_sql (JStr spec_example_text)) = true.
Proof. split; vm_compute; reflexivity. Qed.

(** An input on which the cut falls inside a pair: 999 letters and one
    quote. *)
Definition cut_inside_pair : string :=
  str_repeat "a"%char 999 +:+ "'".


(** The input holds no byte above 127, so its bytes are its characters:
    counted as code points the lengths are the same. *)
Example cut_inside_pair_code_points :
  str_len (escaped_in_full cut_inside_pair) = 1001%nat /\
  str_len (escape_sql (JStr cut_inside_pair)) = 1000%nat.
Proof. split; vm_compute; reflexivity. Qed.

End EscapeFacts.

(** ** Cost aggregation *)

Section CostFacts.
Import Py Gen.

(** C6: whenever the unit exporter or the building exporter writes a line
    for an entity, the gold column of that line is the gold cost of the
    first variation plus its olive oil and vizier costs, an absent
    resource counting as 0; both exporters derive the same value. *)
Theorem gold_channel_is_sum (civ_id : string) (e : Entity)
    (first_var : Variation) (others : list Variation) :
  e_id e <> EmptyString ->
  e_variations e = first_var :: others ->
  let costs := default ∅ (var_costs first_var) in
  let gold :=
    cost_get costs "gold" + cost_get costs "oliveoil"
    + cost_get costs "vizier" in
  (civ_unit_row civ_id e ≫= stmt_cost_gold) = Some gold /\
  (civ_building_row civ_id e ≫= stmt_cost_gold) = Some gold.
Proof.
  intros Hid Hvar. unfold civ_unit_row, civ_building_row.
  rewrite bool_decide_eq_false_2 by exact Hid.
  now rewrite Hvar.
Qed.

(** The cost structure of the specification:
    [{gold: 100, oliveoil: 20, vizier: 5}]. *)
Definition spec_costs : Costs :=
  <["gold" := 100]> (<["oliveoil" := 20]> (<["vizier" := 5]> ∅)).

Definition spec_variation : Variation :=
  {| var_costs := Some spec_costs; var_age := Some 2;
     var_hitpoints := Some 150; var_movement := None |}.

Definition spec_entity : Entity :=
  {| e_id := "dromon"; e_name := JStr "Dromon"; e_description := JNull;
     e_unique := true; e_variations := [spec_variation];
     e_costs := None; e_age := None |}.

(** On the cost structure of the specification both exporters write 125. *)
Lemma gold_channel_is_sum_witness :
  (civ_unit_row "byzantines" spec_entity ≫= stmt_cost_gold) = Some 125 /\
  (civ_building_row "byzantines" spec_entity ≫= stmt_cost_gold) = Some 125.
Proof.
  apply (gold_channel_is_sum "byzantines" spec_entity spec_variation []).
  - discriminate.
  - reflexivity.
Defined.

End CostFacts.

(** ** Deduplication of base entities *)

Section DedupFacts.
Import Py Gen.

(** The identifier a line is written for. *)
Definition stmt_id (s : Stmt) : string :=
  match s with
  | InsertBase _ id _ _ _ _ => id
  | InsertCivUnit _ id _ _ _ _ _ _ _ _ _ => id
  | InsertCivBuilding _ id _ _ _ _ _ _ _ _ => id
  | InsertCivTechnology _ id _ _ _ _ _ _ _ => id
  end.

(** The name and the description a line of a base table carries. *)
Definition stmt_name (s : Stmt) : option string :=
  match s with
  | InsertBase _ _ name _ _ _ => Some name
  | _ => None
  end.

Definition stmt_description (s : Stmt) : option string :=
  match s with
  | InsertBase _ _ _ description _ _ => Some description
  | _ => None
  end.

Definition stmt_table (s : Stmt) : option string :=
  match s with
  | InsertBase table _ _ _ _ _ => Some table
  | _ => None
  end.

(** [e] is the first entity of [l] that carries its identifier. *)
Definition first_occurrence (e : Entity) (l : list Entity) : Prop :=
  exists before after,
    l = before ++ e :: after /\ e_id e ∉ e_id <$> before.

#[local] Instance path_le_total : Total path_le.
Proof. intros a b. apply String.leb_total. Qed.

Lemma sorted_files_Sorted files : Sorted path_le (sorted_files files).
Proof. apply Sorted_merge_sort, _. Qed.

Lemma sorted_files_Permutation files :
  sorted_files files ≡ₚ map_to_list files.
Proof. apply merge_sort_Permutation. Qed.

(** The two nested loops are one pass over [entities_in_order]. *)
Lemma import_base_flat k files :
  import_base k files
  = foldl (base_step k) (∅, []) (entities_in_order files).
Proof.
  unfold import_base, entities_in_order.
  generalize (sorted_files files) as fs.
  generalize ((∅, []) : gset string * list Stmt) as st.
  intros st fs. revert st.
  induction fs as [|f fs IH]; intros st; simpl; [reflexivity|].
  now rewrite foldl_app, IH.
Qed.

Lemma snoc_split (l : list Entity) x before e after :
  l ++ [x] = before ++ e :: after ->
  (after = [] /\ l = before /\ x = e) \/
  (exists after', after = after' ++ [x] /\ l = before ++ e :: after').
Proof.
  intros H. destruct after as [|a after _] using rev_ind.
  - left. destruct (app_inj_tail _ _ _ _ H) as [-> ->]. auto.
  - right. exists after.
    change (before ++ e :: after ++ [a])
      with (before ++ (e :: after) ++ [a]) in H.
    rewrite app_assoc in H.
    destruct (app_inj_tail _ _ _ _ H) as [-> ->]. auto.
Qed.

Lemma first_occurrence_snoc_old e l x :
  first_occurrence e l -> first_occurrence e (l ++ [x]).
Proof.
  intros (b & a & -> & Hb). exists b, (a ++ [x]).
  split; [|assumption]. now rewrite <- app_assoc.
Qed.

Lemma first_occurrence_snoc_new l x :
  e_id x ∉ e_id <$> l -> first_occurrence x (l ++ [x]).
Proof. intros H. exists l, []. now split. Qed.

Lemma first_occurrence_snoc_inv e l x :
  first_occurrence e (l ++ [x]) ->
  first_occurrence e l \/ (e = x /\ e_id x ∉ e_id <$> l).
Proof.
  intros (b & a & Hl & Hb).
  apply snoc_split in Hl as [(-> & -> & ->)|(a' & -> & ->)].
  - now right.
  - left. now exists b, a'.
Qed.

(** What one pass has seen and written. *)
Definition pass_ok (k : Kind) (l : list Entity)
    (st : gset string * list Stmt) : Prop :=
  (forall i, i ∈ fst st <-> i <> EmptyString /\ i ∈ e_id <$> l) /\
  (forall s, s ∈ snd st <->
     exists e, first_occurrence e l /\ e_id e <> EmptyString
               /\ s = base_insert k e) /\
  NoDup (stmt_id <$> snd st) /\
  (forall s, s ∈ snd st -> stmt_id s ∈ fst st).

Lemma pass_ok_nil k : pass_ok k [] (∅, []).
Proof.
  unfold pass_ok. simpl. split; [|split; [|split]].
  - intros i. split; [intros Hi|intros [_ Hi]]; set_solver.
  - intros s. split; [intros Hs; set_solver|].
    intros (e & (before & after & Hl & _) & _). now destruct before.
  - constructor.
  - intros s Hs. set_solver.
Qed.

(** An entity the loop skips leaves the state as it is. *)
Lemma pass_ok_skip k l x st :
  pass_ok k l st ->
  (e_id x = EmptyString \/ e_id x ∈ fst st) ->
  pass_ok k (l ++ [x]) st.
Proof.
  intros (Hseen & Hout & Hnd & Hsub) Hskip.
  split; [|split; [|split]]; try assumption.
  - intros i. rewrite Hseen, fmap_app, elem_of_app. simpl.
    rewrite list_elem_of_singleton. split; [tauto|].
    intros [Hne [Hi| ->]]; [tauto|].
    destruct Hskip as [He|Hs]; [contradiction|].
    now apply Hseen in Hs.
  - intros s. rewrite Hout. split.
    + intros (e & Hf & Hne & ->). exists e.
      split; [now apply first_occurrence_snoc_old|tauto].
    + intros (e & Hf & Hne & ->).
      apply first_occurrence_snoc_inv in Hf as [Hf|[-> Hfresh]].
      * exists e. tauto.
      * destruct Hskip as [He|Hs]; [contradiction|].
        apply Hseen in Hs as [_ Hs]. contradiction.
Qed.

(** An entity with a new identifier is remembered and written. *)
Lemma pass_ok_write k l x seen out :
  pass_ok k l (seen, out) ->
  e_id x <> EmptyString -> e_id x ∉ seen ->
  pass_ok k (l ++ [x]) (seen ∪ {[ e_id x ]}, out ++ [base_insert k x]).
Proof.
  intros (Hseen & Hout & Hnd & Hsub) Hne Hnew. simpl in *.
  assert (Hfresh : e_id x ∉ e_id <$> l).
  { intros Hin. apply Hnew, Hseen. now split. }
  split; [|split; [|split]]; simpl.
  - intros i. rewrite elem_of_union, elem_of_singleton, Hseen.
    rewrite fmap_app, elem_of_app. simpl. rewrite list_elem_of_singleton.
    split; [|tauto]. intros [[? ?]| ->]; tauto.
  - intros s. rewrite elem_of_app, list_elem_of_singleton, Hout. split.
    + intros [(e & Hf & He & ->)| ->].
      * exists e. split; [now apply first_occurrence_snoc_old|tauto].
      * exists x. split; [now apply first_occurrence_snoc_new|tauto].
    + intros (e & Hf & He & ->).
      apply first_occurrence_snoc_inv in Hf as [Hf|[-> _]].
      * left. exists e. tauto.
      * now right.
  - rewrite fmap_app. apply NoDup_app. split; [assumption|]. split.
    + intros i Hi Hi'. simpl in Hi'.
      apply list_elem_of_singleton in Hi'. subst i.
      apply list_elem_of_fmap in Hi as (s & Hs & Hin).
      apply Hsub in Hin. rewrite <- Hs in Hin. contradiction.
    + apply NoDup_singleton.
  - intros s. rewrite elem_of_app, list_elem_of_singleton, elem_of_union.
    intros [Hs| ->]; [left; now apply Hsub|right].
    simpl. now apply elem_of_singleton.
Qed.

Lemma pass_ok_foldl k l : pass_ok k l (foldl (base_step k) (∅, []) l).
Proof.
  induction l as [|x l IH] using rev_ind; [apply pass_ok_nil|].
  rewrite foldl_app. simpl.
  destruct (foldl (base_step k) (∅, []) l) as [seen out].
  unfold base_step.
  destruct (bool_decide (e_id x = EmptyString)) eqn:Eempty; simpl.
  { apply bool_decide_eq_true_1 in Eempty. apply pass_ok_skip; auto. }
  apply bool_decide_eq_false_1 in Eempty.
  destruct (bool_decide (e_id x ∈ seen)) eqn:Eseen; simpl.
  { apply bool_decide_eq_true_1 in Eseen. apply pass_ok_skip; auto. }
  apply bool_decide_eq_false_1 in Eseen.
  now apply pass_ok_write.
Qed.

Lemma first_occurrence_exists i (l : list Entity) :
  i ∈ e_id <$> l -> exists e, e_id e = i /\ first_occurrence e l.
Proof.
  induction l as [|x l IH]; simpl; intros Hi.
  - now apply elem_of_nil in Hi.
  - destruct (decide (e_id x = i)) as [Heq|Hne].
    + exists x. split; [assumption|]. exists [], l. split; [reflexivity|].
      simpl. apply not_elem_of_nil.
    + apply elem_of_cons in Hi as [Hi|Hi]; [congruence|].
      destruct (IH Hi) as (e & He & before & after & -> & Hb).
      exists e. split; [assumption|]. exists (x :: before), after.
      split; [reflexivity|]. simpl. rewrite not_elem_of_cons.
      split; [congruence|assumption].
Qed.

(** C9: in each base import the entities of all files are met in the
    order of the sorted paths; every non-empty identifier among them gets
    exactly one [INSERT] line, no line is written for the empty
    identifier, and the line of an identifier is the one built from the
    first entity that carries it: it goes to the base table of the
    import, and its name and its description are the escaped name and
    description of that first occurrence, so later occurrences leave no
    trace. *)
Theorem base_import_deduplicates (k : Kind) (files : Files) :
  let met := entities_in_order files in
  let out := snd (import_base k files) in
  (Sorted path_le (sorted_files files) /\
   sorted_files files ≡ₚ map_to_list files) /\
  NoDup (stmt_id <$> out) /\
  (forall i, i ∈ stmt_id <$> out <-> i <> EmptyString /\ i ∈ e_id <$> met) /\
  (forall s, s ∈ out <->
     exists e, first_occurrence e met /\ e_id e <> EmptyString
               /\ s = base_insert k e) /\
  (forall s, s ∈ out ->
     exists e, first_occurrence e met /\
               stmt_id s = e_id e /\
               stmt_table s = Some (base_table k) /\
               stmt_name s = Some (escape_sql (e_name e)) /\
               stmt_description s = Some (escape_sql (e_description e))) /\
  (forall e, first_occurrence e met -> e_id e <> EmptyString ->
     InsertBase (base_table k) (e_id e)
       (escape_sql (e_name e)) (escape_sql (e_description e)) (type_tag k)
       ("https://aoe4world.com/img/" +:+ img_dir k +:+ "/" +:+ e_id e
        +:+ ".png")
     ∈ out).
Proof.
  intros met out. subst out. rewrite import_base_flat. fold met.
  destruct (pass_ok_foldl k met) as (Hseen & Hout & Hnd & Hsub).
  split; [split; [apply sorted_files_Sorted|apply sorted_files_Permutation]|].
  split; [assumption|]. split; [|split; [assumption|split]].
  - intros i. split.
    + intros Hi. apply list_elem_of_fmap in Hi as (s & -> & Hs).
      apply Hseen. now apply Hsub.
    + intros [Hne Hi].
      destruct (first_occurrence_exists i met Hi) as (e & <- & Hf).
      apply list_elem_of_fmap. exists (base_insert k e).
      split; [reflexivity|]. apply Hout. exists e. tauto.
  - intros s Hs. apply Hout in Hs as (e & Hf & _ & ->).
    exists e. split; [exact Hf|]. repeat split.
  - intros e Hf Hne. apply Hout. exists e. repeat split; assumption.
Qed.

(** Two files that both describe the unit [archer]: the file whose path
    sorts first supplies the name, whatever order the glob lists them
    in; the entity without identifier is skipped. *)
Definition archer (name : string) : Entity :=
  {| e_id := "archer"; e_name := JStr name; e_description := JNull;
     e_unique := false; e_variations := []; e_costs := None;
     e_age := None |}.

Definition nameless : Entity :=
  {| e_id := EmptyString; e_name := JStr "Ghost"; e_description := JNull;
     e_unique := false; e_variations := []; e_costs := None;
     e_age := None |}.

Definition two_files : Files :=
  <["french-unified.json" := [archer "Arbaletrier"] ]>
    (<["english-unified.json" := [nameless; archer "Longbowman"] ]> ∅).

Example base_units_two_files :
  snd (base_units two_files)
  = [ InsertBase "base_units" "archer" "Longbowman" EmptyString "unit"
        "https://aoe4world.com/img/units/archer.png" ].
Proof. vm_compute. reflexivity. Qed.

End DedupFacts.

(** ** Runs of the effectful code *)

Section RunFacts.
Import Py World.

(** The requests and the writes among a sequence of events. *)
Definition gets_of (evs : list Event)
  : list (string * list (string * json)) :=
  omap (fun ev => match ev with
                  | EvGet _ _ url params _ => Some (url, params)
                  | _ => None
                  end) evs.

Definition upserts_of (evs : list Event)
  : list (string * list json * option exn) :=
  omap (fun ev => match ev with
                  | EvUpsert table rows err => Some (table, rows, err)
                  | _ => None
                  end) evs.

(** The sleeps a history holds, in order. *)
Definition sleeps_of (evs : list Event) : list Z :=
  omap (fun ev => match ev with
                  | EvSleep d => Some d
                  | _ => None
                  end) evs.

Lemma gets_of_app a b : gets_of (a ++ b) = gets_of a ++ gets_of b.
Proof. apply omap_app. Qed.

Lemma upserts_of_app a b : upserts_of (a ++ b) = upserts_of a ++ upserts_of b.
Proof. apply omap_app. Qed.

(** A computation that leaves the state alone. *)
Definition pure_py {A} (m : Py A) : Prop := forall s, snd (m s) = s.

Lemma pure_py_ret {A} (a : A) : pure_py (mret a).
Proof. intros s. reflexivity. Qed.

Lemma pure_py_lift {A} (r : result A) : pure_py (lift r).
Proof. intros s. reflexivity. Qed.

Lemma pure_py_bind {A B} (m : Py A) (f : A -> Py B) :
  pure_py m -> (forall a, pure_py (f a)) -> pure_py (m ≫= f).
Proof.
  intros Hm Hf s. unfold mbind, Py_bind.
  specialize (Hm s). destruct (m s) as [[a|e] s']; simpl in *; subst s'.
  - apply Hf.
  - reflexivity.
Qed.

(** Effect-free code after [m] leaves the state [m] left. *)
Lemma snd_bind_pure {A B} (m : Py A) (f : A -> Py B) s :
  (forall a, pure_py (f a)) -> snd ((m ≫= f) s) = snd (m s).
Proof.
  intros Hf. unfold mbind, Py_bind.
  destruct (m s) as [[a|e] s']; simpl; [apply Hf|reflexivity].
Qed.

Lemma pure_py_map_py {A B} (f : A -> Py B) xs :
  (forall x, pure_py (f x)) -> pure_py (map_py f xs).
Proof.
  intros Hf. induction xs as [|x xs IH]; simpl.
  - apply pure_py_ret.
  - apply pure_py_bind; [apply Hf|]. intros b.
    apply pure_py_bind; [apply IH|]. intros bs. apply pure_py_ret.
Qed.

(** When every call of [f] succeeds without effect, the comprehension
    is [map]. *)
Lemma map_py_total {A B} (f : A -> Py B) (g : A -> B) xs s :
  Forall (fun x => f x s = (Ok (g x), s)) xs ->
  map_py f xs s = (Ok (map g xs), s).
Proof.
  induction 1 as [|x xs Hx Hxs IH]; simpl; [reflexivity|].
  unfold mbind, Py_bind. rewrite Hx, IH. reflexivity.
Qed.

Lemma for_append_total {A B} (f : A -> Py B) (g : A -> B) xs acc s :
  Forall (fun x => f x s = (Ok (g x), s)) xs ->
  for_append f xs acc s = ((acc ++ map g xs, None), s).
Proof.
  intros H. revert acc.
  induction H as [|x xs Hx Hxs IH]; intros acc; simpl.
  - now rewrite app_nil_r.
  - rewrite Hx, IH, <- app_assoc. reflexivity.
Qed.

End RunFacts.

(** ** The rate limiter and the request primitive *)

Section RequestFacts.
Import Py World Api.

Variable env : Env.
Variable rate_limit_delay : Z.

(** The events [_rate_limit] adds in state [s]: one sleep of the missing
    time when the last request is too recent, nothing otherwise. *)
Definition rate_limit_sleeps (s : State) : list Event :=
  let since := now s - last_request_time s in
  if since <? rate_limit_delay
  then [EvSleep (rate_limit_delay - since)]
  else [].

(** The state [_rate_limit] leaves. *)
Definition after_rate_limit (s : State) : State :=
  let since := now s - last_request_time s in
  let s' :=
    if since <? rate_limit_delay
    then emit (EvSleep (rate_limit_delay - since))
              (advance (rate_limit_delay - since
                        + oversleep env (length (trace s))) s)
    else s in
  stamp (now s') s'.

(** The reply to the request [_make_request] sends from state [s], and
    the state it leaves. *)
Definition reply_to (endpoint : string) (params : list (string * json))
    (s : State) : HttpReply :=
  http env (length (trace (after_rate_limit s))) (BASE_URL +:+ endpoint) params.

Definition after_request (endpoint : string) (params : list (string * json))
    (s : State) : State :=
  let s1 := after_rate_limit s in
  let k := length (trace s1) in
  emit (EvGet (now s1) (now s1 + latency env k) (BASE_URL +:+ endpoint)
              params (reply_to endpoint params s))
       (advance (latency env k) s1).

Lemma rate_limit_run s :
  _rate_limit env rate_limit_delay s = (Ok tt, after_rate_limit s).
Proof.
  unfold _rate_limit, after_rate_limit, mbind, Py_bind, time_time,
    get_last_request_time, set_last_request_time, time_sleep, mret, Py_ret.
  simpl.
  destruct (now s - last_request_time s <? rate_limit_delay) eqn:E;
    [|reflexivity].
  apply Z.ltb_lt in E.
  assert (Hpos : (rate_limit_delay - (now s - last_request_time s) <? 0)
                 = false) by (apply Z.ltb_ge; lia).
  rewrite Hpos. reflexivity.
Qed.

Lemma trace_after_rate_limit s :
  trace (after_rate_limit s) = trace s ++ rate_limit_sleeps s.
Proof.
  unfold after_rate_limit, rate_limit_sleeps.
  destruct (now s - last_request_time s <? rate_limit_delay); simpl;
    [reflexivity|now rewrite app_nil_r].
Qed.

Lemma stamp_is_now s :
  last_request_time (after_rate_limit s) = now (after_rate_limit s).
Proof. reflexivity. Qed.

Lemma make_request_run endpoint params s :
  _make_request env rate_limit_delay endpoint params s
  = (read_reply (reply_to endpoint params s),
     after_request endpoint params s).
Proof.
  unfold _make_request, mbind, Py_bind. rewrite rate_limit_run.
  unfold session_get, after_request, reply_to, lift.
  destruct (http env _ _ _); reflexivity.
Qed.

Lemma trace_after_request endpoint params s :
  trace (after_request endpoint params s)
  = trace s ++ rate_limit_sleeps s
    ++ [EvGet (last_request_time (after_request endpoint params s))
              (now (after_request endpoint params s))
              (BASE_URL +:+ endpoint) params (reply_to endpoint params s)].
Proof.
  unfold after_request. cbn -[after_rate_limit rate_limit_sleeps].
  rewrite stamp_is_now, trace_after_rate_limit, <- app_assoc. reflexivity.
Qed.

Lemma gets_of_sleeps s : gets_of (rate_limit_sleeps s) = [].
Proof.
  unfold rate_limit_sleeps.
  now destruct (now s - last_request_time s <? rate_limit_delay).
Qed.

Lemma upserts_of_sleeps s : upserts_of (rate_limit_sleeps s) = [].
Proof.
  unfold rate_limit_sleeps.
  now destruct (now s - last_request_time s <? rate_limit_delay).
Qed.

(** The stamp [_rate_limit] records is at least [rate_limit_delay] after
    the stamp it found. *)
Lemma stamp_after_rate_limit s :
  (forall k, 0 <= oversleep env k) ->
  last_request_time s + rate_limit_delay
  <= last_request_time (after_rate_limit s).
Proof.
  intros Hover. unfold after_rate_limit.
  destruct (now s - last_request_time s <? rate_limit_delay) eqn:E; simpl.
  - specialize (Hover (length (trace s))). lia.
  - apply Z.ltb_ge in E. lia.
Qed.

(** The start-to-start and end-to-start distances of consecutive
    requests in a history. *)
Fixpoint request_times (evs : list Event) : list (Z * Z) :=
  match evs with
  | [] => []
  | EvGet t_start t_end _ _ _ :: r => (t_start, t_end) :: request_times r
  | _ :: r => request_times r
  end.

Fixpoint start_to_start (ts : list (Z * Z)) : list Z :=
  match ts with
  | (t1, _) :: (((t2, _) :: _) as r) => (t2 - t1) :: start_to_start r
  | _ => []
  end.

Fixpoint end_to_start (ts : list (Z * Z)) : list Z :=
  match ts with
  | (_, e1) :: (((t2, _) :: _) as r) => (t2 - e1) :: end_to_start r
  | _ => []
  end.

(** C5, as the code has it: of two consecutive requests the second stamp
    [last_request_time] is at least [rate_limit_delay] after the first,
    whatever time passes in between and however long the first request
    took; each stamp is the time its GET starts, so the interval runs
    from the start of one request to the start of the next; and the
    sleep before the second request, if any, is exactly the time still
    missing to the delay. *)
Theorem consecutive_requests_spaced
    (endpoint1 endpoint2 : string) (params1 params2 : list (string * json))
    (idle : Z) (s0 : State) :
  (forall k, 0 <= oversleep env k) ->
  let s1 := snd (_make_request env rate_limit_delay endpoint1 params1 s0) in
  let s1' := advance idle s1 in
  let s2 := snd (_make_request env rate_limit_delay endpoint2 params2 s1') in
  rate_limit_delay <= last_request_time s2 - last_request_time s1 /\
  (exists t_end reply,
     last (trace s1)
     = Some (EvGet (last_request_time s1) t_end
                   (BASE_URL +:+ endpoint1) params1 reply)) /\
  (exists t_end reply,
     trace s2
     = trace s1
       ++ (if now s1' - last_request_time s1 <? rate_limit_delay
           then [EvSleep (rate_limit_delay - (now s1' - last_request_time s1))]
           else [])
       ++ [EvGet (last_request_time s2) t_end
                 (BASE_URL +:+ endpoint2) params2 reply]).
Proof.
  intros Hover s1 s1' s2. subst s2 s1' s1.
  rewrite !make_request_run. cbn [snd].
  set (s1 := after_request endpoint1 params1 s0).
  split; [|split].
  - pose proof (stamp_after_rate_limit (advance idle s1) Hover) as H.
    change (last_request_time (advance idle s1))
      with (last_request_time s1) in H.
    change (last_request_time (after_request endpoint2 params2 (advance idle s1)))
      with (last_request_time (after_rate_limit (advance idle s1))).
    lia.
  - eexists _, _. subst s1. rewrite trace_after_request, !app_assoc.
    apply last_snoc.
  - eexists _, _. rewrite trace_after_request. reflexivity.
Qed.

End RequestFacts.

(** Two servers asked twice in a row by a client whose delay is 500
    ticks: one that takes 600 ticks to answer, and one that answers in 40
    ticks, with a sleep that lasts 5 ticks longer than asked. *)
Section BackToBack.
Import Py World Api.

Definition slow_env : Env :=
  {| latency := fun _ => 600;
     oversleep := fun _ => 0;
     http := fun _ _ _ => Reply 200 (Some (JDict []));
     db := fun _ _ _ => None |}.

Definition at_1000 : State :=
  {| now := 1000; last_request_time := 0; trace := [] |}.

Definition back_to_back : State :=
  snd (_make_request slow_env 500 "/stats/rm_solo" []
         (snd (_make_request slow_env 500 "/stats/rm_solo" [] at_1000))).

Definition brisk_env : Env :=
  {| latency := fun _ => 40;
     oversleep := fun _ => 5;
     http := fun _ _ _ => Reply 200 (Some (JDict []));
     db := fun _ _ _ => None |}.

Definition first_brisk : State :=
  snd (_make_request brisk_env 500 "/stats/rm_solo" [] at_1000).

Definition second_brisk : State :=
  snd (_make_request brisk_env 500 "/stats/rm_team" [] first_brisk).

(** With the quick server the first request ends 40 ticks after its
    start, so the rate limiter sleeps the 460 ticks that are missing
    before the second one, and the two stamps are at least 500 ticks
    apart. *)
Lemma consecutive_requests_spaced_witness :
  (forall k, 0 <= oversleep brisk_env k) /\
  500 <= last_request_time second_brisk - last_request_time first_brisk /\
  EvSleep 460 ∈ trace second_brisk.
Proof.
  assert (H : forall k, 0 <= oversleep brisk_env k) by (intros k; simpl; lia).
  split; [exact H|].
  pose proof (consecutive_requests_spaced brisk_env 500
                "/stats/rm_solo" "/stats/rm_team" [] [] 0 at_1000 H) as Hspaced.
  cbv zeta in Hspaced.
  destruct Hspaced as (Hgap & _ & (t_end & reply & Htrace)).
  split; [exact Hgap|].
  change (EvSleep 460
          ∈ trace (snd (_make_request brisk_env 500 "/stats/rm_team" []
                          (advance 0 first_brisk)))).
  unfold first_brisk. rewrite Htrace.
  apply elem_of_app. right. apply elem_of_app. left.
  vm_compute. apply list_elem_of_here.
Defined.

(** C5 as stated fails: the second request starts the moment the first
    one ends, so from the end of the previous request to the start of
    the next no time passes at all, although the delay is 500. *)
Lemma end_to_start_below_delay :
  request_times (trace back_to_back) = [(1000, 1600); (1600, 2200)] /\
  start_to_start (request_times (trace back_to_back)) = [600] /\
  end_to_start (request_times (trace back_to_back)) = [0] /\
  ~ Forall (fun gap => 500 <= gap)
           (end_to_start (request_times (trace back_to_back))).
Proof.
  split; [reflexivity|]. split; [reflexivity|]. split; [reflexivity|].
  intros H. apply Forall_inv in H. simpl in H. lia.
Qed.

End BackToBack.

(** ** The orchestrator *)

Section SyncFacts.
Import Py World Api Db Sync.

Variable env : Env.
Variable rate_limit_delay : Z.
Variable isoformat : Z -> string.

Local Abbreviation sync_civ_meta_stats :=
  (Sync.sync_civ_meta_stats env rate_limit_delay isoformat).
Local Abbreviation sync_leaderboard :=
  (Sync.sync_leaderboard env rate_limit_delay isoformat).
Local Abbreviation player_records :=
  (Sync.player_records env rate_limit_delay isoformat).

(** *** No pairs, no effects *)

Lemma sync_rank_levels_nil leaderboard all_stats s :
  sync_rank_levels env rate_limit_delay isoformat leaderboard [] all_stats s
  = (all_stats, s).
Proof. reflexivity. Qed.

Lemma sync_leaderboards_no_rank_levels leaderboards all_stats s :
  sync_leaderboards env rate_limit_delay isoformat leaderboards [] all_stats s
  = (all_stats, s).
Proof. induction leaderboards as [|lb r IH]; simpl; [reflexivity|apply IH]. Qed.

(** With no leaderboard or no rank level to visit, the synchronisation
    logs its opening line and returns 0. *)
Lemma meta_sync_no_pairs leaderboards rank_levels s :
  leaderboards = [] \/ rank_levels = [] ->
  sync_civ_meta_stats (Some leaderboards) (Some rank_levels) s
  = (Ok 0, emit (EvLog Info) s).
Proof.
  intros [-> | ->]; unfold Sync.sync_civ_meta_stats, mbind, Py_bind, log;
    simpl; [reflexivity|].
  now rewrite sync_leaderboards_no_rank_levels.
Qed.

(** C8: called with the empty list for both overrides, the meta-stats
    synchronisation returns 0; the only event it adds to the history is
    its opening log line, so no request is sent and no row is written,
    and the clock and the rate limiter's stamp are as before. *)
Theorem meta_sync_empty_overrides (s : State) :
  let r := sync_civ_meta_stats (Some []) (Some []) s in
  fst r = Ok 0 /\
  exists new,
    trace (snd r) = trace s ++ new /\
    gets_of new = [] /\ upserts_of new = [] /\
    now (snd r) = now s /\
    last_request_time (snd r) = last_request_time s.
Proof.
  intros r. subst r. rewrite meta_sync_no_pairs by now left.
  split; [reflexivity|]. exists [EvLog Info]. repeat split.
Qed.

(** *** Leaderboard synchronisation *)

Definition is_dict (x : json) : bool :=
  match x with JDict _ => true | _ => false end.

(** The one request [sync_leaderboard] sends. *)
Definition leaderboard_endpoint (leaderboard : string) : string :=
  "/leaderboards/" +:+ leaderboard.

Definition leaderboard_params (count : Z) : list (string * json) :=
  [("count", JNum (Z.min count 200)); ("page", JNum 1)].

(** A player object after the loop of [get_top_players] has tagged it. *)
Definition tagged (leaderboard : string) (ts : json) (player : json) : json :=
  match player with
  | JDict d =>
      JDict (dict_set "fetched_at" ts
               (dict_set "leaderboard" (JStr leaderboard) d))
  | _ => player
  end.

(** The row written for a player object of the page. *)
Definition player_row (leaderboard : string) (ts : json) (player : json)
  : json :=
  match player with
  | JDict d =>
      JDict [ ("player_id", default JNull (assoc "profile_id" d));
              ("player_name", default (JStr EmptyString) (assoc "name" d));
              ("rank", default (JNum 0) (assoc "rank" d));
              ("rating", default (JNum 0) (assoc "rating" d));
              ("games_count", default (JNum 0) (assoc "games_count" d));
              ("wins", default (JNum 0) (assoc "wins" d));
              ("losses", default (JNum 0) (assoc "losses" d));
              ("win_rate", default (JNum 0) (assoc "win_rate" d));
              ("leaderboard", JStr leaderboard);
              ("last_updated", ts) ]
  | _ => JNull
  end.

Lemma assoc_dict_set_ne k k' v d :
  k <> k' -> assoc k (dict_set k' v d) = assoc k d.
Proof.
  intros Hne. induction d as [|[k0 v0] d IH]; simpl.
  - destruct (String.eqb_spec k' k); congruence.
  - destruct (String.eqb_spec k0 k') as [->|Hk0]; simpl.
    + destruct (String.eqb_spec k' k); congruence.
    + destruct (String.eqb_spec k0 k); [reflexivity|apply IH].
Qed.

Lemma player_row_tagged leaderboard ts ts' player :
  player_row leaderboard ts (tagged leaderboard ts' player)
  = player_row leaderboard ts player.
Proof.
  destruct player; try reflexivity. unfold tagged, player_row.
  now rewrite !assoc_dict_set_ne by discriminate.
Qed.

Lemma tag_player_run leaderboard player s :
  is_dict player = true ->
  tag_player isoformat leaderboard player s
  = (Ok (tagged leaderboard (JStr (isoformat (now s))) player), s).
Proof. destruct player; try discriminate. reflexivity. Qed.

Lemma player_record_run leaderboard player s :
  is_dict player = true ->
  player_record isoformat leaderboard player s
  = (Ok (player_row leaderboard (JStr (isoformat (now s))) player), s).
Proof. destruct player; try discriminate. reflexivity. Qed.

Lemma pure_py_tag_player leaderboard player :
  pure_py (tag_player isoformat leaderboard player).
Proof. intros s. now destruct player. Qed.

Lemma pure_py_player_record leaderboard player :
  pure_py (player_record isoformat leaderboard player).
Proof. intros s. now destruct player. Qed.

(** Whatever the reply, building the records leaves the state the
    request left. *)
Lemma player_records_state leaderboard count s :
  snd (player_records leaderboard count s)
  = after_request env rate_limit_delay (leaderboard_endpoint leaderboard)
                  (leaderboard_params count) s.
Proof.
  unfold Sync.player_records.
  rewrite snd_bind_pure.
  2:{ intros players. apply pure_py_bind; [apply pure_py_lift|].
      intros items. apply pure_py_map_py, pure_py_player_record. }
  unfold get_top_players.
  rewrite snd_bind_pure.
  2:{ intros data. apply pure_py_bind; [apply pure_py_lift|].
      intros players. apply pure_py_bind; [apply pure_py_lift|].
      intros items. apply pure_py_bind.
      - apply pure_py_map_py, pure_py_tag_player.
      - intros. apply pure_py_ret. }
  unfold get_leaderboard. now rewrite make_request_run.
Qed.

(** On a well-formed page the records are the rows of its players, in
    order, all stamped with the time the reply arrived. *)
Lemma player_records_page leaderboard count s status body ps :
  reply_to env rate_limit_delay (leaderboard_endpoint leaderboard)
           (leaderboard_params count) s
  = Reply status (Some (JDict body)) ->
  (400 <=? status) && (status <? 600) = false ->
  default (JList []) (assoc "players" body) = JList ps ->
  Forall (fun p => is_dict p = true) ps ->
  let s1 := after_request env rate_limit_delay
              (leaderboard_endpoint leaderboard) (leaderboard_params count) s in
  fst (player_records leaderboard count s)
  = Ok (map (player_row leaderboard (JStr (isoformat (now s1)))) ps).
Proof.
  intros Hreply Hstatus Hplayers Hdicts s1.
  unfold Sync.player_records, get_top_players, get_leaderboard.
  unfold mbind, Py_bind. rewrite make_request_run.
  fold (leaderboard_endpoint leaderboard) (leaderboard_params count).
  fold s1. rewrite Hreply. unfold read_reply. rewrite Hstatus.
  unfold lift, py_get. rewrite Hplayers. unfold py_iter.
  rewrite (map_py_total _ (tagged leaderboard (JStr (isoformat (now s1))))).
  2:{ eapply Forall_impl; [exact Hdicts|]. intros p Hp.
      now apply tag_player_run. }
  unfold mret, Py_ret.
  rewrite (map_py_total _ (player_row leaderboard (JStr (isoformat (now s1))))).
  2:{ apply Forall_fmap. eapply Forall_impl; [exact Hdicts|]. intros p Hp.
      simpl. apply player_record_run. now destruct p. }
  simpl. f_equal. rewrite map_map. apply map_ext. intros p.
  apply player_row_tagged.
Qed.

(** [sync_leaderboard], case by case. *)
Lemma sync_leaderboard_run leaderboard count s :
  let s0 := emit (EvLog Info) s in
  let s1 := after_request env rate_limit_delay
              (leaderboard_endpoint leaderboard) (leaderboard_params count) s0 in
  sync_leaderboard leaderboard count s
  = match fst (player_records leaderboard count s0) with
    | Raise e => (Ok 0, emit (EvLog Error) s1)
    | Ok [] => (Ok 0, s1)
    | Ok (r :: rs) =>
        match db env (length (trace s1)) "leaderboard_players" (r :: rs) with
        | None =>
            (Ok (len (r :: rs)),
             emit (EvLog Info)
                  (emit (EvUpsert "leaderboard_players" (r :: rs) None) s1))
        | Some e =>
            (Ok 0,
             emit (EvLog Error)
                  (emit (EvUpsert "leaderboard_players" (r :: rs) (Some e)) s1))
        end
    end.
Proof.
  intros s0 s1.
  pose proof (player_records_state leaderboard count s0) as Hstate.
  fold s1 in Hstate.
  unfold Sync.sync_leaderboard, try_except, sync_leaderboard_body.
  unfold mbind, Py_bind, log. fold s0.
  clearbody s1 s0.
  destruct (player_records leaderboard count s0) as [[rows|e] s1'];
    simpl in Hstate; subst s1'; cbn [fst]; [|reflexivity].
  destruct rows as [|r rs]; [reflexivity|].
  unfold upsert_leaderboard_players, table_upsert.
  destruct (db env (length (trace s1)) "leaderboard_players" (r :: rs));
    reflexivity.
Qed.

Lemma trace_emit ev s : trace (emit ev s) = trace s ++ [ev].
Proof. reflexivity. Qed.

(** The four ways a call of [sync_leaderboard] can go: the records
    cannot be built, there are none, they are written, or the write
    fails.  [sent] is what precedes in every case: the opening log line,
    a sleep if the rate limiter asks for one, and the request. *)
Lemma sync_leaderboard_cases leaderboard count s :
  let r := sync_leaderboard leaderboard count s in
  let s0 := emit (EvLog Info) s in
  let built := fst (player_records leaderboard count s0) in
  exists sent,
    gets_of sent
    = [(BASE_URL +:+ leaderboard_endpoint leaderboard,
        leaderboard_params count)] /\
    upserts_of sent = [] /\
    ((exists e, built = Raise e /\ fst r = Ok 0 /\
                trace (snd r) = trace s ++ sent ++ [EvLog Error]) \/
     (built = Ok [] /\ fst r = Ok 0 /\ trace (snd r) = trace s ++ sent) \/
     (exists rows k,
        rows <> [] /\ built = Ok rows /\
        db env k "leaderboard_players" rows = None /\
        fst r = Ok (len rows) /\
        trace (snd r)
        = trace s ++ sent
          ++ [EvUpsert "leaderboard_players" rows None; EvLog Info]) \/
     (exists rows k e,
        rows <> [] /\ built = Ok rows /\
        db env k "leaderboard_players" rows = Some e /\
        fst r = Ok 0 /\
        trace (snd r)
        = trace s ++ sent
          ++ [EvUpsert "leaderboard_players" rows (Some e); EvLog Error])).
Proof.
  intros r s0 built. subst r. rewrite sync_leaderboard_run. fold s0 built.
  set (s1 := after_request env rate_limit_delay
               (leaderboard_endpoint leaderboard) (leaderboard_params count) s0).
  assert (Htr : exists sent,
    trace s1 = trace s ++ sent /\
    gets_of sent
    = [(BASE_URL +:+ leaderboard_endpoint leaderboard,
        leaderboard_params count)] /\
    upserts_of sent = []).
  { eexists. split; [|split].
    - subst s1. rewrite trace_after_request. subst s0.
      rewrite trace_emit, <- app_assoc. reflexivity.
    - rewrite !gets_of_app, gets_of_sleeps. reflexivity.
    - rewrite !upserts_of_app, upserts_of_sleeps. reflexivity. }
  destruct Htr as (sent & Htr & Hgets & Hups). exists sent.
  split; [exact Hgets|]. split; [exact Hups|].
  clearbody s1 s0. destruct built as [[|row rows]|e].
  - right. left. auto.
  - destruct (db env (length (trace s1)) "leaderboard_players" (row :: rows))
      as [e|] eqn:Hdb.
    + right. right. right. exists (row :: rows), (length (trace s1)), e.
      repeat split; try assumption; try discriminate.
      cbn [snd]. rewrite !trace_emit, Htr, <- !app_assoc. reflexivity.
    + right. right. left. exists (row :: rows), (length (trace s1)).
      repeat split; try assumption; try discriminate.
      cbn [snd]. rewrite !trace_emit, Htr, <- !app_assoc. reflexivity.
  - left. exists e. repeat split.
    cbn [snd]. rewrite trace_emit, Htr, <- app_assoc. reflexivity.
Qed.

(** C2, as the code has it: [sync_leaderboard] never raises.  When the
    write of the players fails, the error stays inside the call: the
    failed write is followed by an error log line and the call returns
    0 to its caller. *)
Theorem sync_leaderboard_keeps_write_error
    (leaderboard : string) (count : Z) (s : State) :
  let r := sync_leaderboard leaderboard count s in
  (exists n, fst r = Ok n) /\
  (forall new rows e,
     trace (snd r) = trace s ++ new ->
     ("leaderboard_players", rows, Some e) ∈ upserts_of new ->
     fst r = Ok 0 /\ last new = Some (EvLog Error)).
Proof.
  intros r.
  destruct (sync_leaderboard_cases leaderboard count s)
    as (sent & _ & Hups & Hcases).
  fold r in Hcases.
  destruct Hcases as [(e & _ & Hr & Htr)|[(_ & Hr & Htr)|
    [(rows & k & _ & _ & _ & Hr & Htr)|(rows & k & e & _ & _ & _ & Hr & Htr)]]];
    (split; [eauto|]); intros new rows' e' Hnew Hin;
    rewrite Htr in Hnew; apply app_inv_head in Hnew; subst new.
  - rewrite upserts_of_app, Hups in Hin. now apply elem_of_nil in Hin.
  - rewrite Hups in Hin. now apply elem_of_nil in Hin.
  - rewrite upserts_of_app, Hups in Hin. simpl in Hin.
    apply list_elem_of_singleton in Hin. discriminate.
  - split; [exact Hr|].
    change [EvUpsert "leaderboard_players" rows (Some e); EvLog Error]
      with ([EvUpsert "leaderboard_players" rows (Some e)] ++ [EvLog Error]).
    rewrite !app_assoc. apply last_snoc.
Qed.

(** C7, as the code has it: [sync_leaderboard] sends exactly one
    request, to the page of the leaderboard with [count] = min(n, 200)
    and [page] = 1.  When the server answers it with a page of player
    objects and the row-store accepts the write, the call builds one row
    per player of the page, in order, writes them in one batch, writes
    nothing for an empty page, and returns the number of players of the
    page, whatever [n] is: the page is never cut to [n]. *)
Theorem sync_leaderboard_single_page
    (leaderboard : string) (n : Z) (s : State) :
  let r := sync_leaderboard leaderboard n s in
  let url := BASE_URL +:+ leaderboard_endpoint leaderboard in
  exists new,
    trace (snd r) = trace s ++ new /\
    gets_of new = [(url, leaderboard_params n)] /\
    forall status body ps,
      (forall k, http env k url (leaderboard_params n)
                 = Reply status (Some (JDict body))) ->
      (400 <=? status) && (status <? 600) = false ->
      default (JList []) (assoc "players" body) = JList ps ->
      Forall (fun p => is_dict p = true) ps ->
      (forall k rows, db env k "leaderboard_players" rows = None) ->
      exists ts,
        let rows := map (player_row leaderboard ts) ps in
        length rows = length ps /\
        upserts_of new
        = match ps with
          | [] => []
          | _ :: _ => [("leaderboard_players", rows, None)]
          end /\
        fst r = Ok (len ps).
Proof.
  intros r url.
  destruct (sync_leaderboard_cases leaderboard n s)
    as (sent & Hgets & Hups & Hcases).
  fold r in Hcases.
  set (s0 := emit (EvLog Info) s) in *.
  set (s1 := after_request env rate_limit_delay
               (leaderboard_endpoint leaderboard) (leaderboard_params n) s0).
  set (ts := JStr (isoformat (now s1))).
  assert (Hpage : forall status body ps,
    (forall k, http env k url (leaderboard_params n)
               = Reply status (Some (JDict body))) ->
    (400 <=? status) && (status <? 600) = false ->
    default (JList []) (assoc "players" body) = JList ps ->
    Forall (fun p => is_dict p = true) ps ->
    fst (player_records leaderboard n s0)
    = Ok (map (player_row leaderboard ts) ps)).
  { intros status body ps Hhttp Hst Hpl Hd.
    apply (player_records_page leaderboard n s0 status body ps);
      try assumption.
    apply Hhttp. }
  destruct Hcases as [(e & Hb & Hr & Htr)|[(Hb & Hr & Htr)|
    [(rows & k & Hne & Hb & Hdb & Hr & Htr)
    |(rows & k & e & Hne & Hb & Hdb & Hr & Htr)]]].
  - exists (sent ++ [EvLog Error]). split; [exact Htr|].
    split; [rewrite gets_of_app, Hgets; reflexivity|].
    intros status body ps Hhttp Hst Hpl Hd _.
    rewrite (Hpage status body ps) in Hb by assumption. discriminate.
  - exists sent. split; [exact Htr|]. split; [exact Hgets|].
    intros status body ps Hhttp Hst Hpl Hd _.
    rewrite (Hpage status body ps) in Hb by assumption.
    injection Hb as Hb. destruct ps; [|discriminate].
    exists ts. simpl. repeat split; auto.
  - exists (sent ++ [EvUpsert "leaderboard_players" rows None; EvLog Info]).
    split; [exact Htr|].
    split; [rewrite gets_of_app, Hgets; reflexivity|].
    intros status body ps Hhttp Hst Hpl Hd _.
    rewrite (Hpage status body ps) in Hb by assumption.
    injection Hb as Hb. subst rows. exists ts. cbn zeta.
    split; [apply length_map|].
    split.
    + rewrite upserts_of_app, Hups. destruct ps; [contradiction|reflexivity].
    + rewrite Hr. unfold len. now rewrite length_map.
  - exists (sent ++ [EvUpsert "leaderboard_players" rows (Some e);
                     EvLog Error]).
    split; [exact Htr|].
    split; [rewrite gets_of_app, Hgets; reflexivity|].
    intros status body ps _ _ _ _ Hok. rewrite Hok in Hdb. discriminate.
Qed.

End SyncFacts.

(** ** A leaderboard page of two players *)

Section LeaderboardRuns.
Import Py World Api Sync.

(** A clock reading as text, for the runs below. *)
Definition tick_text (t : Z) : string :=
  NilZero.string_of_int (Z.to_int t).

Definition alice : json :=
  JDict [("profile_id", JNum 7); ("name", JStr "Alice");
         ("rank", JNum 1); ("rating", JNum 2100)].

Definition bob : json :=
  JDict [("profile_id", JNum 9); ("name", JStr "Bob");
         ("rank", JNum 2); ("rating", JNum 2050)].

Definition two_players : list (string * json) :=
  [("players", JList [alice; bob]); ("total_count", JNum 2)].

(** The server answers every request with the page; the row-store
    accepts, or rejects, every write. *)
Definition accepting_env : Env :=
  {| latency := fun _ => 40;
     oversleep := fun _ => 0;
     http := fun _ _ _ => Reply 200 (Some (JDict two_players));
     db := fun _ _ _ => None |}.

Definition rejecting_env : Env :=
  {| latency := fun _ => 40;
     oversleep := fun _ => 0;
     http := fun _ _ _ => Reply 200 (Some (JDict two_players));
     db := fun _ _ _ => Some APIError |}.

Definition rejected_run : result Z * State :=
  sync_leaderboard rejecting_env 500 tick_text "rm_solo" 10 at_1000.

Definition accepted_run : result Z * State :=
  sync_leaderboard accepting_env 500 tick_text "rm_solo" 10 at_1000.

(** C2 as stated fails: the row-store rejects the write with [APIError],
    and the call returns 0 instead of raising. *)
Lemma write_error_not_propagated :
  upserts_of (trace (snd rejected_run))
  = [("leaderboard_players",
      [player_row "rm_solo" (JStr "1040") alice;
       player_row "rm_solo" (JStr "1040") bob],
      Some APIError)] /\
  fst rejected_run = Ok 0 /\
  fst rejected_run <> Raise APIError.
Proof. split; [reflexivity|]. split; [reflexivity|discriminate]. Qed.

(** With the rejecting row-store the call returns 0 and its last event is
    the error log line. *)
Lemma sync_leaderboard_keeps_write_error_witness :
  fst rejected_run = Ok 0 /\
  last (trace (snd rejected_run)) = Some (EvLog Error).
Proof.
  apply (proj2 (sync_leaderboard_keeps_write_error
                  rejecting_env 500 tick_text "rm_solo" 10 at_1000)
               (trace (snd rejected_run))
               [player_row "rm_solo" (JStr "1040") alice;
                player_row "rm_solo" (JStr "1040") bob]
               APIError).
  - reflexivity.
  - apply list_elem_of_singleton. reflexivity.
Defined.

(** A request for 10 players answered with a page of two: one request
    with [count=10], one batch of two rows, and 2 is returned. *)
Lemma sync_leaderboard_single_page_witness :
  gets_of (trace (snd accepted_run))
  = [("https://aoe4world.com/api/v0/leaderboards/rm_solo",
      [("count", JNum 10); ("page", JNum 1)])] /\
  (exists ts,
     upserts_of (trace (snd accepted_run))
     = [("leaderboard_players",
         [player_row "rm_solo" ts alice; player_row "rm_solo" ts bob],
         None)]) /\
  fst accepted_run = Ok 2.
Proof.
  destruct (sync_leaderboard_single_page
              accepting_env 500 tick_text "rm_solo" 10 at_1000)
    as (new & Htrace & Hgets & Hpage).
  change (trace at_1000 ++ new) with new in Htrace.
  destruct (Hpage 200 two_players [alice; bob]) as (ts & _ & Hups & Hr).
  - intros k. reflexivity.
  - reflexivity.
  - reflexivity.
  - repeat constructor.
  - intros k rows. reflexivity.
  - unfold accepted_run. rewrite Htrace.
    split; [exact Hgets|]. split; [exists ts; exact Hups|]. exact Hr.
Defined.

(** A server that answers a request for two players with a page of
    three. *)
Definition carol : json :=
  JDict [("profile_id", JNum 11); ("name", JStr "Carol");
         ("rank", JNum 3); ("rating", JNum 2000)].

Definition generous_env : Env :=
  {| latency := fun _ => 40;
     oversleep := fun _ => 0;
     http := fun _ _ _ =>
       Reply 200 (Some (JDict [("players", JList [alice; bob; carol])]));
     db := fun _ _ _ => None |}.

Definition overfull_run : result Z * State :=
  sync_leaderboard generous_env 500 tick_text "rm_solo" 2 at_1000.

(** C7 as stated fails: asked for two players, the call sends one
    request with [count=2], writes the three players the page holds and
    returns 3, which is more than the count asked for. *)
Lemma page_longer_than_count :
  gets_of (trace (snd overfull_run))
  = [("https://aoe4world.com/api/v0/leaderboards/rm_solo",
      [("count", JNum 2); ("page", JNum 1)])] /\
  upserts_of (trace (snd overfull_run))
  = [("leaderboard_players",
      [player_row "rm_solo" (JStr "1040") alice;
       player_row "rm_solo" (JStr "1040") bob;
       player_row "rm_solo" (JStr "1040") carol],
      None)] /\
  fst overfull_run = Ok 3 /\
  ~ (forall written, fst overfull_run = Ok written -> written <= 2).
Proof.
  split; [reflexivity|]. split; [reflexivity|]. split; [reflexivity|].
  intros H. specialize (H 3 eq_refl). lia.
Qed.

End LeaderboardRuns.

(** ** Meta-stats synchronisation with failing pairs *)

Section MetaSyncFacts.
Import Py World Api Db Sync Normalize.

Variable env : Env.
Variable rate_limit_delay : Z.
Variable isoformat : Z -> string.

(** The request [get_civ_stats] sends for a pair. *)
Definition stats_endpoint (leaderboard : string) : string :=
  "/stats/" +:+ leaderboard.

Definition stats_params (rank_level : string) : list (string * json) :=
  [("rank_level", JStr rank_level)].

Definition stats_request (pair : string * string)
  : string * list (string * json) :=
  (BASE_URL +:+ stats_endpoint (fst pair), stats_params (snd pair)).

(** What the fetch of a pair makes of a reply: the stat objects to map, or
    the exception that ends the [try] block before any record is built. *)
Definition fetched (reply : HttpReply) : result (list json) :=
  match read_reply reply with
  | Ok data =>
      match py_get data "civilizations" (JList []) with
      | Ok stats => py_iter stats
      | Raise e => Raise e
      end
  | Raise e => Raise e
  end.

(** A stat object the mapping accepts: a dict whose [civ_slug], when
    present, is a string. *)
Definition good_stat (stat : json) : bool :=
  match stat with
  | JDict d =>
      match assoc "civ_slug" d with
      | None | Some (JStr _) => true
      | Some _ => false
      end
  | _ => false
  end.

(** The row built from a stat object. *)
Definition stat_row (leaderboard rank_level : string) (ts : json)
    (stat : json) : json :=
  match stat with
  | JDict d =>
      JDict [ ("civ_id",
               match default (JStr EmptyString) (assoc "civ_slug" d) with
               | JStr civ_slug => JStr (_normalize_civ_id civ_slug)
               | _ => JNull
               end);
              ("leaderboard", JStr leaderboard);
              ("rank_level", JStr rank_level);
              ("win_rate", default (JNum 0) (assoc "win_rate" d));
              ("pick_rate", default (JNum 0) (assoc "pick_rate" d));
              ("games_count", default (JNum 0) (assoc "games_count" d));
              ("wins", default (JNum 0) (assoc "wins" d));
              ("losses", default (JNum 0) (assoc "losses" d));
              ("last_updated", ts) ]
  | _ => JNull
  end.

Lemma stat_record_run leaderboard rank_level stat s :
  good_stat stat = true ->
  stat_record isoformat leaderboard rank_level stat s
  = (Ok (stat_row leaderboard rank_level (JStr (isoformat (now s))) stat), s).
Proof.
  destruct stat as [| | | |l|d]; try discriminate. simpl. intros Hgood.
  unfold stat_record, mbind, Py_bind, lift, py_get, normalize_call.
  destruct (assoc "civ_slug" d) as [[| | |slug| |]|]; try discriminate;
    reflexivity.
Qed.

Lemma fetch_pair_run leaderboard rank_level s :
  let s0 := emit (EvLog Info) s in
  fetch_pair env rate_limit_delay leaderboard rank_level s
  = (fetched (reply_to env rate_limit_delay (stats_endpoint leaderboard)
                       (stats_params rank_level) s0),
     after_request env rate_limit_delay (stats_endpoint leaderboard)
                   (stats_params rank_level) s0).
Proof.
  intros s0. unfold fetch_pair, get_civ_stats, mbind, Py_bind, log.
  fold s0. rewrite make_request_run.
  fold (stats_endpoint leaderboard) (stats_params rank_level).
  unfold fetched.
  destruct (read_reply _) as [data|e]; [|reflexivity].
  unfold lift. destruct (py_get data "civilizations" (JList [])); reflexivity.
Qed.

(** The server's answer to the request of a pair depends on the pair
    alone, and an answer that can be fetched holds stat objects. *)
Variable reply_of : string -> string -> HttpReply.

Hypothesis http_by_pair : forall k leaderboard rank_level,
  http env k (BASE_URL +:+ stats_endpoint leaderboard) (stats_params rank_level)
  = reply_of leaderboard rank_level.

Hypothesis fetched_stats_good : forall leaderboard rank_level items,
  fetched (reply_of leaderboard rank_level) = Ok items ->
  Forall (fun stat => good_stat stat = true) items.

(** The records a pair adds to [all_stats]: none when its fetch raises,
    one row per stat object, in order and with one timestamp, when it
    succeeds. *)
Definition contributes (pair : string * string) (rows : list json) : Prop :=
  match fetched (reply_of (fst pair) (snd pair)) with
  | Ok items =>
      exists t,
        rows = map (stat_row (fst pair) (snd pair) (JStr (isoformat t))) items
  | Raise _ => rows = []
  end.

(** The number of records the successful pairs hold. *)
Definition records_of_successful (pairs : list (string * string)) : nat :=
  sum_list_with
    (fun pair => match fetched (reply_of (fst pair) (snd pair)) with
                 | Ok items => length items
                 | Raise _ => 0%nat
                 end) pairs.

Lemma contributes_count pairs chunks :
  Forall2 contributes pairs chunks ->
  length (concat chunks) = records_of_successful pairs.
Proof.
  induction 1 as [|pair chunk pairs chunks Hc _ IH]; [reflexivity|].
  simpl. rewrite length_app, IH. unfold records_of_successful. simpl.
  f_equal. unfold contributes in Hc.
  destruct (fetched _) as [items|e].
  - destruct Hc as [t ->]. apply length_map.
  - now subst chunk.
Qed.

(** One turn of the inner loop: one request, no write, and the pair's
    contribution appended, whether the fetch succeeds or not. *)
Lemma sync_pair_run leaderboard rank_level all_stats s :
  exists chunk evs,
    fst (sync_pair env rate_limit_delay isoformat
                   leaderboard rank_level all_stats s)
    = all_stats ++ chunk /\
    trace (snd (sync_pair env rate_limit_delay isoformat
                          leaderboard rank_level all_stats s))
    = trace s ++ evs /\
    gets_of evs = [stats_request (leaderboard, rank_level)] /\
    upserts_of evs = [] /\
    contributes (leaderboard, rank_level) chunk.
Proof.
  unfold sync_pair. rewrite fetch_pair_run.
  set (s0 := emit (EvLog Info) s).
  set (s1 := after_request env rate_limit_delay (stats_endpoint leaderboard)
               (stats_params rank_level) s0).
  assert (Htr : exists sent,
    trace s1 = trace s ++ sent /\
    gets_of sent = [stats_request (leaderboard, rank_level)] /\
    upserts_of sent = []).
  { eexists. split; [|split].
    - subst s1. rewrite trace_after_request. subst s0.
      rewrite trace_emit, <- app_assoc. reflexivity.
    - rewrite !gets_of_app, gets_of_sleeps. reflexivity.
    - rewrite !upserts_of_app, upserts_of_sleeps. reflexivity. }
  destruct Htr as (sent & Htr & Hgets & Hups).
  unfold reply_to. rewrite http_by_pair. unfold contributes. cbn [fst snd].
  clearbody s1 s0.
  destruct (fetched (reply_of leaderboard rank_level)) as [items|e] eqn:Hf.
  - rewrite (for_append_total _
      (stat_row leaderboard rank_level (JStr (isoformat (now s1))))).
    2:{ eapply Forall_impl; [exact (fetched_stats_good _ _ _ Hf)|].
        intros stat Hgood. now apply stat_record_run. }
    eexists _, sent. cbn [fst snd]. repeat split; eauto.
  - exists [], (sent ++ [EvLog Error]). cbn [fst snd log].
    rewrite app_nil_r, trace_emit, Htr, <- app_assoc.
    rewrite gets_of_app, upserts_of_app, Hgets, Hups. repeat split.
Qed.

Local Abbreviation sync_rank_levels :=
  (Sync.sync_rank_levels env rate_limit_delay isoformat).
Local Abbreviation sync_leaderboards :=
  (Sync.sync_leaderboards env rate_limit_delay isoformat).

(** The inner loop visits every rank level, failures or not. *)
Lemma sync_rank_levels_run leaderboard rank_levels all_stats s :
  exists chunks evs,
    fst (sync_rank_levels leaderboard rank_levels all_stats s)
    = all_stats ++ concat chunks /\
    trace (snd (sync_rank_levels leaderboard rank_levels all_stats s))
    = trace s ++ evs /\
    gets_of evs
    = map stats_request (map (pair leaderboard) rank_levels) /\
    upserts_of evs = [] /\
    Forall2 contributes (map (pair leaderboard) rank_levels) chunks.
Proof.
  revert all_stats s.
  induction rank_levels as [|rank_level rest IH]; intros all_stats s.
  - exists [], []. simpl. rewrite !app_nil_r. repeat split. constructor.
  - simpl.
    destruct (sync_pair_run leaderboard rank_level all_stats s)
      as (chunk & evs & Hfst & Htr & Hgets & Hups & Hc).
    destruct (sync_pair env rate_limit_delay isoformat leaderboard rank_level
                        all_stats s) as [all_stats' s'].
    simpl in Hfst, Htr. subst all_stats'.
    destruct (IH (all_stats ++ chunk) s')
      as (chunks & evs' & Hfst' & Htr' & Hgets' & Hups' & Hcs).
    exists (chunk :: chunks), (evs ++ evs').
    rewrite Hfst', Htr', Htr, gets_of_app, upserts_of_app.
    rewrite Hgets, Hgets', Hups, Hups'. simpl.
    rewrite <- !app_assoc. repeat split. now constructor.
Qed.

(** So does the outer loop: the pairs are visited in the order of
    [list_prod]. *)
Lemma sync_leaderboards_run leaderboards rank_levels all_stats s :
  exists chunks evs,
    fst (sync_leaderboards leaderboards rank_levels all_stats s)
    = all_stats ++ concat chunks /\
    trace (snd (sync_leaderboards leaderboards rank_levels all_stats s))
    = trace s ++ evs /\
    gets_of evs = map stats_request (list_prod leaderboards rank_levels) /\
    upserts_of evs = [] /\
    Forall2 contributes (list_prod leaderboards rank_levels) chunks.
Proof.
  revert all_stats s.
  induction leaderboards as [|leaderboard rest IH]; intros all_stats s.
  - exists [], []. simpl. rewrite !app_nil_r. repeat split. constructor.
  - simpl.
    destruct (sync_rank_levels_run leaderboard rank_levels all_stats s)
      as (chunks & evs & Hfst & Htr & Hgets & Hups & Hcs).
    destruct (sync_rank_levels leaderboard rank_levels all_stats s)
      as [all_stats' s'].
    simpl in Hfst, Htr. subst all_stats'.
    destruct (IH (all_stats ++ concat chunks) s')
      as (chunks' & evs' & Hfst' & Htr' & Hgets' & Hups' & Hcs').
    exists (chunks ++ chunks'), (evs ++ evs').
    rewrite Hfst', Htr', Htr, gets_of_app, upserts_of_app.
    rewrite Hgets, Hgets', Hups, Hups', concat_app, map_app.
    rewrite <- !app_assoc. repeat split. now apply Forall2_app.
Qed.

(** [sync_civ_meta_stats] after its loops. *)
Lemma meta_sync_run leaderboards rank_levels s :
  let looped := sync_leaderboards leaderboards rank_levels []
                                  (emit (EvLog Info) s) in
  let all_stats := fst looped in
  let s2 := snd looped in
  Sync.sync_civ_meta_stats env rate_limit_delay isoformat
    (Some leaderboards) (Some rank_levels) s
  = match all_stats with
    | [] => (Ok 0, s2)
    | _ :: _ =>
        let s3 := emit (EvLog Info) s2 in
        match db env (length (trace s3)) "civilization_meta_stats" all_stats with
        | None =>
            (Ok (len all_stats),
             emit (EvLog Info)
                  (emit (EvUpsert "civilization_meta_stats" all_stats None) s3))
        | Some e =>
            (Raise e,
             emit (EvUpsert "civilization_meta_stats" all_stats (Some e)) s3)
        end
    end.
Proof.
  intros looped all_stats s2. subst all_stats s2.
  unfold Sync.sync_civ_meta_stats, mbind, Py_bind, log.
  cbv [from_option id]. fold looped.
  destruct looped as [[|row rows] s2]; [reflexivity|].
  cbn [fst snd]. unfold upsert_civ_meta_stats, table_upsert, mret, Py_ret.
  destruct (db env _ _ _); reflexivity.
Qed.

(** C3: when every reply either makes the fetch of its pair raise or holds
    stat objects, the meta-stats synchronisation sends one request per
    pair, in loop order, whether earlier pairs failed or not; a pair whose
    fetch raises adds no record and a pair whose fetch succeeds adds one
    row per stat object; all rows go to the row-store in one batch (no
    write for no rows); and when the row-store accepts the batch the
    call returns the number of rows, which is the number of stat objects
    of the successful pairs. *)
Theorem meta_sync_skips_failed_pairs
    (leaderboards rank_levels : list string) (s : State) :
  let r := Sync.sync_civ_meta_stats env rate_limit_delay isoformat
             (Some leaderboards) (Some rank_levels) s in
  let pairs := list_prod leaderboards rank_levels in
  exists new chunks outcome,
    trace (snd r) = trace s ++ new /\
    gets_of new = map stats_request pairs /\
    Forall2 contributes pairs chunks /\
    upserts_of new
    = match concat chunks with
      | [] => []
      | _ :: _ => [("civilization_meta_stats", concat chunks, outcome)]
      end /\
    length (concat chunks) = records_of_successful pairs /\
    ((forall k rows, db env k "civilization_meta_stats" rows = None) ->
     fst r = Ok (Z.of_nat (records_of_successful pairs))).
Proof.
  intros r pairs. subst r. rewrite meta_sync_run.
  set (s0 := emit (EvLog Info) s).
  destruct (sync_leaderboards_run leaderboards rank_levels [] s0)
    as (chunks & evs & Hfst & Htr & Hgets & Hups & Hcs).
  fold pairs in Hgets, Hcs.
  pose proof (contributes_count pairs chunks Hcs) as Hcount.
  destruct (sync_leaderboards leaderboards rank_levels [] s0)
    as [all_stats s2].
  cbn [fst snd] in *. simpl in Hfst. subst all_stats.
  assert (Htr0 : trace s2 = trace s ++ EvLog Info :: evs).
  { rewrite Htr. subst s0. rewrite trace_emit, <- app_assoc. reflexivity. }
  assert (Hgets0 : gets_of (EvLog Info :: evs) = map stats_request pairs)
    by exact Hgets.
  assert (Hups0 : upserts_of (EvLog Info :: evs) = []) by exact Hups.
  clearbody s0. clear Htr.
  destruct (concat chunks) as [|row rows] eqn:Hrows.
  - exists (EvLog Info :: evs), chunks, None. rewrite Hrows.
    split; [exact Htr0|]. split; [exact Hgets0|]. split; [exact Hcs|].
    split; [exact Hups0|]. split; [exact Hcount|].
    intros _. cbn [fst]. now rewrite <- Hcount.
  - cbn zeta.
    destruct (db env (length (trace (emit (EvLog Info) s2)))
                 "civilization_meta_stats" (row :: rows)) as [e|] eqn:Hdb.
    + exists ((EvLog Info :: evs)
              ++ [EvLog Info;
                  EvUpsert "civilization_meta_stats" (row :: rows) (Some e)]),
        chunks, (Some e).
      rewrite Hrows. cbn [fst snd]. rewrite !trace_emit, Htr0.
      rewrite gets_of_app, upserts_of_app, Hgets0, Hups0.
      split; [now rewrite <- !app_assoc|].
      split; [now rewrite app_nil_r|]. split; [exact Hcs|].
      split; [reflexivity|]. split; [exact Hcount|].
      intros Hok. rewrite Hok in Hdb. discriminate.
    + exists ((EvLog Info :: evs)
              ++ [EvLog Info;
                  EvUpsert "civilization_meta_stats" (row :: rows) None;
                  EvLog Info]),
        chunks, None.
      rewrite Hrows. cbn [fst snd]. rewrite !trace_emit, Htr0.
      rewrite gets_of_app, upserts_of_app, Hgets0, Hups0.
      split; [now rewrite <- !app_assoc|].
      split; [now rewrite app_nil_r|]. split; [exact Hcs|].
      split; [reflexivity|]. split; [exact Hcount|].
      intros _. unfold len. now rewrite <- Hcount.
Qed.

End MetaSyncFacts.

(** ** A synchronisation in which one of two pairs fails *)

Section MetaSyncRuns.
Import Py World Api Sync.

Definition horde_stat : json :=
  JDict [("civ_slug", JStr "golden-horde"); ("win_rate", JNum 52);
         ("pick_rate", JNum 4); ("games_count", JNum 100)].

Definition english_stat : json :=
  JDict [("civ_slug", JStr "english"); ("win_rate", JNum 49);
         ("games_count", JNum 800); ("wins", JNum 392)].

Definition civ_page : json :=
  JDict [("civilizations", JList [horde_stat; english_stat])].

(** The server is down for [rm_team] and answers every other leaderboard
    with the page. *)
Definition flaky_reply (leaderboard rank_level : string) : HttpReply :=
  if String.eqb leaderboard "rm_team"
  then Reply 503 None
  else Reply 200 (Some civ_page).

Definition flaky_env : Env :=
  {| latency := fun _ => 40;
     oversleep := fun _ => 0;
     http := fun _ url _ =>
       if String.eqb url "https://aoe4world.com/api/v0/stats/rm_team"
       then Reply 503 None
       else Reply 200 (Some civ_page);
     db := fun _ _ _ => None |}.

Definition flaky_run : result Z * State :=
  sync_civ_meta_stats flaky_env 500 tick_text
    (Some ["rm_team"; "rm_solo"]) (Some ["all"]) at_1000.

(** The failed pair is asked first; the second pair is still asked, its
    two records are written in one batch, and 2 is returned. *)
Lemma meta_sync_skips_failed_pairs_witness :
  (forall k leaderboard rank_level,
     http flaky_env k (BASE_URL +:+ stats_endpoint leaderboard)
          (stats_params rank_level)
     = flaky_reply leaderboard rank_level) /\
  (forall leaderboard rank_level items,
     fetched (flaky_reply leaderboard rank_level) = Ok items ->
     Forall (fun stat => good_stat stat = true) items) /\
  fst flaky_run = Ok 2 /\
  gets_of (trace (snd flaky_run))
  = [("https://aoe4world.com/api/v0/stats/rm_team", [("rank_level", JStr "all")]);
     ("https://aoe4world.com/api/v0/stats/rm_solo", [("rank_level", JStr "all")])].
Proof.
  assert (Hhttp : forall k leaderboard rank_level,
     http flaky_env k (BASE_URL +:+ stats_endpoint leaderboard)
          (stats_params rank_level)
     = flaky_reply leaderboard rank_level)
    by (intros k leaderboard rank_level; reflexivity).
  assert (Hgood : forall leaderboard rank_level items,
     fetched (flaky_reply leaderboard rank_level) = Ok items ->
     Forall (fun stat => good_stat stat = true) items).
  { intros leaderboard rank_level items. unfold flaky_reply.
    destruct (String.eqb leaderboard "rm_team"); simpl; intros H.
    - discriminate.
    - injection H as <-. repeat constructor. }
  split; [exact Hhttp|]. split; [exact Hgood|].
  destruct (meta_sync_skips_failed_pairs flaky_env 500 tick_text flaky_reply
              Hhttp Hgood ["rm_team"; "rm_solo"] ["all"] at_1000)
    as (new & chunks & outcome & Htr & Hgets & _ & _ & _ & Hr).
  split.
  - apply Hr. intros k rows. reflexivity.
  - unfold flaky_run. rewrite Htr. exact Hgets.
Defined.

(** The same run, computed: what is written are the two rows of
    [rm_solo], with the slug [golden-horde] in its canonical form. *)
Example flaky_run_writes :
  fst flaky_run = Ok 2 /\
  upserts_of (trace (snd flaky_run))
  = [("civilization_meta_stats",
      [stat_row "rm_solo" "all" (JStr "1540") horde_stat;
       stat_row "rm_solo" "all" (JStr "1540") english_stat],
      None)] /\
  assoc "civ_id"
    (match stat_row "rm_solo" "all" (JStr "1540") horde_stat with
     | JDict d => d
     | _ => []
     end)
  = Some (JStr "golden_horde").
Proof. vm_compute. repeat split. Qed.

End MetaSyncRuns.

(** ** Meta-stats synchronisation in any environment *)

Section MetaSyncAnyEnv.
Import Py World Api Db Sync.

Variable env : Env.
Variable rate_limit_delay : Z.
Variable isoformat : Z -> string.

Local Abbreviation sync_pair := (Sync.sync_pair env rate_limit_delay isoformat).
Local Abbreviation sync_rank_levels :=
  (Sync.sync_rank_levels env rate_limit_delay isoformat).
Local Abbreviation sync_leaderboards :=
  (Sync.sync_leaderboards env rate_limit_delay isoformat).
Local Abbreviation sync_civ_meta_stats :=
  (Sync.sync_civ_meta_stats env rate_limit_delay isoformat).

Lemma for_append_state {A B} (f : A -> Py B) xs acc s :
  (forall x, pure_py (f x)) -> snd (for_append f xs acc s) = s.
Proof.
  intros Hf. revert acc. induction xs as [|x xs IH]; intros acc; simpl.
  - reflexivity.
  - pose proof (Hf x s) as Hx. destruct (f x s) as [[b|e] s']; simpl in Hx;
      subst s'; [apply IH|reflexivity].
Qed.

Lemma pure_py_stat_record leaderboard rank_level stat :
  pure_py (stat_record isoformat leaderboard rank_level stat).
Proof.
  unfold stat_record.
  repeat (apply pure_py_bind; [first [apply pure_py_lift | intros s; reflexivity]|];
          intros ?).
  apply pure_py_ret.
Qed.

(** The state a turn of the inner loop leaves: the state after its
    request, with an error line behind it or not. *)
Lemma sync_pair_state leaderboard rank_level all_stats s :
  let s1 := after_request env rate_limit_delay (stats_endpoint leaderboard)
              (stats_params rank_level) (emit (EvLog Info) s) in
  snd (sync_pair leaderboard rank_level all_stats s) = s1 \/
  snd (sync_pair leaderboard rank_level all_stats s) = emit (EvLog Error) s1.
Proof.
  intros s1. unfold Sync.sync_pair. rewrite fetch_pair_run. fold s1.
  destruct (fetched _) as [items|e]; [|now right].
  pose proof (for_append_state (stat_record isoformat leaderboard rank_level)
                items all_stats s1
                (pure_py_stat_record leaderboard rank_level)) as Hs.
  destruct (for_append _ items all_stats s1) as [[acc [e|]] s2];
    simpl in Hs; subst s2; [now right|now left].
Qed.

(** What a state adds to another, as far as requests, writes and time
    are concerned: [k] requests were sent, the given pairs in order,
    nothing was written, and the requests were paced. *)
Definition paced (k : nat) (s s' : State) : Prop :=
  (k = 0%nat /\ now s' = now s /\ last_request_time s' = last_request_time s) \/
  ((1 <= k)%nat /\ now s <= now s' /\
   last_request_time s + Z.of_nat k * rate_limit_delay <= last_request_time s' /\
   now s + (Z.of_nat k - 1) * rate_limit_delay <= last_request_time s' /\
   last_request_time s' <= now s').

Definition extends_by (pairs : list (string * string)) (s s' : State) : Prop :=
  exists evs,
    trace s' = trace s ++ evs /\
    gets_of evs = map stats_request pairs /\
    upserts_of evs = [].

Lemma extends_by_nil s : extends_by [] s s.
Proof. exists []. now rewrite app_nil_r. Qed.

Lemma extends_by_app p q s s' s'' :
  extends_by p s s' -> extends_by q s' s'' -> extends_by (p ++ q) s s''.
Proof.
  intros (e1 & H1 & G1 & U1) (e2 & H2 & G2 & U2). exists (e1 ++ e2).
  rewrite H2, H1, gets_of_app, upserts_of_app, G1, G2, U1, U2, map_app.
  now rewrite <- app_assoc.
Qed.

Section Timing.
Hypothesis oversleep_nonneg : forall k, 0 <= oversleep env k.
Hypothesis latency_nonneg : forall k, 0 <= latency env k.

Lemma paced_app k m s s' s'' :
  paced k s s' -> paced m s' s'' -> paced (k + m) s s''.
Proof.
  unfold paced. intros [(-> & Hn & Hl)|(Hk & H1 & H2 & H3 & H4)]
                       [(-> & Hn' & Hl')|(Hm & H1' & H2' & H3' & H4')].
  - left. repeat split; congruence.
  - right. rewrite Hn, Hl in *. simpl. repeat split; try lia.
  - right. rewrite Hn', Hl'. rewrite Nat.add_0_r. repeat split; try lia.
  - right. repeat split; try lia; nia.
Qed.

Lemma paced_after_request endpoint params s :
  paced 1 s (after_request env rate_limit_delay endpoint params s).
Proof.
  right. unfold after_request, after_rate_limit.
  pose proof (oversleep_nonneg (length (trace s))) as Ho.
  destruct (now s - last_request_time s <? rate_limit_delay) eqn:E; simpl.
  - apply Z.ltb_lt in E.
    pose proof (latency_nonneg (length (trace s ++
      [EvSleep (rate_limit_delay - (now s - last_request_time s))]))) as Hl.
    repeat split; lia.
  - apply Z.ltb_ge in E.
    pose proof (latency_nonneg (length (trace s))) as Hl.
    repeat split; lia.
Qed.

Lemma paced_sync_pair leaderboard rank_level all_stats s :
  paced 1 s (snd (sync_pair leaderboard rank_level all_stats s)).
Proof.
  pose proof (paced_after_request (stats_endpoint leaderboard)
                (stats_params rank_level) (emit (EvLog Info) s)) as Hp.
  destruct (sync_pair_state leaderboard rank_level all_stats s) as [-> | ->];
    exact Hp.
Qed.

Lemma paced_sync_rank_levels leaderboard rank_levels all_stats s :
  paced (length rank_levels) s
        (snd (sync_rank_levels leaderboard rank_levels all_stats s)).
Proof.
  revert all_stats s.
  induction rank_levels as [|rank_level rest IH]; intros all_stats s; simpl.
  - left. auto.
  - pose proof (paced_sync_pair leaderboard rank_level all_stats s) as Hp.
    destruct (sync_pair leaderboard rank_level all_stats s) as [acc s'].
    exact (paced_app 1 _ _ _ _ Hp (IH acc s')).
Qed.

Lemma paced_sync_leaderboards leaderboards rank_levels all_stats s :
  paced (length (list_prod leaderboards rank_levels)) s
        (snd (sync_leaderboards leaderboards rank_levels all_stats s)).
Proof.
  revert all_stats s.
  induction leaderboards as [|leaderboard rest IH]; intros all_stats s; simpl.
  - left. auto.
  - pose proof (paced_sync_rank_levels leaderboard rank_levels all_stats s)
      as Hp.
    destruct (sync_rank_levels leaderboard rank_levels all_stats s)
      as [acc s'].
    rewrite length_app, length_map.
    exact (paced_app _ _ _ _ _ Hp (IH acc s')).
Qed.

End Timing.

Lemma extends_by_sync_pair leaderboard rank_level all_stats s :
  extends_by [(leaderboard, rank_level)] s
             (snd (sync_pair leaderboard rank_level all_stats s)).
Proof.
  set (s1 := after_request env rate_limit_delay (stats_endpoint leaderboard)
               (stats_params rank_level) (emit (EvLog Info) s)).
  assert (H1 : extends_by [(leaderboard, rank_level)] s s1).
  { eexists. split; [|split].
    - subst s1. rewrite trace_after_request, trace_emit, <- app_assoc.
      reflexivity.
    - rewrite !gets_of_app, gets_of_sleeps. reflexivity.
    - rewrite !upserts_of_app, upserts_of_sleeps. reflexivity. }
  destruct (sync_pair_state leaderboard rank_level all_stats s) as [-> | ->];
    fold s1; [exact H1|].
  destruct H1 as (evs & Htr & Hg & Hu). exists (evs ++ [EvLog Error]).
  rewrite trace_emit, Htr, gets_of_app, upserts_of_app, Hg, Hu, <- app_assoc.
  repeat split.
Qed.

Lemma extends_by_sync_rank_levels leaderboard rank_levels all_stats s :
  extends_by (map (pair leaderboard) rank_levels) s
             (snd (sync_rank_levels leaderboard rank_levels all_stats s)).
Proof.
  revert all_stats s.
  induction rank_levels as [|rank_level rest IH]; intros all_stats s; simpl.
  - apply extends_by_nil.
  - pose proof (extends_by_sync_pair leaderboard rank_level all_stats s) as Hp.
    destruct (sync_pair leaderboard rank_level all_stats s) as [acc s'].
    exact (extends_by_app [_] _ _ _ _ Hp (IH acc s')).
Qed.

Lemma extends_by_sync_leaderboards leaderboards rank_levels all_stats s :
  extends_by (list_prod leaderboards rank_levels) s
             (snd (sync_leaderboards leaderboards rank_levels all_stats s)).
Proof.
  revert all_stats s.
  induction leaderboards as [|leaderboard rest IH]; intros all_stats s; simpl.
  - apply extends_by_nil.
  - pose proof (extends_by_sync_rank_levels leaderboard rank_levels all_stats s)
      as Hp.
    destruct (sync_rank_levels leaderboard rank_levels all_stats s)
      as [acc s'].
    exact (extends_by_app _ _ _ _ _ Hp (IH acc s')).
Qed.

Lemma meta_sync_defaults leaderboards rank_levels :
  sync_civ_meta_stats leaderboards rank_levels
  = sync_civ_meta_stats (Some (default all_leaderboards leaderboards))
                        (Some (default all_rank_levels rank_levels)).
Proof. now destruct leaderboards, rank_levels. Qed.

(** The three ways a call of [sync_civ_meta_stats] can end, after its
    loops have left the state [s2] and the list [all_stats]. *)
Lemma meta_sync_cases leaderboards rank_levels s :
  let r := sync_civ_meta_stats (Some leaderboards) (Some rank_levels) s in
  let looped := sync_leaderboards leaderboards rank_levels []
                                  (emit (EvLog Info) s) in
  let all_stats := fst looped in
  let s2 := snd looped in
  now (snd r) = now s2 /\
  ((all_stats = [] /\ fst r = Ok 0 /\ trace (snd r) = trace s2) \/
   (all_stats <> [] /\ fst r = Ok (len all_stats) /\
    trace (snd r)
    = trace s2 ++ [EvLog Info;
                   EvUpsert "civilization_meta_stats" all_stats None;
                   EvLog Info]) \/
   (exists e,
      all_stats <> [] /\ fst r = Raise e /\
      trace (snd r)
      = trace s2 ++ [EvLog Info;
                     EvUpsert "civilization_meta_stats" all_stats (Some e)])).
Proof.
  intros r looped all_stats s2. subst r. rewrite meta_sync_run.
  fold looped. fold all_stats s2. clearbody all_stats s2.
  destruct all_stats as [|row rows]; [split; [reflexivity|left; auto]|].
  cbn zeta.
  destruct (db env _ _ _) as [e|]; (split; [reflexivity|]).
  - right. right. exists e. repeat split; [discriminate|].
    cbn [snd]. now rewrite !trace_emit, <- app_assoc.
  - right. left. repeat split; [discriminate|].
    cbn [snd]. now rewrite !trace_emit, <- !app_assoc.
Qed.

(** X1: in any environment and whatever fails, [sync_civ_meta_stats] sends
    exactly one request per (leaderboard, rank level) pair, in loop
    order, a list left out meaning the six leaderboards or the seven rank
    levels, so 42 requests for a full run; and it writes at most once, a
    batch that is never empty, to [civilization_meta_stats]. *)
Theorem meta_sync_requests_every_pair
    (leaderboards rank_levels : option (list string)) (s : State) :
  let r := sync_civ_meta_stats leaderboards rank_levels s in
  let lbs := default all_leaderboards leaderboards in
  let rls := default all_rank_levels rank_levels in
  exists new,
    trace (snd r) = trace s ++ new /\
    gets_of new = map stats_request (list_prod lbs rls) /\
    length (gets_of new) = (length lbs * length rls)%nat /\
    (upserts_of new = [] \/
     exists rows outcome,
       rows <> [] /\
       upserts_of new = [("civilization_meta_stats", rows, outcome)]).
Proof.
  intros r lbs rls. subst r. rewrite meta_sync_defaults. fold lbs rls.
  destruct (meta_sync_cases lbs rls s) as (_ & Hcases).
  destruct (extends_by_sync_leaderboards lbs rls [] (emit (EvLog Info) s))
    as (evs & Htr & Hg & Hu).
  rewrite trace_emit, <- app_assoc in Htr.
  assert (Hlen : length (map stats_request (list_prod lbs rls))
                 = (length lbs * length rls)%nat)
    by now rewrite length_map, length_prod.
  destruct Hcases as [(_ & _ & Ht)|[(Hne & _ & Ht)|(e & Hne & _ & Ht)]];
    rewrite Ht, Htr; try rewrite <- app_assoc; eexists;
    (split; [reflexivity|]); rewrite !gets_of_app, !upserts_of_app, Hg, Hu;
    cbn [gets_of upserts_of omap app]; rewrite ?app_nil_r;
    (split; [reflexivity|]); (split; [exact Hlen|]).
  - now left.
  - right. eauto.
  - right. eauto.
Qed.

(** X2: the only exception that leaves [sync_civ_meta_stats] is the one
    the row-store raises for the batch: the call raises [e] exactly when
    its write was rejected with [e].  Errors of the requests never
    escape. *)
Theorem meta_sync_raises_only_write_error
    (leaderboards rank_levels : option (list string)) (s : State) :
  let r := sync_civ_meta_stats leaderboards rank_levels s in
  exists new,
    trace (snd r) = trace s ++ new /\
    forall e,
      fst r = Raise e <->
      exists rows, upserts_of new = [("civilization_meta_stats", rows, Some e)].
Proof.
  intros r. subst r. rewrite meta_sync_defaults.
  set (lbs := default all_leaderboards leaderboards).
  set (rls := default all_rank_levels rank_levels).
  destruct (meta_sync_cases lbs rls s) as (_ & Hcases).
  destruct (extends_by_sync_leaderboards lbs rls [] (emit (EvLog Info) s))
    as (evs & Htr & Hg & Hu).
  rewrite trace_emit, <- app_assoc in Htr.
  destruct Hcases as [(_ & Hr & Ht)|[(Hne & Hr & Ht)|(e & Hne & Hr & Ht)]];
    rewrite Ht, Htr, Hr; try rewrite <- app_assoc; eexists;
    (split; [reflexivity|]); rewrite !upserts_of_app, Hu;
    cbn [upserts_of omap app]; intros e'; split.
  - discriminate.
  - intros [rows H]. discriminate.
  - discriminate.
  - intros [rows H]. discriminate.
  - intros [= <-]. eauto.
  - intros [rows [= _ <-]]. reflexivity.
Qed.

(** X4: with a clock that does not run backwards, a synchronisation of
    [n] pairs lasts at least [n - 1] times the delay of the rate
    limiter. *)
Theorem meta_sync_min_duration
    (leaderboards rank_levels : list string) (s : State) :
  (forall k, 0 <= oversleep env k) ->
  (forall k, 0 <= latency env k) ->
  0 <= rate_limit_delay ->
  let r := sync_civ_meta_stats (Some leaderboards) (Some rank_levels) s in
  let n := Z.of_nat (length leaderboards * length rank_levels) in
  now s + (n - 1) * rate_limit_delay <= now (snd r).
Proof.
  intros Hover Hlat Hdelay r n.
  destruct (meta_sync_cases leaderboards rank_levels s) as (Hnow & _).
  fold r in Hnow. rewrite Hnow.
  pose proof (paced_sync_leaderboards Hover Hlat
                leaderboards rank_levels [] (emit (EvLog Info) s)) as Hp.
  rewrite length_prod in Hp. fold n in Hp.
  destruct Hp as [(Hk & Hn & _)|(Hk & H1 & H2 & H3 & H4)].
  - rewrite Hn. subst n. rewrite Hk. simpl. lia.
  - simpl in *. lia.
Qed.

End MetaSyncAnyEnv.

(** ** Edge behaviour of the client and of the leaderboard synchronisation *)

Section EdgeFacts.
Import Py World Api Db Sync.

Variable env : Env.
Variable rate_limit_delay : Z.
Variable isoformat : Z -> string.

Local Abbreviation _make_request := (Api._make_request env rate_limit_delay).
Local Abbreviation get_civ_stats := (Api.get_civ_stats env rate_limit_delay).
Local Abbreviation get_top_players :=
  (Api.get_top_players env rate_limit_delay isoformat).
Local Abbreviation sync_pair := (Sync.sync_pair env rate_limit_delay isoformat).
Local Abbreviation sync_leaderboard :=
  (Sync.sync_leaderboard env rate_limit_delay isoformat).
Local Abbreviation player_records :=
  (Sync.player_records env rate_limit_delay isoformat).

(** X11: [_make_request] never retries and never fails before it has
    sent its request: whatever the state and the reply, it sends exactly
    one GET to the base URL followed by the endpoint, stamps
    [last_request_time] with the time that GET starts, and its result is
    read off that one reply, an error status between 400 and 599 raising
    [HTTPError] with that status. *)
Theorem make_request_single_attempt
    (endpoint : string) (params : list (string * json)) (s : State) :
  let r := _make_request endpoint params s in
  exists new t_end reply,
    trace (snd r) = trace s ++ new /\
    gets_of new = [(BASE_URL +:+ endpoint, params)] /\
    last new = Some (EvGet (last_request_time (snd r)) t_end
                           (BASE_URL +:+ endpoint) params reply) /\
    fst r = read_reply reply /\
    (forall status body,
       reply = Reply status body -> 400 <= status < 600 ->
       fst r = Raise (HTTPError status)).
Proof.
  intros r. subst r. rewrite make_request_run. cbn [fst snd].
  eexists _, _, (reply_to env rate_limit_delay endpoint params s).
  split; [apply trace_after_request|].
  split; [now rewrite gets_of_app, gets_of_sleeps|].
  split; [now rewrite last_snoc|]. split; [reflexivity|].
  intros status body -> [Hlo Hhi]. unfold read_reply.
  apply Z.leb_le in Hlo. apply Z.ltb_lt in Hhi. now rewrite Hlo, Hhi.
Qed.

(** X12: when the stamp the rate limiter finds is not in the future, a
    call of [_make_request] sleeps once when less than the delay has
    passed since the stamp, and not at all otherwise; the sleep it asks
    for is the time missing to the delay, which is positive and at most
    the delay; and with a clock that does not run backwards the stamp it
    leaves is again not in the future once the request is over. *)
Theorem rate_limit_sleep_bounded
    (endpoint : string) (params : list (string * json)) (s : State) :
  last_request_time s <= now s ->
  (forall k, 0 <= oversleep env k) ->
  (forall k, 0 <= latency env k) ->
  let r := _make_request endpoint params s in
  let since := now s - last_request_time s in
  exists new,
    trace (snd r) = trace s ++ new /\
    sleeps_of new
    = (if since <? rate_limit_delay then [rate_limit_delay - since] else []) /\
    (forall d, d ∈ sleeps_of new -> 0 < d <= rate_limit_delay) /\
    last_request_time (snd r) <= now (snd r).
Proof.
  intros Hinv Hover Hlat r since. subst r.
  rewrite make_request_run. cbn [snd].
  eexists. split; [apply trace_after_request|].
  assert (Hsleeps :
    sleeps_of (rate_limit_sleeps rate_limit_delay s
               ++ [EvGet (last_request_time
                            (after_request env rate_limit_delay endpoint
                               params s))
                         (now (after_request env rate_limit_delay endpoint
                                 params s))
                         (BASE_URL +:+ endpoint) params
                         (reply_to env rate_limit_delay endpoint params s)])
    = (if since <? rate_limit_delay then [rate_limit_delay - since] else [])).
  { unfold rate_limit_sleeps. fold since.
    now destruct (since <? rate_limit_delay). }
  split; [exact Hsleeps|]. split.
  - rewrite Hsleeps. intros d Hd.
    destruct (since <? rate_limit_delay) eqn:E.
    + apply Z.ltb_lt in E. apply list_elem_of_singleton in Hd. lia.
    + now apply elem_of_nil in Hd.
  - unfold after_request. cbn -[after_rate_limit].
    pose proof (Hlat (length (trace (after_rate_limit env rate_limit_delay s)))).
    rewrite stamp_is_now. lia.
Qed.

(** X13: [get_civ_stats] asks for [/stats/<leaderboard>] with the rank
    level as a parameter; a JSON object without the key [civilizations]
    gives the empty list, and a reply that is not a JSON object raises
    [AttributeError] instead of being returned. *)
Theorem get_civ_stats_missing_key
    (leaderboard rank_level : string) (s : State) (status : Z) (data : json) :
  (forall k, http env k (BASE_URL +:+ stats_endpoint leaderboard)
                  (stats_params rank_level)
             = Reply status (Some data)) ->
  (400 <=? status) && (status <? 600) = false ->
  let r := fst (get_civ_stats leaderboard rank_level s) in
  match data with
  | JDict d =>
      r = Ok (default (JList []) (assoc "civilizations" d)) /\
      (assoc "civilizations" d = None -> r = Ok (JList []))
  | _ => r = Raise AttributeError
  end.
Proof.
  intros Hhttp Hstatus r. subst r.
  unfold Api.get_civ_stats, mbind, Py_bind. rewrite make_request_run.
  fold (stats_endpoint leaderboard) (stats_params rank_level).
  unfold reply_to. rewrite Hhttp. unfold read_reply. rewrite Hstatus.
  destruct data; try reflexivity. cbn. split; [reflexivity|].
  now intros ->.
Qed.

Lemma assoc_dict_set_eq k v d : assoc k (dict_set k v d) = Some v.
Proof.
  induction d as [|[k0 v0] d IH]; simpl.
  - now rewrite String.eqb_refl.
  - destruct (String.eqb_spec k0 k) as [->|Hne]; simpl.
    + now rewrite String.eqb_refl.
    + destruct (String.eqb_spec k0 k); [contradiction|exact IH].
Qed.

Lemma tag_player_malformed leaderboard player s :
  is_dict player = false ->
  tag_player isoformat leaderboard player s = (Raise TypeError, s).
Proof. destruct player; try discriminate; reflexivity. Qed.

Lemma map_py_tag_malformed leaderboard ps s :
  Exists (fun p => is_dict p = false) ps ->
  fst (map_py (tag_player isoformat leaderboard) ps s) = Raise TypeError.
Proof.
  induction ps as [|p ps IH]; intros H; [now apply Exists_nil in H|].
  simpl. unfold mbind, Py_bind.
  destruct (is_dict p) eqn:Hp.
  - rewrite tag_player_run by exact Hp.
    apply Exists_cons in H as [H|H]; [congruence|].
    specialize (IH H).
    destruct (map_py _ ps s) as [[x|e] s']; simpl in IH; [discriminate|].
    now injection IH as ->.
  - now rewrite tag_player_malformed.
Qed.

(** The page of a leaderboard as the server sends it: a JSON object under
    a status that is no error, with a list under [players]. *)
Definition serves_page (leaderboard : string) (count : Z)
    (ps : list json) : Prop :=
  exists status body,
    (forall k, http env k (BASE_URL +:+ leaderboard_endpoint leaderboard)
                    (leaderboard_params count)
               = Reply status (Some (JDict body))) /\
    (400 <=? status) && (status <? 600) = false /\
    default (JList []) (assoc "players" body) = JList ps.

Lemma get_top_players_run leaderboard count ps s :
  serves_page leaderboard count ps ->
  let s1 := after_request env rate_limit_delay
              (leaderboard_endpoint leaderboard) (leaderboard_params count) s in
  get_top_players leaderboard count s
  = (match fst (map_py (tag_player isoformat leaderboard) ps s1) with
     | Ok tagged => Ok (JList tagged)
     | Raise e => Raise e
     end, s1).
Proof.
  intros (status & body & Hhttp & Hstatus & Hplayers) s1.
  unfold Api.get_top_players, get_leaderboard, mbind, Py_bind.
  rewrite make_request_run.
  fold (leaderboard_endpoint leaderboard) (leaderboard_params count). fold s1.
  unfold reply_to. rewrite Hhttp. unfold read_reply. rewrite Hstatus.
  unfold lift, py_get. rewrite Hplayers. unfold py_iter.
  pose proof (pure_py_map_py (tag_player isoformat leaderboard) ps
                (pure_py_tag_player isoformat leaderboard) s1) as Hs.
  destruct (map_py _ ps s1) as [[tagged|e] s']; simpl in Hs; subst s';
    reflexivity.
Qed.

(** X10: on a page whose players are all JSON objects, [get_top_players]
    returns as many players as the page holds, in the same order, each
    with the leaderboard under [leaderboard] and the time the reply
    arrived under [fetched_at], and with every other key as the server
    sent it. *)
Theorem get_top_players_tags
    (leaderboard : string) (count : Z) (ps : list json) (s : State) :
  serves_page leaderboard count ps ->
  Forall (fun p => is_dict p = true) ps ->
  exists ts out,
    fst (get_top_players leaderboard count s) = Ok (JList out) /\
    length out = length ps /\
    Forall2 (fun p q =>
               exists d d',
                 p = JDict d /\ q = JDict d' /\
                 assoc "leaderboard" d' = Some (JStr leaderboard) /\
                 assoc "fetched_at" d' = Some ts /\
                 forall k, k <> "leaderboard" -> k <> "fetched_at" ->
                           assoc k d' = assoc k d)
            ps out.
Proof.
  intros Hpage Hdicts.
  rewrite (get_top_players_run leaderboard count ps s Hpage). cbn [fst].
  set (s1 := after_request _ _ _ _ s).
  set (ts := JStr (isoformat (now s1))).
  rewrite (map_py_total _ (tagged leaderboard ts)).
  2:{ eapply Forall_impl; [exact Hdicts|]. intros p Hp.
      now apply tag_player_run. }
  exists ts, (map (tagged leaderboard ts) ps). cbn [fst].
  split; [reflexivity|]. split; [apply length_map|].
  clear Hpage. induction Hdicts as [|p ps Hp _ IH]; simpl; constructor;
    [|exact IH].
  destruct p as [| | | | |d]; try discriminate.
  eexists d, _. split; [reflexivity|]. split; [reflexivity|].
  split; [|split].
  - rewrite assoc_dict_set_ne by discriminate. apply assoc_dict_set_eq.
  - apply assoc_dict_set_eq.
  - intros k H1 H2. now rewrite !assoc_dict_set_ne by congruence.
Qed.

Lemma player_records_of_top_players leaderboard count s e :
  fst (get_top_players leaderboard count s) = Raise e ->
  fst (player_records leaderboard count s) = Raise e.
Proof.
  unfold Sync.player_records, mbind, Py_bind.
  destruct (Api.get_top_players _ _ _ _ _ _) as [[x|e'] s']; simpl;
    [discriminate|].
  now intros [= ->].
Qed.

(** When the records cannot be built, [sync_leaderboard] returns 0 after
    its one request and writes nothing. *)
Lemma sync_leaderboard_not_built leaderboard count s e :
  fst (player_records leaderboard count (emit (EvLog Info) s)) = Raise e ->
  let r := sync_leaderboard leaderboard count s in
  fst r = Ok 0 /\
  exists new,
    trace (snd r) = trace s ++ new /\
    gets_of new = [(BASE_URL +:+ leaderboard_endpoint leaderboard,
                    leaderboard_params count)] /\
    upserts_of new = [] /\
    last new = Some (EvLog Error).
Proof.
  intros Hb r.
  destruct (sync_leaderboard_cases env rate_limit_delay isoformat
              leaderboard count s) as (sent & Hg & Hu & Hcases).
  fold r in Hcases. cbv zeta in Hcases. rewrite Hb in Hcases.
  destruct Hcases as [(e' & _ & Hr & Htr)|[(Hc & _)|
    [(rows & k & _ & Hc & _)|(rows & k & e' & _ & Hc & _)]]];
    try discriminate.
  split; [exact Hr|]. exists (sent ++ [EvLog Error]).
  split; [exact Htr|]. rewrite gets_of_app, upserts_of_app, Hg, Hu.
  repeat split. apply last_snoc.
Qed.

(** X6: when the request of [sync_leaderboard] fails (no connection, an
    error status, a body that is no JSON), the call does not try again:
    it has sent one request, writes nothing, logs the error and returns
    0. *)
Theorem sync_leaderboard_fetch_failure
    (leaderboard : string) (count : Z) (s : State) (reply : HttpReply)
    (e : exn) :
  (forall k, http env k (BASE_URL +:+ leaderboard_endpoint leaderboard)
                  (leaderboard_params count) = reply) ->
  read_reply reply = Raise e ->
  let r := sync_leaderboard leaderboard count s in
  fst r = Ok 0 /\
  exists new,
    trace (snd r) = trace s ++ new /\
    gets_of new = [(BASE_URL +:+ leaderboard_endpoint leaderboard,
                    leaderboard_params count)] /\
    upserts_of new = [] /\
    last new = Some (EvLog Error).
Proof.
  intros Hhttp Hread. apply (sync_leaderboard_not_built _ _ _ e).
  apply player_records_of_top_players.
  unfold Api.get_top_players, get_leaderboard, mbind, Py_bind.
  rewrite make_request_run.
  fold (leaderboard_endpoint leaderboard) (leaderboard_params count).
  unfold reply_to. now rewrite Hhttp, Hread.
Qed.

(** X7: one player of the page that is not a JSON object spoils the whole
    page: [sync_leaderboard] writes none of its players, logs the error
    and returns 0. *)
Theorem sync_leaderboard_malformed_player
    (leaderboard : string) (count : Z) (ps : list json) (s : State) :
  serves_page leaderboard count ps ->
  Exists (fun p => is_dict p = false) ps ->
  let r := sync_leaderboard leaderboard count s in
  fst r = Ok 0 /\
  exists new,
    trace (snd r) = trace s ++ new /\
    upserts_of new = [] /\
    last new = Some (EvLog Error).
Proof.
  intros Hpage Hbad r.
  destruct (sync_leaderboard_not_built leaderboard count s TypeError)
    as (Hr & new & Htr & _ & Hu & Hl).
  - apply player_records_of_top_players.
    rewrite (get_top_players_run leaderboard count ps _ Hpage). cbn [fst].
    now rewrite map_py_tag_malformed.
  - split; [exact Hr|]. exists new. auto.
Qed.

Lemma stat_record_bad leaderboard rank_level stat s :
  good_stat stat = false ->
  exists e,
    stat_record isoformat leaderboard rank_level stat s = (Raise e, s).
Proof.
  intros Hbad. destruct stat as [| | | | |d];
    try (exists AttributeError; reflexivity).
  simpl in Hbad. unfold stat_record, mbind, Py_bind, lift, py_get.
  destruct (assoc "civ_slug" d) as [[| | |slug| |]|]; try discriminate;
    exists AttributeError; reflexivity.
Qed.

Lemma for_append_prefix {A B} (f : A -> Py B) (g : A -> B) good rest acc s :
  Forall (fun x => f x s = (Ok (g x), s)) good ->
  for_append f (good ++ rest) acc s
  = for_append f rest (acc ++ map g good) s.
Proof.
  intros H. revert acc. induction H as [|x good Hx _ IH]; intros acc; simpl.
  - now rewrite app_nil_r.
  - now rewrite Hx, IH, <- app_assoc.
Qed.

(** X3: when a stat object of a reply cannot be mapped (it is no JSON
    object, or its [civ_slug] is no string), the records built from the
    objects before it stay in the batch, the objects after it are
    dropped, and the error is logged: a pair can contribute a part of its
    reply. *)
Theorem sync_pair_keeps_partial
    (leaderboard rank_level : string) (all_stats : list json) (s : State)
    (reply : HttpReply) (good : list json) (bad : json) (rest : list json) :
  (forall k, http env k (BASE_URL +:+ stats_endpoint leaderboard)
                  (stats_params rank_level) = reply) ->
  fetched reply = Ok (good ++ bad :: rest) ->
  Forall (fun stat => good_stat stat = true) good ->
  good_stat bad = false ->
  let r := sync_pair leaderboard rank_level all_stats s in
  exists ts,
    fst r = all_stats ++ map (stat_row leaderboard rank_level ts) good /\
    last (trace (snd r)) = Some (EvLog Error).
Proof.
  intros Hhttp Hfetched Hgood Hbad r. subst r.
  unfold Sync.sync_pair. rewrite fetch_pair_run.
  unfold reply_to. rewrite Hhttp, Hfetched.
  set (s1 := after_request _ _ _ _ _).
  exists (JStr (isoformat (now s1))).
  rewrite (for_append_prefix _
             (stat_row leaderboard rank_level (JStr (isoformat (now s1))))).
  2:{ eapply Forall_impl; [exact Hgood|]. intros stat Hs.
      now apply stat_record_run. }
  simpl. destruct (stat_record_bad leaderboard rank_level bad s1 Hbad)
    as [e ->].
  cbn [fst snd log]. split; [reflexivity|].
  rewrite trace_emit. apply last_snoc.
Qed.

(** One call of [sync_leaderboard], summed up. *)
Lemma sync_leaderboard_summary leaderboard count s :
  let r := sync_leaderboard leaderboard count s in
  exists n new,
    fst r = Ok n /\ 0 <= n /\
    trace (snd r) = trace s ++ new /\
    gets_of new = [(BASE_URL +:+ leaderboard_endpoint leaderboard,
                    leaderboard_params count)] /\
    Forall (fun u => fst (fst u) = "leaderboard_players") (upserts_of new).
Proof.
  intros r.
  destruct (sync_leaderboard_cases env rate_limit_delay isoformat
              leaderboard count s) as (sent & Hg & Hu & Hcases).
  fold r in Hcases.
  destruct Hcases as [(e & _ & Hr & Htr)|[(_ & Hr & Htr)|
    [(rows & k & _ & _ & _ & Hr & Htr)|(rows & k & e & _ & _ & _ & Hr & Htr)]]];
    eexists _, _; (split; [exact Hr|]); (split; [unfold len; lia|]);
    first [ split; [exact Htr|] | split; [rewrite Htr, <- (app_nil_r sent) at 1;
                                           reflexivity|] ];
    rewrite ?gets_of_app, ?upserts_of_app, Hg, ?Hu; cbn;
    (split; [reflexivity|]); repeat constructor.
Qed.

Local Abbreviation sync_all_leaderboards :=
  (Sync.sync_all_leaderboards env rate_limit_delay isoformat).

Lemma sync_each_leaderboard count leaderboards s :
  let r := map_py (fun leaderboard =>
                     n ← sync_leaderboard leaderboard count;
                     mret (leaderboard, n)) leaderboards s in
  exists results new,
    fst r = Ok results /\
    map fst results = leaderboards /\
    Forall (fun p => 0 <= snd p) results /\
    trace (snd r) = trace s ++ new /\
    gets_of new
    = map (fun leaderboard =>
             (BASE_URL +:+ leaderboard_endpoint leaderboard,
              leaderboard_params count)) leaderboards /\
    Forall (fun u => fst (fst u) = "leaderboard_players") (upserts_of new).
Proof.
  revert s. induction leaderboards as [|leaderboard rest IH]; intros s.
  - exists [], []. simpl. rewrite app_nil_r. repeat split; constructor.
  - simpl. unfold mbind, Py_bind.
    destruct (sync_leaderboard_summary leaderboard count s)
      as (n & new & Hr & Hn & Htr & Hg & Hu).
    destruct (Sync.sync_leaderboard _ _ _ leaderboard count s) as [r1 s1].
    simpl in Hr, Htr. subst r1. unfold mret, Py_ret.
    destruct (IH s1) as (results & new' & Hr' & Hk & Hpos & Htr' & Hg' & Hu').
    destruct (map_py _ rest s1) as [r2 s2]. simpl in Hr', Htr'. subst r2.
    exists ((leaderboard, n) :: results), (new ++ new'). cbn [fst snd].
    rewrite Htr', Htr, gets_of_app, upserts_of_app, Hg, Hg', <- app_assoc.
    simpl. rewrite Hk. repeat split; auto.
    now apply Forall_app.
Qed.

(** X8: [sync_all_leaderboards] never raises.  In any environment, and
    whatever fails on the way, it sends exactly six requests, one per
    leaderboard in their fixed order, and returns one count for each of
    the six leaderboards, none of them negative; it writes to no table
    but [leaderboard_players]. *)
Theorem sync_all_leaderboards_total (count : Z) (s : State) :
  let r := sync_all_leaderboards count s in
  exists results new,
    fst r = Ok results /\
    map fst results = all_leaderboards /\
    Forall (fun p => 0 <= snd p) results /\
    trace (snd r) = trace s ++ new /\
    gets_of new
    = map (fun leaderboard =>
             (BASE_URL +:+ leaderboard_endpoint leaderboard,
              leaderboard_params count)) all_leaderboards /\
    Forall (fun u => fst (fst u) = "leaderboard_players") (upserts_of new).
Proof. apply sync_each_leaderboard. Qed.

End EdgeFacts.

(** ** The full synchronisation *)

Section FullSyncFacts.
Import Py World Api Db Sync.

Variable env : Env.
Variable rate_limit_delay : Z.
Variable isoformat : Z -> string.

Local Abbreviation sync_civ_meta_stats :=
  (Sync.sync_civ_meta_stats env rate_limit_delay isoformat).
Local Abbreviation sync_all := (Sync.sync_all env rate_limit_delay isoformat).

(** One call of [sync_civ_meta_stats], summed up. *)
Lemma meta_sync_summary leaderboards rank_levels s :
  let r := sync_civ_meta_stats leaderboards rank_levels s in
  let pairs := list_prod (default all_leaderboards leaderboards)
                         (default all_rank_levels rank_levels) in
  exists new,
    trace (snd r) = trace s ++ new /\
    gets_of new = map stats_request pairs /\
    ((exists n, fst r = Ok n /\ 0 <= n) \/
     (exists e rows,
        fst r = Raise e /\
        upserts_of new = [("civilization_meta_stats", rows, Some e)])).
Proof.
  intros r pairs. subst r. rewrite meta_sync_defaults.
  set (lbs := default all_leaderboards leaderboards) in *.
  set (rls := default all_rank_levels rank_levels) in *.
  destruct (meta_sync_cases env rate_limit_delay isoformat lbs rls s)
    as (_ & Hcases).
  destruct (extends_by_sync_leaderboards env rate_limit_delay isoformat
              lbs rls [] (emit (EvLog Info) s)) as (evs & Htr & Hg & Hu).
  rewrite trace_emit, <- app_assoc in Htr. fold pairs in Hg.
  destruct Hcases as [(_ & Hr & Ht)|[(Hne & Hr & Ht)|(e & Hne & Hr & Ht)]];
    rewrite Ht, Htr, Hr; try rewrite <- app_assoc; eexists;
    (split; [reflexivity|]); rewrite !gets_of_app, ?upserts_of_app, Hg, ?Hu;
    cbn [gets_of upserts_of omap app]; rewrite ?app_nil_r;
    (split; [reflexivity|]).
  - left. exists 0. split; [reflexivity|lia].
  - left. eexists. split; [reflexivity|unfold len; lia].
  - right. exists e. eexists. split; reflexivity.
Qed.

Lemma sum_counts_nonneg (results : list (string * Z)) :
  Forall (fun p => 0 <= snd p) results ->
  0 <= foldr Z.add 0 (map snd results).
Proof. induction 1; simpl; lia. Qed.

(** X9: [sync_all] first sends the 42 requests of the meta statistics.
    When the write of their batch is rejected the call raises that error
    and stops there: no leaderboard is asked for.  Otherwise it goes on
    with the six leaderboards, 48 requests in all, and returns counts
    that are not negative, one per leaderboard in the fixed order, with
    [total_players] their sum. *)
Theorem sync_all_outcome (s : State) :
  let r := sync_all s in
  let stats_requests :=
    map stats_request (list_prod all_leaderboards all_rank_levels) in
  let leaderboard_requests :=
    map (fun leaderboard =>
           (BASE_URL +:+ leaderboard_endpoint leaderboard,
            leaderboard_params 50)) all_leaderboards in
  exists new,
    trace (snd r) = trace s ++ new /\
    match fst r with
    | Ok res =>
        gets_of new = stats_requests ++ leaderboard_requests /\
        length (gets_of new) = 48%nat /\
        0 <= civ_meta_stats res /\
        map fst (leaderboards res) = all_leaderboards /\
        Forall (fun p => 0 <= snd p) (leaderboards res) /\
        total_players res = foldr Z.add 0 (map snd (leaderboards res)) /\
        0 <= total_players res
    | Raise e =>
        gets_of new = stats_requests /\
        length (gets_of new) = 42%nat /\
        exists rows,
          upserts_of new = [("civilization_meta_stats", rows, Some e)]
    end.
Proof.
  intros r stats_requests leaderboard_requests. subst r.
  unfold Sync.sync_all, mbind, Py_bind, log. cbn beta iota.
  set (s4 := emit _ (emit _ (emit _ (emit _ s)))).
  assert (H4 : trace s4 = trace s ++ [EvLog Info; EvLog Info; EvLog Info;
                                      EvLog Info]).
  { subst s4. rewrite !trace_emit, <- !app_assoc. reflexivity. }
  clearbody s4.
  destruct (meta_sync_summary None None s4) as (new1 & Ht1 & Hg1 & Hcase).
  cbn [default from_option id] in Hg1. fold stats_requests in Hg1.
  destruct (Sync.sync_civ_meta_stats _ _ _ None None s4) as [[n|e] s5];
    cbn [fst snd] in *.
  - destruct Hcase as [(n' & [= <-] & Hn)|(e & rows & [=] & _)].
    set (s6 := emit (EvLog Info) s5).
    destruct (sync_each_leaderboard env rate_limit_delay isoformat 50
                all_leaderboards s6)
      as (results & new2 & Hr2 & Hk & Hpos & Ht2 & Hg2 & _).
    fold leaderboard_requests in Hg2.
    unfold Sync.sync_all_leaderboards.
    destruct (map_py _ all_leaderboards s6) as [r2 s7].
    cbn [fst snd] in *. subst r2. cbn [fst snd mret Py_ret].
    unfold mret, Py_ret. cbn [fst snd].
    eexists. split.
    + rewrite !trace_emit, Ht2. subst s6. rewrite trace_emit, Ht1, H4.
      rewrite <- !app_assoc. reflexivity.
    + cbn [civ_meta_stats leaderboards total_players].
      assert (Hgets : gets_of
        ([EvLog Info; EvLog Info; EvLog Info; EvLog Info] ++ new1 ++
         [EvLog Info] ++ new2 ++ [EvLog Info] ++ [EvLog Info] ++ [EvLog Info]
         ++ [EvLog Info] ++ [EvLog Info])
        = stats_requests ++ leaderboard_requests).
      { rewrite !gets_of_app, Hg1, Hg2. cbn [gets_of omap app].
        now rewrite !app_nil_r. }
      split; [exact Hgets|]. split; [rewrite Hgets; reflexivity|].
      split; [exact Hn|]. split; [exact Hk|]. split; [exact Hpos|].
      split; [reflexivity|]. now apply sum_counts_nonneg.
  - destruct Hcase as [(n' & [=] & _)|(e' & rows & [= <-] & Hu)].
    eexists. split.
    + rewrite Ht1, H4, <- app_assoc. reflexivity.
    + rewrite gets_of_app, upserts_of_app, Hg1, Hu. cbn [gets_of omap app].
      split; [reflexivity|]. split; [reflexivity|]. now exists rows.
Qed.

End FullSyncFacts.

(** ** More on the SQL generator *)

Section GeneratorFacts.
Import PyStr Py Gen.

(** X16: a text without single quote and without backslash, of at most
    1000 characters (code points, whatever the number of bytes they
    take), passes through [escape_sql] unchanged. *)
Theorem escape_sql_clean_text (s : string) :
  contains_char quote s = false ->
  contains_char backslash s = false ->
  (str_len s <= 1000)%nat ->
  escape_sql (JStr s) = s.
Proof.
  intros Hq Hb Hlen.
  assert (Hfull : escaped_in_full s = s).
  { clear Hlen. induction s as [|c r IH]; [reflexivity|].
    simpl in Hq, Hb. apply orb_false_iff in Hq as [Hq1 Hq2].
    apply orb_false_iff in Hb as [Hb1 Hb2].
    rewrite escaped_in_full_cons, Hq1, Hb1. now rewrite IH. }
  rewrite escape_sql_str, Hfull. now apply slice_to_short.
Qed.

(** A text of 400 code points that takes 1200 bytes: 400 times the euro
    sign, whose encoding is the three bytes 226, 130, 172. *)
Definition euro : string :=
  String (ascii_of_nat 226)
    (String (ascii_of_nat 130) (String (ascii_of_nat 172) EmptyString)).

Fixpoint text_repeat (t : string) (n : nat) : string :=
  match n with
  | O => EmptyString
  | S k => t +:+ text_repeat t k
  end.

Lemma escape_sql_clean_text_witness :
  String.length (text_repeat euro 400) = 1200%nat /\
  escape_sql (JStr (text_repeat euro 400)) = text_repeat euro 400.
Proof.
  split; [vm_compute; reflexivity|].
  apply escape_sql_clean_text;
    [vm_compute; reflexivity|vm_compute; reflexivity|].
  apply Nat.leb_le. vm_compute. reflexivity.
Defined.

(** X17: whatever it is given, [escape_sql] returns at most 1000
    characters (code points); for a string they are the first characters
    of the fully escaped text, and all of it when that text has at most
    1000 characters. *)
Theorem escape_sql_bounded (x : json) :
  (str_len (escape_sql x) <= 1000)%nat /\
  forall s, x = JStr s ->
    (exists rest, escaped_in_full s = escape_sql x +:+ rest) /\
    ((str_len (escaped_in_full s) <= 1000)%nat ->
     escape_sql x = escaped_in_full s).
Proof.
  split; [apply escape_sql_length|]. intros s ->. split.
  - apply escape_sql_prefix.
  - intros H. rewrite escape_sql_str. now apply slice_to_short.
Qed.

Lemma paired_when_short_witness :
  quotes_paired (escape_sql (JStr (text_repeat euro 400 +:+ " d'Arc")))
  = true.
Proof.
  apply escape_sql_paired_when_short.
  apply Nat.leb_le. vm_compute. reflexivity.
Defined.

(** *** Paths *)

Lemma last_segment_no_slash s :
  contains_char "/"%char s = false -> last_segment s = s.
Proof. destruct s as [|c r]; simpl; [reflexivity|]. now intros ->. Qed.

Lemma last_segment_dir dir name :
  contains_char "/"%char name = false ->
  last_segment (dir +:+ "/" +:+ name) = name.
Proof.
  intros Hname. induction dir as [|c d IH].
  - rewrite app_Empty. change ("/" +:+ name) with (String "/"%char name).
    simpl. now apply last_segment_no_slash.
  - rewrite app_String. simpl.
    rewrite contains_char_app.
    change ("/" +:+ name) with (String "/"%char name). simpl.
    rewrite !orb_true_r. exact IH.
Qed.

Lemma starts_with_refl s : starts_with s s = true.
Proof. induction s as [|c r IH]; simpl; [reflexivity|].
       now rewrite Ascii.eqb_refl, IH. Qed.

Lemma replace_from_skip_all old new skip s :
  (String.length s <= skip)%nat -> replace_from old new skip s = EmptyString.
Proof.
  revert skip. induction s as [|c r IH]; intros skip H; [reflexivity|].
  simpl in *. destruct skip as [|k]; [lia|]. apply IH. lia.
Qed.

(** Removing a suffix whose first character does not occur before it. *)
Lemma py_replace_suffix a rest raw :
  contains_char a raw = false ->
  py_replace (String a rest) EmptyString (raw +:+ String a rest) = raw.
Proof.
  unfold py_replace. intros Hraw. induction raw as [|c r IH].
  - rewrite app_Empty.
    change (replace_from (String a rest) EmptyString 0 (String a rest))
      with (if starts_with (String a rest) (String a rest)
            then EmptyString
                 +:+ replace_from (String a rest) EmptyString
                       (String.length (String a rest) - 1) rest
            else String a (replace_from (String a rest) EmptyString 0 rest)).
    rewrite starts_with_refl, app_Empty.
    apply replace_from_skip_all. simpl. lia.
  - simpl in Hraw. apply orb_false_iff in Hraw as [Hc Hr].
    rewrite app_String.
    change (replace_from (String a rest) EmptyString 0
              (String c (r +:+ String a rest)))
      with (if starts_with (String a rest) (String c (r +:+ String a rest))
            then EmptyString
                 +:+ replace_from (String a rest) EmptyString
                       (String.length (String a rest) - 1)
                       (r +:+ String a rest)
            else String c (replace_from (String a rest) EmptyString 0
                             (r +:+ String a rest))).
    assert (Hne : starts_with (String a rest) (String c (r +:+ String a rest))
                  = false).
    { simpl. rewrite Ascii.eqb_sym, Hc. reflexivity. }
    rewrite Hne. f_equal. now apply IH.
Qed.

(** X18: for a path of the form [dir/raw-unified.json] whose [raw] holds
    neither a slash nor a hyphen, the exporters take [raw] out of the
    path and write the civilization id [CIV_ID_MAP] gives it, or [raw]
    itself when the table does not know it; the civilization import does
    the same with [dir/raw.json] when [raw] holds no dot. *)
Theorem civ_id_from_path (dir raw : string) :
  contains_char "/"%char raw = false ->
  (contains_char "-"%char raw = false ->
   civ_id_raw "-unified.json" (dir +:+ "/" +:+ raw +:+ "-unified.json") = raw /\
   civ_id_of_path "-unified.json" (dir +:+ "/" +:+ raw +:+ "-unified.json")
   = default raw (CIV_ID_MAP !! raw)) /\
  (contains_char "."%char raw = false ->
   civ_id_raw ".json" (dir +:+ "/" +:+ raw +:+ ".json") = raw).
Proof.
  intros Hslash. split.
  - intros Hhyphen.
    assert (H : civ_id_raw "-unified.json"
                  (dir +:+ "/" +:+ raw +:+ "-unified.json") = raw).
    { unfold civ_id_raw. rewrite last_segment_dir.
      - now apply (py_replace_suffix "-"%char "unified.json").
      - now rewrite contains_char_app, Hslash. }
    split; [exact H|]. unfold civ_id_of_path. now rewrite H.
  - intros Hdot. unfold civ_id_raw. rewrite last_segment_dir.
    + now apply (py_replace_suffix "."%char "json").
    + now rewrite contains_char_app, Hslash.
Qed.

Lemma civ_id_from_path_witness :
  civ_id_of_path "-unified.json"
    "/home/ubuntu/data/units/goldenhorde-unified.json"
  = "golden_horde" /\
  civ_id_raw ".json" "/home/ubuntu/data/civilizations/zhuxi.json" = "zhuxi".
Proof.
  destruct (civ_id_from_path "/home/ubuntu/data/units" "goldenhorde"
              eq_refl) as [H1 _].
  destruct (civ_id_from_path "/home/ubuntu/data/civilizations" "zhuxi"
              eq_refl) as [_ H2].
  split.
  - exact (proj2 (H1 eq_refl)).
  - exact (H2 eq_refl).
Defined.

(** *** The civ-side imports against the base imports *)

Lemma civ_row_of_id k civ_id e s :
  civ_row_of k civ_id e = Some s ->
  stmt_id s = e_id e /\ e_id e <> EmptyString.
Proof.
  destruct k; simpl; unfold civ_unit_row, civ_building_row,
    civ_technology_row;
    destruct (bool_decide (e_id e = EmptyString)) eqn:E; try discriminate;
    apply bool_decide_eq_false_1 in E;
    try (destruct (e_variations e); [discriminate|]);
    intros [= <-]; auto.
Qed.

Lemma elem_of_civ_import row files s :
  s ∈ civ_import row files ->
  exists civ_id e, e ∈ entities_in_order files /\ row civ_id e = Some s.
Proof.
  unfold civ_import, entities_in_order, civ_rows.
  induction (sorted_files files) as [|f fs IH]; simpl.
  - intros H. now apply elem_of_nil in H.
  - intros H. apply elem_of_app in H as [H|H].
    + apply list_elem_of_omap in H as (e & He & Hrow).
      eexists _, e. split; [|exact Hrow]. apply elem_of_app. now left.
    + destruct (IH H) as (civ_id & e & He & Hrow).
      exists civ_id, e. split; [|exact Hrow]. apply elem_of_app. now right.
Qed.

Lemma base_covers k files i :
  i <> EmptyString -> i ∈ e_id <$> entities_in_order files ->
  i ∈ stmt_id <$> snd (import_base k files).
Proof.
  intros Hne Hi. rewrite import_base_flat.
  destruct (pass_ok_foldl k (entities_in_order files))
    as (_ & Hout & _ & _).
  destruct (first_occurrence_exists i _ Hi) as (e & <- & Hf).
  apply list_elem_of_fmap. exists (base_insert k e). split; [reflexivity|].
  apply Hout. exists e. tauto.
Qed.

(** X19: every line a civ-side import writes for an entity names an
    identifier for which the base import of the same files writes its
    [INSERT]: the civ tables never refer to a unit, building or
    technology that the base table lacks. *)
Theorem civ_rows_reference_base (k : Kind) (files : Files) (s : Stmt) :
  s ∈ civ_import (civ_row_of k) files ->
  stmt_id s ∈ stmt_id <$> snd (import_base k files).
Proof.
  intros Hs. apply elem_of_civ_import in Hs as (civ_id & e & He & Hrow).
  apply civ_row_of_id in Hrow as [-> Hne].
  apply base_covers; [exact Hne|]. now apply list_elem_of_fmap_2.
Qed.

Lemma civ_rows_reference_base_witness :
  InsertCivTechnology "english" "archer" false None 0 0 0 0 0
    ∈ civ_technologies two_files /\
  "archer" ∈ stmt_id <$> snd (base_technologies two_files).
Proof.
  assert (H : InsertCivTechnology "english" "archer" false None 0 0 0 0 0
              ∈ civ_technologies two_files).
  { vm_compute. apply list_elem_of_here. }
  split; [exact H|].
  exact (civ_rows_reference_base KTechnology two_files _ H).
Defined.

(** *** The tables *)

Lemma CIV_ID_TABLE_keys_NoDup : NoDup (CIV_ID_TABLE.*1).
Proof. compute_done. Qed.

Lemma CIV_NAME_TABLE_keys_NoDup : NoDup (CIV_NAME_TABLE.*1).
Proof. compute_done. Qed.

Lemma CIV_ID_MAP_lookup raw id :
  CIV_ID_MAP !! raw = Some id <-> (raw, id) ∈ CIV_ID_TABLE.
Proof.
  unfold CIV_ID_MAP. split.
  - apply elem_of_list_to_map_2.
  - apply elem_of_list_to_map_1, CIV_ID_TABLE_keys_NoDup.
Qed.

(** X20: the two naming schemes end in the same canonical ids: an id is
    the image of a slug of the API in the table of the synchronisation
    exactly when it is the image of a file name in [CIV_ID_MAP] of the
    generator, so every [civ_id] the synchronisation writes for a known
    slug is the id of a civilization the generator inserts; and
    [CIV_NAME_MAP] names exactly the civilizations [CIV_ID_MAP] knows. *)
Theorem canonical_ids_agree :
  (forall id,
     (exists slug, Normalize.civ_map !! slug = Some id) <->
     (exists raw, CIV_ID_MAP !! raw = Some id)) /\
  dom CIV_NAME_MAP = dom CIV_ID_MAP.
Proof.
  split.
  - intros id. split.
    + intros [slug H]. apply civ_map_lookup_table in H.
      assert (Hall : Forall (fun kv => snd kv ∈ CIV_ID_TABLE.*2)
                            Normalize.civ_table) by compute_done.
      rewrite Forall_forall in Hall. specialize (Hall _ H). cbn [snd] in Hall.
      apply list_elem_of_fmap in Hall as ([raw id'] & -> & Hin).
      exists raw. now apply CIV_ID_MAP_lookup.
    + intros [raw H]. apply CIV_ID_MAP_lookup in H.
      assert (Hall : Forall (fun kv => snd kv ∈ Normalize.civ_table.*2)
                            CIV_ID_TABLE) by compute_done.
      rewrite Forall_forall in Hall. specialize (Hall _ H). cbn [snd] in Hall.
      apply list_elem_of_fmap in Hall as ([slug id'] & -> & Hin).
      exists slug. now apply civ_map_lookup_table.
  - unfold CIV_NAME_MAP, CIV_ID_MAP. rewrite !dom_list_to_map_L.
    f_equal.
Qed.

(** X21: for a civilization file [dir/raw.json] whose [raw] is a key of
    [CIV_NAME_MAP], the line written for [civilizations] carries the name
    of the table as it stands, whatever the file says and without passing
    it through [escape_sql]; for [jeannedarc] and [zhuxi], and for them
    only, that name holds a single quote that is not doubled. *)
Theorem civ_insert_name_verbatim
    (dir raw name : string) (civ_data : list (string * json)) :
  (raw, name) ∈ CIV_NAME_TABLE ->
  ci_name (civ_insert (dir +:+ "/" +:+ raw +:+ ".json") civ_data) = JStr name /\
  (quotes_paired name = false <-> raw = "jeannedarc" \/ raw = "zhuxi").
Proof.
  intros Hin.
  assert (Hkeys : Forall (fun kv =>
                    contains_char "/"%char (fst kv) = false /\
                    contains_char "."%char (fst kv) = false /\
                    quotes_paired (snd kv)
                    = negb (String.eqb (fst kv) "jeannedarc"
                            || String.eqb (fst kv) "zhuxi"))
                  CIV_NAME_TABLE).
  { unfold CIV_NAME_TABLE. repeat (constructor; [repeat split|]).
    constructor. }
  rewrite Forall_forall in Hkeys.
  destruct (Hkeys _ Hin) as (Hslash & Hdot & Hq).
  cbn [fst snd] in Hslash, Hdot, Hq. clear Hkeys.
  split.
  - unfold civ_insert. cbn [ci_name].
    unfold civ_id_raw. rewrite last_segment_dir
      by now rewrite contains_char_app, Hslash.
    rewrite (py_replace_suffix "."%char "json") by exact Hdot.
    assert (Hl : CIV_NAME_MAP !! raw = Some name).
    { apply elem_of_list_to_map_1; [apply CIV_NAME_TABLE_keys_NoDup|exact Hin]. }
    rewrite Hl. reflexivity.
  - rewrite Hq, negb_false_iff, orb_true_iff, !String.eqb_eq. tauto.
Qed.

Lemma civ_insert_name_verbatim_witness :
  ci_name (civ_insert "/home/ubuntu/data/civilizations/jeannedarc.json"
                      [("name", JStr "Joan")])
  = JStr "Jeanne d'Arc" /\
  quotes_paired "Jeanne d'Arc" = false.
Proof.
  destruct (civ_insert_name_verbatim "/home/ubuntu/data/civilizations"
              "jeannedarc" "Jeanne d'Arc" [("name", JStr "Joan")])
    as [H1 H2].
  - compute_done.
  - split; [exact H1|]. apply H2. now left.
Defined.

End GeneratorFacts.

(** ** Runs at the edges *)

Section EdgeRuns.
Import Py World Api Sync.

(** A server that is down, one whose page holds a player that is no
    object, and one whose statistics hold a number among the objects. *)
Definition down_env : Env :=
  {| latency := fun _ => 40;
     oversleep := fun _ => 0;
     http := fun _ _ _ => Reply 503 None;
     db := fun _ _ _ => None |}.

Definition odd_player_env : Env :=
  {| latency := fun _ => 40;
     oversleep := fun _ => 0;
     http := fun _ _ _ =>
       Reply 200 (Some (JDict [("players", JList [alice; JStr "bob"])]));
     db := fun _ _ _ => None |}.

Definition odd_stat_env : Env :=
  {| latency := fun _ => 40;
     oversleep := fun _ => 0;
     http := fun _ _ _ =>
       Reply 200 (Some (JDict [("civilizations",
                                JList [horde_stat; JNum 5; english_stat])]));
     db := fun _ _ _ => None |}.

Lemma accepting_env_serves :
  serves_page accepting_env "rm_solo" 10 [alice; bob].
Proof. exists 200, two_players. repeat split. Qed.

Lemma sync_pair_keeps_partial_witness :
  exists ts,
    fst (sync_pair odd_stat_env 500 tick_text "rm_solo" "all" [] at_1000)
    = [stat_row "rm_solo" "all" ts horde_stat].
Proof.
  assert (Hgood : Forall (fun stat => good_stat stat = true) [horde_stat])
    by (repeat constructor).
  pose proof (sync_pair_keeps_partial odd_stat_env 500 tick_text
                "rm_solo" "all" [] at_1000
                (Reply 200 (Some (JDict [("civilizations",
                   JList [horde_stat; JNum 5; english_stat])])))
                [horde_stat] (JNum 5) [english_stat]
                (fun _ => eq_refl) eq_refl Hgood eq_refl) as H.
  cbv zeta in H. destruct H as (ts & H & _). exists ts. exact H.
Defined.

(** Four pairs against a server that answers in 40 ticks: the rate
    limiter sleeps before the second, third and fourth request, and the
    run lasts at least three delays. *)
Lemma meta_sync_min_duration_witness :
  (forall k, 0 <= oversleep brisk_env k) /\
  (forall k, 0 <= latency brisk_env k) /\
  now at_1000 + 3 * 500
  <= now (snd (sync_civ_meta_stats brisk_env 500 tick_text
                 (Some ["rm_solo"; "rm_team"]) (Some ["all"; "gold"])
                 at_1000)) /\
  sleeps_of
    (trace (snd (sync_civ_meta_stats brisk_env 500 tick_text
                   (Some ["rm_solo"; "rm_team"]) (Some ["all"; "gold"])
                   at_1000)))
  = [460; 460; 460].
Proof.
  assert (H1 : forall k, 0 <= oversleep brisk_env k) by (intros; simpl; lia).
  assert (H2 : forall k, 0 <= latency brisk_env k) by (intros; simpl; lia).
  split; [exact H1|]. split; [exact H2|].
  split; [|vm_compute; reflexivity].
  apply (meta_sync_min_duration brisk_env 500 tick_text
           ["rm_solo"; "rm_team"] ["all"; "gold"] at_1000 H1 H2).
  lia.
Defined.

(** The second of two requests in a row to the quick server: 40 ticks
    have passed since the stamp, and the call sleeps the 460 that are
    missing. *)
Lemma rate_limit_sleep_bounded_witness :
  last_request_time first_brisk <= now first_brisk /\
  exists new,
    trace second_brisk = trace first_brisk ++ new /\
    sleeps_of new = [460] /\
    last_request_time second_brisk <= now second_brisk.
Proof.
  assert (H0 : last_request_time first_brisk <= now first_brisk)
    by (vm_compute; discriminate).
  assert (H1 : forall k, 0 <= oversleep brisk_env k) by (intros; simpl; lia).
  assert (H2 : forall k, 0 <= latency brisk_env k) by (intros; simpl; lia).
  split; [exact H0|].
  pose proof (rate_limit_sleep_bounded brisk_env 500 "/stats/rm_team" []
                first_brisk H0 H1 H2) as H.
  cbv zeta in H. destruct H as (new & Htrace & Hsleep & _ & Hinv).
  exists new. split; [exact Htrace|]. split; [exact Hsleep|exact Hinv].
Defined.

Lemma get_civ_stats_missing_key_witness :
  fst (get_civ_stats accepting_env 500 "rm_solo" "all" at_1000)
  = Ok (JList []).
Proof.
  pose proof (get_civ_stats_missing_key accepting_env 500 "rm_solo" "all"
                at_1000 200 (JDict two_players)
                (fun _ => eq_refl) eq_refl) as H.
  cbv beta iota zeta in H. destruct H as [_ H]. apply H. reflexivity.
Defined.

Lemma get_top_players_tags_witness :
  exists out,
    fst (get_top_players accepting_env 500 tick_text "rm_solo" 10 at_1000)
    = Ok (JList out) /\
    length out = 2%nat.
Proof.
  assert (Hd : Forall (fun p => is_dict p = true) [alice; bob])
    by (repeat constructor).
  destruct (get_top_players_tags accepting_env 500 tick_text "rm_solo" 10
              [alice; bob] at_1000 accepting_env_serves Hd)
    as (ts & out & H & Hlen & _).
  exists out. auto.
Defined.

Lemma sync_leaderboard_fetch_failure_witness :
  fst (sync_leaderboard down_env 500 tick_text "rm_solo" 10 at_1000) = Ok 0.
Proof.
  apply (sync_leaderboard_fetch_failure down_env 500 tick_text "rm_solo" 10
           at_1000 (Reply 503 None) (HTTPError 503)).
  - intros k. reflexivity.
  - reflexivity.
Defined.

Lemma sync_leaderboard_malformed_player_witness :
  fst (sync_leaderboard odd_player_env 500 tick_text "rm_solo" 10 at_1000)
  = Ok 0.
Proof.
  apply (sync_leaderboard_malformed_player odd_player_env 500 tick_text
           "rm_solo" 10 [alice; JStr "bob"] at_1000).
  - exists 200, [("players", JList [alice; JStr "bob"])]. repeat split.
  - apply Exists_cons_tl, Exists_cons_hd. reflexivity.
Defined.

End EdgeRuns.

(** ** The constructor of the row-store client *)

Section DbInitFacts.
Import Py DbInit.

(** [v] is the value the client uses for an argument [arg] and a variable
    [var] of the environment: it is not empty, and it is the argument, or
    the variable when the argument is absent or empty. *)
Definition usable (arg var : option string) (v : string) : Prop :=
  v <> EmptyString /\
  (arg = Some v \/ (truthy arg = false /\ var = Some v)).

Lemma truthy_Some v : truthy (Some v) = true <-> v <> EmptyString.
Proof.
  unfold truthy. destruct (String.eqb_spec v EmptyString); simpl; split;
    congruence.
Qed.

Lemma py_or_usable arg var v :
  py_or arg var = Some v /\ truthy (py_or arg var) = true <-> usable arg var v.
Proof.
  unfold py_or, usable. destruct (truthy arg) eqn:Ha.
  - split.
    + intros [-> _]. apply truthy_Some in Ha. auto.
    + intros [Hv [->|[Hf _]]]; [|congruence]. auto.
  - split.
    + intros [-> Ht]. apply truthy_Some in Ht. auto.
    + intros [Hv [->|[_ ->]]].
      * apply truthy_Some in Hv. congruence.
      * split; [reflexivity|]. now apply truthy_Some.
Qed.

(** X5: the constructor of the row-store client goes on to create its
    connection exactly when it finds a URL and a key that are not empty,
    each taken from the argument or, when the argument is absent or the
    empty string, from the environment variable; otherwise it raises
    [ValueError].  It never creates a connection with an empty URL or
    key, and an argument that is not empty always wins over the
    environment. *)
Theorem supabase_init_checked
    (url key : option string) (environ : gmap string string) :
  (forall u k,
     init url key environ = Ok (u, k) <->
     usable url (environ !! "SUPABASE_URL") u /\
     usable key (environ !! "SUPABASE_KEY") k) /\
  (forall e, init url key environ = Raise e -> e = ValueError).
Proof.
  unfold init.
  set (self_url := py_or url (environ !! "SUPABASE_URL")).
  set (self_key := py_or key (environ !! "SUPABASE_KEY")).
  pose proof (py_or_usable url (environ !! "SUPABASE_URL")) as Hu.
  pose proof (py_or_usable key (environ !! "SUPABASE_KEY")) as Hk.
  fold self_url in Hu. fold self_key in Hk. clearbody self_url self_key.
  split.
  - intros u k. rewrite <- Hu, <- Hk.
    destruct (truthy self_url) eqn:Tu, (truthy self_key) eqn:Tk; simpl;
      destruct self_url as [u0|], self_key as [k0|];
      try discriminate; split; try discriminate;
      try (intros [= -> ->]; auto);
      try (intros [[[= ->] _] [[= ->] _]]; reflexivity);
      intros [[_ ?] [_ ?]]; discriminate.
  - intros e.
    destruct (truthy self_url), (truthy self_key); simpl;
      destruct self_url, self_key; congruence.
Qed.

End DbInitFacts.

(** ** The other accessors of the API client *)

Section AccessorFacts.
Import Py World Api.

Variable env : Env.
Variable rate_limit_delay : Z.
Variable isoformat : Z -> string.

Local Abbreviation get_player_games :=
  (Api.get_player_games env rate_limit_delay).
Local Abbreviation fetch_tagged :=
  (Api.fetch_tagged env rate_limit_delay isoformat).
Local Abbreviation all_stats_pair :=
  (Api.all_stats_pair env rate_limit_delay isoformat).

Definition games_endpoint (player_id : Z) : string :=
  "/players/" +:+ str_of_int player_id +:+ "/games".

(** X14: [get_player_games] sends one request to
    [/players/<id>/games] with [count] and [page] exactly as given, so
    a count above 200 is not reduced as it is for a leaderboard; an
    error status is raised to the caller as [HTTPError], and a JSON
    object without the key [games] gives the empty list. *)
Theorem get_player_games_passes_count (player_id count page : Z) (s : State) :
  let r := get_player_games player_id count page s in
  let params := [("count", JNum count); ("page", JNum page)] in
  exists new,
    trace (snd r) = trace s ++ new /\
    gets_of new = [(BASE_URL +:+ games_endpoint player_id, params)] /\
    forall status body,
      (forall k, http env k (BASE_URL +:+ games_endpoint player_id) params
                 = Reply status body) ->
      (400 <= status < 600 -> fst r = Raise (HTTPError status)) /\
      (forall d,
         (400 <=? status) && (status <? 600) = false ->
         body = Some (JDict d) -> assoc "games" d = None ->
         fst r = Ok (JList [])).
Proof.
  intros r params. subst r.
  unfold Api.get_player_games. fold (games_endpoint player_id). fold params.
  unfold mbind, Py_bind. rewrite make_request_run.
  set (s1 := after_request _ _ _ _ s).
  assert (Hs : forall x : result json * State,
             x = (let (r0, s') := (read_reply
                     (reply_to env rate_limit_delay (games_endpoint player_id)
                               params s), s1) in
                  match r0 with
                  | Ok a => lift (py_get a "games" (JList [])) s'
                  | Raise e => (Raise e, s')
                  end) -> snd x = s1).
  { intros x ->. cbn beta iota. destruct (read_reply _); reflexivity. }
  exists (rate_limit_sleeps rate_limit_delay s
          ++ [EvGet (last_request_time s1) (now s1)
                    (BASE_URL +:+ games_endpoint player_id) params
                    (reply_to env rate_limit_delay (games_endpoint player_id)
                              params s)]).
  split; [rewrite (Hs _ eq_refl); apply trace_after_request|].
  split; [now rewrite gets_of_app, gets_of_sleeps|].
  intros status body Hhttp. unfold reply_to. rewrite Hhttp. split.
  - intros [Hlo Hhi]. unfold read_reply.
    apply Z.leb_le in Hlo. apply Z.ltb_lt in Hhi. now rewrite Hlo, Hhi.
  - intros d Hstatus -> Hmiss. unfold read_reply. rewrite Hstatus.
    cbn. now rewrite Hmiss.
Qed.

(** *** [get_all_civ_stats] *)

(** A stat object after the tagging loop. *)
Definition stat_tagged (leaderboard rank_level : string) (ts : json)
    (stat : json) : json :=
  match stat with
  | JDict d =>
      JDict (dict_set "fetched_at" ts
               (dict_set "rank_level" (JStr rank_level)
                  (dict_set "leaderboard" (JStr leaderboard) d)))
  | _ => stat
  end.

Lemma tag_stat_run leaderboard rank_level stat s :
  is_dict stat = true ->
  tag_stat isoformat leaderboard rank_level stat s
  = (Ok (stat_tagged leaderboard rank_level (JStr (isoformat (now s))) stat),
     s).
Proof. destruct stat; try discriminate. reflexivity. Qed.

Lemma tag_stat_malformed leaderboard rank_level stat s :
  is_dict stat = false ->
  tag_stat isoformat leaderboard rank_level stat s = (Raise TypeError, s).
Proof. destruct stat; try discriminate; reflexivity. Qed.

Lemma pure_py_tag_stat leaderboard rank_level stat :
  pure_py (tag_stat isoformat leaderboard rank_level stat).
Proof. intros s. now destruct stat. Qed.

Lemma map_py_tag_stat_malformed leaderboard rank_level items s :
  Exists (fun x => is_dict x = false) items ->
  fst (map_py (tag_stat isoformat leaderboard rank_level) items s)
  = Raise TypeError.
Proof.
  induction items as [|x items IH]; intros H; [now apply Exists_nil in H|].
  simpl. unfold mbind, Py_bind.
  destruct (is_dict x) eqn:Hx.
  - rewrite tag_stat_run by exact Hx.
    apply Exists_cons in H as [H|H]; [congruence|].
    specialize (IH H).
    destruct (map_py _ items s) as [[y|e] s']; simpl in IH; [discriminate|].
    now injection IH as ->.
  - now rewrite tag_stat_malformed.
Qed.

(** The statistics of a pair as the server sends them: a JSON object
    under a status that is no error, with a list under
    [civilizations]. *)
Definition serves_stats (leaderboard rank_level : string)
    (items : list json) : Prop :=
  exists status body,
    (forall k, http env k (BASE_URL +:+ stats_endpoint leaderboard)
                    (stats_params rank_level)
               = Reply status (Some (JDict body))) /\
    (400 <=? status) && (status <? 600) = false /\
    default (JList []) (assoc "civilizations" body) = JList items.

Lemma fetch_tagged_run leaderboard rank_level items s :
  serves_stats leaderboard rank_level items ->
  let s1 := after_request env rate_limit_delay (stats_endpoint leaderboard)
              (stats_params rank_level) s in
  fetch_tagged leaderboard rank_level s
  = (fst (map_py (tag_stat isoformat leaderboard rank_level) items s1), s1).
Proof.
  intros (status & body & Hhttp & Hstatus & Hitems) s1.
  unfold Api.fetch_tagged, get_civ_stats, mbind, Py_bind.
  rewrite make_request_run.
  fold (stats_endpoint leaderboard) (stats_params rank_level). fold s1.
  unfold reply_to. rewrite Hhttp. unfold read_reply. rewrite Hstatus.
  unfold lift, py_get. rewrite Hitems. unfold py_iter.
  pose proof (pure_py_map_py (tag_stat isoformat leaderboard rank_level) items
                (pure_py_tag_stat leaderboard rank_level) s1) as Hs.
  destruct (map_py _ items s1) as [[tagged|e] s']; simpl in Hs; subst s';
    reflexivity.
Qed.

(** X22: in [get_all_civ_stats] a pair counts as a whole.  When all stat
    objects of its reply are JSON objects they are all appended, each
    tagged with its leaderboard, its rank level and the time of the
    reply; when one of them is no JSON object the pair adds nothing, not
    even the objects before it, and one line is printed for it. *)
Theorem all_stats_pair_whole_or_nothing
    (leaderboard rank_level : string) (items : list json)
    (acc : list json * list Printed) (s : State) :
  serves_stats leaderboard rank_level items ->
  let r := fst (all_stats_pair leaderboard rank_level acc s) in
  (Forall (fun x => is_dict x = true) items ->
   exists ts,
     r = (fst acc ++ map (stat_tagged leaderboard rank_level ts) items,
          snd acc)) /\
  (Exists (fun x => is_dict x = false) items ->
   r = (fst acc,
        snd acc ++ [FetchError leaderboard rank_level TypeError])).
Proof.
  intros Hserves r. subst r. unfold Api.all_stats_pair.
  rewrite (fetch_tagged_run leaderboard rank_level items s Hserves).
  set (s1 := after_request _ _ _ _ s). split.
  - intros Hd. exists (JStr (isoformat (now s1))).
    rewrite (map_py_total _
               (stat_tagged leaderboard rank_level (JStr (isoformat (now s1))))).
    + reflexivity.
    + eapply Forall_impl; [exact Hd|]. intros x Hx. now apply tag_stat_run.
  - intros Hbad. now rewrite map_py_tag_stat_malformed.
Qed.

Lemma fetch_tagged_state leaderboard rank_level s :
  snd (fetch_tagged leaderboard rank_level s)
  = after_request env rate_limit_delay (stats_endpoint leaderboard)
                  (stats_params rank_level) s.
Proof.
  unfold Api.fetch_tagged. rewrite snd_bind_pure.
  2:{ intros stats. apply pure_py_bind; [apply pure_py_lift|].
      intros items. apply pure_py_bind.
      - apply pure_py_map_py, pure_py_tag_stat.
      - intros tagged. apply pure_py_lift. }
  unfold get_civ_stats. rewrite snd_bind_pure by (intros; apply pure_py_lift).
  now rewrite make_request_run.
Qed.

(** What one turn, and then each loop, of [get_all_civ_stats] adds:
    the requests of its pairs, no write, and at most one printed line
    per pair. *)
Definition all_stats_step (pairs : list (string * string))
    (acc : list json * list Printed) (s : State)
    (out : (list json * list Printed) * State) : Prop :=
  extends_by pairs s (snd out) /\
  (length (snd (fst out)) <= length (snd acc) + length pairs)%nat.

Lemma all_stats_step_app p q acc s out out' :
  all_stats_step p acc s out ->
  all_stats_step q (fst out) (snd out) out' ->
  all_stats_step (p ++ q) acc s out'.
Proof.
  intros [He Hl] [He' Hl']. split.
  - eapply extends_by_app; eassumption.
  - rewrite length_app. lia.
Qed.

Lemma all_stats_pair_step leaderboard rank_level acc s :
  all_stats_step [(leaderboard, rank_level)] acc s
                 (all_stats_pair leaderboard rank_level acc s).
Proof.
  unfold all_stats_step, Api.all_stats_pair.
  pose proof (fetch_tagged_state leaderboard rank_level s) as Hs.
  destruct (fetch_tagged leaderboard rank_level s) as [[items|e] s'];
    simpl in Hs; subst s'; cbn [fst snd]; (split; [|
      rewrite ?length_app; simpl; lia]);
    (eexists; split; [apply trace_after_request|];
     rewrite !gets_of_app, !upserts_of_app, gets_of_sleeps, upserts_of_sleeps;
     split; reflexivity).
Qed.

Lemma all_stats_rank_levels_step leaderboard rank_levels acc s :
  all_stats_step (map (pair leaderboard) rank_levels) acc s
    (Api.all_stats_rank_levels env rate_limit_delay isoformat
       leaderboard rank_levels acc s).
Proof.
  revert acc s. induction rank_levels as [|rank_level rest IH];
    intros acc s; simpl.
  - split; [apply extends_by_nil|simpl; lia].
  - pose proof (all_stats_pair_step leaderboard rank_level acc s) as Hp.
    destruct (all_stats_pair leaderboard rank_level acc s) as [acc' s'].
    exact (all_stats_step_app [_] _ _ _ _ _ Hp (IH acc' s')).
Qed.

Lemma all_stats_leaderboards_step leaderboards rank_levels acc s :
  all_stats_step (list_prod leaderboards rank_levels) acc s
    (Api.all_stats_leaderboards env rate_limit_delay isoformat
       leaderboards rank_levels acc s).
Proof.
  revert acc s. induction leaderboards as [|leaderboard rest IH];
    intros acc s; simpl.
  - split; [apply extends_by_nil|simpl; lia].
  - pose proof (all_stats_rank_levels_step leaderboard rank_levels acc s)
      as Hp.
    destruct (Api.all_stats_rank_levels _ _ _ leaderboard rank_levels acc s)
      as [acc' s'].
    exact (all_stats_step_app _ _ _ _ _ _ Hp (IH acc' s')).
Qed.

(** X23: [get_all_civ_stats] asks for all 42 pairs, six leaderboards by
    seven rank levels in loop order, whatever fails on the way; it never
    writes to the row-store, and it prints at most one line per pair. *)
Theorem get_all_civ_stats_asks_every_pair (s : State) :
  let r := Api.get_all_civ_stats env rate_limit_delay isoformat s in
  exists new,
    trace (snd r) = trace s ++ new /\
    gets_of new
    = map stats_request
          (list_prod Sync.all_leaderboards Sync.all_rank_levels) /\
    length (gets_of new) = 42%nat /\
    upserts_of new = [] /\
    (length (snd (fst r)) <= 42)%nat.
Proof.
  intros r.
  destruct (all_stats_leaderboards_step Sync.all_leaderboards
              Sync.all_rank_levels ([], []) s) as [(new & Ht & Hg & Hu) Hl].
  exists new. split; [exact Ht|]. split; [exact Hg|].
  split; [rewrite Hg; reflexivity|]. split; [exact Hu|exact Hl].
Qed.

End AccessorFacts.

(** ** The command-line tool *)

Section CliFacts.
Import Py World Api Sync Cli.

Variable env : Env.
Variable half_second : Z.
Variable isoformat : Z -> string.
Variable create_client : string -> string -> option exn.

Local Abbreviation main :=
  (Cli.main env half_second isoformat create_client).

(** The environment holds a URL and a key that pass the check of the
    constructor and that the library accepts. *)
Definition has_credentials (environ : gmap string string) : Prop :=
  exists url key,
    DbInit.init None None environ = Ok (url, key) /\
    create_client url key = None.

(** X24: without a URL or without a key in the environment (absent or
    empty), [main] raises [ValueError] before anything else happens:
    whatever the mode, it prints nothing, sends no request and writes
    nothing. *)
Theorem main_without_credentials
    (environ : gmap string string) (mode : Mode) (leaderboard : string)
    (count : Z) (s : State) :
  DbInit.truthy (environ !! "SUPABASE_URL") = false \/
  DbInit.truthy (environ !! "SUPABASE_KEY") = false ->
  main environ mode leaderboard count s = ((Raise ValueError, []), s).
Proof.
  intros H. unfold Cli.main, DbInit.init, DbInit.py_or. cbn [DbInit.truthy].
  destruct H as [-> | ->]; simpl; [reflexivity|].
  now rewrite orb_true_r.
Qed.

(** X25: in leaderboard mode, with credentials, [main] always returns
    and prints its closing line, whether the server answered, the page
    was usable and the row-store accepted the write or not; it has sent
    one request, for the leaderboard and the count of its arguments, the
    count reduced to 200 at most. *)
Theorem main_leaderboard_completes
    (environ : gmap string string) (leaderboard : string) (count : Z)
    (s : State) :
  has_credentials environ ->
  let r := main environ Leaderboard leaderboard count s in
  fst (fst r) = Ok tt /\
  snd (fst r) = [Starting Leaderboard; Blank; Blank; Complete] /\
  exists new,
    trace (snd r) = trace s ++ new /\
    gets_of new = [(BASE_URL +:+ leaderboard_endpoint leaderboard,
                    leaderboard_params count)].
Proof.
  intros (u & k & Hinit & Hlib) r. subst r. unfold Cli.main.
  rewrite Hinit, Hlib.
  unfold run_mode, mbind, Py_bind.
  destruct (sync_leaderboard_summary env half_second isoformat
              leaderboard count (stamp 0 s))
    as (n & new & Hr & _ & Htr & Hg & _).
  destruct (sync_leaderboard _ _ _ leaderboard count (stamp 0 s)) as [r1 s1].
  simpl in Hr, Htr. subst r1. cbn. repeat split.
  exists new. split; [exact Htr|exact Hg].
Qed.

(** X26: in quick mode the arguments [--leaderboard] and [--count] play
    no part: with credentials, [main] asks for the statistics of
    [rm_solo] at rank level [all] and then for the 50 first players of
    [rm_solo]; when the write of the statistics is rejected it raises
    that error after the first request, without its closing line. *)
Theorem main_quick_fixed_requests
    (environ : gmap string string) (leaderboard : string) (count : Z)
    (s : State) :
  has_credentials environ ->
  let r := main environ Quick leaderboard count s in
  let stats := stats_request ("rm_solo", "all") in
  let players := (BASE_URL +:+ leaderboard_endpoint "rm_solo",
                  leaderboard_params 50) in
  exists new,
    trace (snd r) = trace s ++ new /\
    match fst (fst r) with
    | Ok _ =>
        gets_of new = [stats; players] /\
        snd (fst r) = [Starting Quick; Blank; Blank; Complete]
    | Raise e =>
        gets_of new = [stats] /\
        snd (fst r) = [Starting Quick; Blank] /\
        exists rows,
          upserts_of new = [("civilization_meta_stats", rows, Some e)]
    end.
Proof.
  intros (u & k & Hinit & Hlib) r stats players. subst r. unfold Cli.main.
  rewrite Hinit, Hlib.
  unfold run_mode, mbind, Py_bind, sync_civ_meta_stats_quick.
  destruct (meta_sync_summary env half_second isoformat
              (Some ["rm_solo"]) (Some ["all"]) (stamp 0 s))
    as (new1 & Ht1 & Hg1 & Hcase).
  change (trace (stamp 0 s)) with (trace s) in Ht1.
  destruct (sync_civ_meta_stats _ _ _ (Some ["rm_solo"]) (Some ["all"])
              (stamp 0 s)) as [[n|e] s1]; cbn [fst snd] in *.
  - destruct (sync_leaderboard_summary env half_second isoformat
                "rm_solo" 50 s1) as (m & new2 & Hr & _ & Ht2 & Hg2 & _).
    destruct (sync_leaderboard _ _ _ "rm_solo" 50 s1) as [r2 s2].
    simpl in Hr, Ht2. subst r2. cbn.
    exists (new1 ++ new2). rewrite Ht2, Ht1, gets_of_app, Hg1, Hg2.
    rewrite <- app_assoc. repeat split.
  - destruct Hcase as [(n' & [=] & _)|(e' & rows & [= <-] & Hu)].
    cbn. exists new1. rewrite Ht1, Hg1. repeat split. now exists rows.
Qed.

End CliFacts.

(** ** Runs of the command-line tool and of [get_all_civ_stats] *)

Section CliRuns.
Import Py World Api Sync Cli.

Definition credentials : gmap string string :=
  <["SUPABASE_URL" := "https://example.supabase.co"]>
    (<["SUPABASE_KEY" := "secret"]> ∅).

(** A library that accepts every pair. *)
Definition lenient : string -> string -> option exn := fun _ _ => None.

Lemma credentials_ok : has_credentials lenient credentials.
Proof.
  exists "https://example.supabase.co", "secret". split; [|reflexivity].
  vm_compute. reflexivity.
Qed.

Lemma all_stats_pair_whole_or_nothing_witness :
  fst (all_stats_pair odd_stat_env 500 tick_text "rm_solo" "all" ([], [])
                      at_1000)
  = ([], [FetchError "rm_solo" "all" TypeError]).
Proof.
  assert (Hs : serves_stats odd_stat_env "rm_solo" "all"
                 [horde_stat; JNum 5; english_stat]).
  { exists 200, [("civilizations", JList [horde_stat; JNum 5; english_stat])].
    repeat split. }
  apply (proj2 (all_stats_pair_whole_or_nothing odd_stat_env 500 tick_text
                  "rm_solo" "all" _ ([], []) at_1000 Hs)).
  apply Exists_cons_tl, Exists_cons_hd. reflexivity.
Defined.

Lemma main_without_credentials_witness :
  main accepting_env 500 tick_text lenient ∅ Full "rm_solo" 50 at_1000
  = ((Raise ValueError, []), at_1000).
Proof. apply main_without_credentials. left. reflexivity. Defined.

(** The server is down and 300 players are asked for: the tool still
    completes, after one request for 200 players. *)
Lemma main_leaderboard_completes_witness :
  fst (fst (main down_env 500 tick_text lenient credentials Leaderboard
                 "rm_team" 300 at_1000)) = Ok tt /\
  gets_of (trace (snd (main down_env 500 tick_text lenient credentials Leaderboard
                            "rm_team" 300 at_1000)))
  = [("https://aoe4world.com/api/v0/leaderboards/rm_team",
      [("count", JNum 200); ("page", JNum 1)])].
Proof.
  destruct (main_leaderboard_completes down_env 500 tick_text lenient credentials
              "rm_team" 300 at_1000 credentials_ok)
    as (Hr & _ & new & Htr & Hg).
  split; [exact Hr|]. rewrite Htr. exact Hg.
Defined.

Lemma main_quick_fixed_requests_witness :
  fst (fst (main accepting_env 500 tick_text lenient credentials Quick
                 "rm_4v4" 7 at_1000)) = Ok tt /\
  gets_of (trace (snd (main accepting_env 500 tick_text lenient credentials Quick
                            "rm_4v4" 7 at_1000)))
  = [("https://aoe4world.com/api/v0/stats/rm_solo",
      [("rank_level", JStr "all")]);
     ("https://aoe4world.com/api/v0/leaderboards/rm_solo",
      [("count", JNum 50); ("page", JNum 1)])].
Proof.
  destruct (main_quick_fixed_requests accepting_env 500 tick_text lenient credentials
              "rm_4v4" 7 at_1000 credentials_ok) as (new & Htr & H).
  assert (Hr : fst (fst (main accepting_env 500 tick_text lenient credentials Quick
                              "rm_4v4" 7 at_1000)) = Ok tt)
    by (vm_compute; reflexivity).
  rewrite Hr in H. destruct H as [Hg _].
  split; [exact Hr|]. rewrite Htr. exact Hg.
Defined.

End CliRuns.
